(** * Notification services (WhatsApp, email, SMS): a shallow embedding

    The three Go services consume notification requests from Kafka, render a
    template, hand the message to a channel sender and publish an
    acknowledgment.  This development embeds the pieces of the Go code the
    specification talks about and settles each claim against them.

    Conventions
    - a Go [string] is a [string] (a sequence of bytes);
    - a Go [map[string]V] is a [gmap string V]; a [for k, v := range m] loop
      visits the entries in an order picked by the runtime, which the class
      [MapRange] provides: any permutation of the entries (no statement below
      needs two enumerations of one map to agree);
    - a Go [error] is a value of [error]; [nil] is [None];
    - calls that leave the process (Kafka, SMTP, HTTP) are recorded in a call
      log, and their outcomes are read from the script of the run;
    - what the services print ([log.Printf], [fmt.Printf]) is left out. *)

From Stdlib Require Import Ascii.
From stdpp Require Import gmap strings list fin_maps.

#[local] Arguments String.append !_ _ / : simpl nomatch.
#[local] Arguments Ascii.eqb : simpl never.

(* ===================================================================== *)
(** * The Go runtime and the [strings] package *)
(* ===================================================================== *)

(** [range] over a map: the entries, each once, in an unspecified order. *)
Class MapRange := {
  range : forall {V : Type}, gmap string V -> list (string * V);
  range_perm : forall (V : Type) (m : gmap string V), range m ≡ₚ map_to_list m
}.

(** Two runtimes, which enumerate every map in opposite orders. *)
Definition range_fwd : MapRange :=
  {| range := fun V m => map_to_list m;
     range_perm := fun V m => reflexivity (map_to_list m) |}.

Definition range_bwd : MapRange :=
  {| range := fun V m => reverse (map_to_list m);
     range_perm := fun V m => reverse_Permutation (map_to_list m) |}.

Module strings.

(** [strings.HasPrefix(s, prefix)] *)
Fixpoint HasPrefix (s prefix : string) {struct prefix} : bool :=
  match prefix with
  | EmptyString => true
  | String p prefix' =>
      match s with
      | EmptyString => false
      | String c s' => if Ascii.eqb c p then HasPrefix s' prefix' else false
      end
  end.

(** The scan of [strings.ReplaceAll] for a non-empty [old]: left to right,
    non-overlapping matches.  [skip] counts the bytes of the current match
    that are still to be dropped. *)
Fixpoint replace_from (old new : string) (skip : nat) (s : string) : string :=
  match s with
  | EmptyString => EmptyString
  | String c s' =>
      match skip with
      | S k => replace_from old new k s'
      | O =>
          if HasPrefix s old
          then new +:+ replace_from old new (String.length old - 1) s'
          else String c (replace_from old new 0 s')
      end
  end.

(** For an empty [old], Go inserts [new] before every character and at the
    end; a character is a byte here (exact on ASCII input). *)
Fixpoint intersperse (new s : string) : string :=
  match s with
  | EmptyString => new
  | String c s' => new +:+ String c (intersperse new s')
  end.

(** [strings.ReplaceAll(s, old, new)] *)
Definition ReplaceAll (s old new : string) : string :=
  match old with
  | EmptyString => intersperse new s
  | String _ _ => replace_from old new 0 s
  end.

(** [strings.Contains(s, substr)] *)
Fixpoint Contains (s substr : string) : bool :=
  HasPrefix s substr ||
  match s with
  | EmptyString => false
  | String _ s' => Contains s' substr
  end.

(** [strings.Split(s, sep)[0]] for a one-byte separator: the part of [s]
    before the first [sep], all of [s] when there is none. *)
Fixpoint Split_first (s : string) (sep : ascii) : string :=
  match s with
  | EmptyString => EmptyString
  | String c s' => if Ascii.eqb c sep then EmptyString else String c (Split_first s' sep)
  end.

End strings.

#[local] Arguments strings.ReplaceAll : simpl never.

(* ===================================================================== *)
(** * Template rendering (utils.RenderTemplate, renderTemplate) *)
(* ===================================================================== *)

(** ["{" + key + "}"] *)
Definition placeholder (key : string) : string := "{" +:+ key +:+ "}".

(** The body of the loop [for key, value := range params], run over the
    entries in the order [order]. *)
Definition render_loop (order : list (string * string)) (template : string) : string :=
  foldl (fun result kv => strings.ReplaceAll result (placeholder kv.1) kv.2)
        template order.

(** [utils.RenderTemplate] of the WhatsApp and email services. *)
Definition RenderTemplate `{MapRange} (template : string)
    (params : gmap string string) : string :=
  if decide (template = "") then ""
  else render_loop (range params) template.

(** [renderTemplate] of the SMS service (and of the two legacy [main.go]):
    the same loop without the guard on the empty template. *)
Definition renderTemplate `{MapRange} (template : string)
    (params : gmap string string) : string :=
  render_loop (range params) template.

(** ** Templates as token lists

    To state what "every placeholder is replaced" means, a template is read as
    a sequence of literal text and placeholders. *)
Inductive Token :=
| Text (s : string)
| Hole (key : string).

Definition token_string (t : Token) : string :=
  match t with
  | Text s => s
  | Hole k => placeholder k
  end.

Definition flatten (ts : list Token) : string :=
  foldr (fun t acc => token_string t +:+ acc) "" ts.

Fixpoint no_lbrace (s : string) : bool :=
  match s with
  | EmptyString => true
  | String c s' => negb (Ascii.eqb c "{"%char) && no_lbrace s'
  end.

Fixpoint brace_free (s : string) : bool :=
  match s with
  | EmptyString => true
  | String c s' => negb (Ascii.eqb c "{"%char) && negb (Ascii.eqb c "}"%char) && brace_free s'
  end.

(** A well-formed token: text without an opening brace, or a placeholder
    whose name has no brace. *)
Definition wf_token (t : Token) : bool :=
  match t with
  | Text s => no_lbrace s
  | Hole k => brace_free k
  end.

(** The rendering the specification describes: every placeholder whose key is
    in [params] becomes the value, in one pass; the others stay. *)
Definition subst (params : gmap string string) (t : Token) : Token :=
  match t with
  | Text s => Text s
  | Hole k => match params !! k with
              | Some v => Text v
              | None => Hole k
              end
  end.

Definition render_spec (params : gmap string string) (ts : list Token) : string :=
  flatten (subst params <$> ts).

(** All keys of [params] are brace-free and no value has an opening brace. *)
Definition plain_params (params : gmap string string) : bool :=
  forallb (fun kv => brace_free kv.1 && no_lbrace kv.2) (map_to_list params).

(** One iteration of the loop, seen on tokens. *)
Definition subst1 (key value : string) (t : Token) : Token :=
  match t with
  | Text s => Text s
  | Hole k => if decide (k = key) then Text value else Hole k
  end.

(** The whole loop, on tokens. *)
Definition subst_loop (order : list (string * string)) (t : Token) : Token :=
  foldl (fun t kv => subst1 kv.1 kv.2 t) t order.



(** ** Substitution key after key

    The loop applies one key at a time to the whole intermediate result.  On
    tokens, with a value read as a template itself: the placeholders of the
    key are replaced by the tokens of the value. *)
Definition expand1 (key : string) (value : list Token) (ts : list Token)
    : list Token :=
  ts ≫= (fun t => match t with
                  | Hole k => if decide (k = key) then value else [t]
                  | Text _ => [t]
                  end).

Definition expand (order : list (string * list Token)) (ts : list Token)
    : list Token :=
  foldl (fun ts kv => expand1 kv.1 kv.2 ts) ts order.

(** The entries of a parameter map whose values are given as token lists. *)
Definition flatten_values (order : list (string * list Token))
    : list (string * string) :=
  (fun kv => (kv.1, flatten kv.2)) <$> order.

(** All keys are brace-free and all values are well-formed templates. *)
Definition wf_order (order : list (string * list Token)) : bool :=
  forallb (fun kv => brace_free kv.1 && forallb wf_token kv.2) order.

(* ===================================================================== *)
(** * Go values: errors, results, decoded JSON *)
(* ===================================================================== *)

(** A Go [error]: a sentinel made by [errors.New], or a wrapper made by
    [fmt.Errorf] around a cause ([%w]), with the text before and after it. *)
Inductive error :=
| errors_New (msg : string)
| fmt_Errorf (before : string) (cause : error) (after : string).

(** [err.Error()] *)
Fixpoint Error (e : error) : string :=
  match e with
  | errors_New msg => msg
  | fmt_Errorf before cause after => before +:+ Error cause +:+ after
  end.

(** A Go pair [(value, error)] of which exactly one side is meaningful. *)
Inductive result (A : Type) :=
| Ok (a : A)
| Err (e : error).
Arguments Ok {A} a.
Arguments Err {A} e.

(** What [encoding/json] stores in an [interface{}]. *)
#[warnings="-register-all"]
Inductive GoValue :=
| VNil
| VBool (b : bool)
| VNumber (literal : string)
| VString (s : string)
| VSlice (l : list GoValue)
| VMap (m : gmap string GoValue).

(** [context.Canceled], returned by [ctx.Err()] once the context is done. *)
Definition context_Canceled : error := errors_New "context canceled".

(** ** Kafka (github.com/segmentio/kafka-go) *)

Record KafkaMessage := {
  Offset : Z;
  Key : string;
  Value : string
}.

(** The outcomes of the calls that leave the process while one inbound
    message is handled: what the clock shows, and what the channel sender, the
    acknowledgment writer and the offset commit answer ([None] is [nil]). *)
Record Outcomes := {
  time_Now : Z;
  send_result : option error;
  write_result : option error;
  commit_result : option error
}.

(** One turn of a consumer loop, as the broker decides it: the fetch fails,
    or it delivers a message. *)
Inductive Poll :=
| PollError (e : error)
| PollMessage (m : KafkaMessage) (o : Outcomes).

(** Acknowledgment record ([AckPayload] of the three services).  The
    timestamp is the instant read from the clock; the SMS service stores its
    RFC 3339 rendering. *)
Record AckPayload := {
  ack_NotificationID : string;
  ack_Status : string;
  ack_Details : string;
  ack_Timestamp : Z
}.

Definition StatusSuccess : string := "SUCCESS".
Definition StatusFailure : string := "FAILURE".
Definition StatusPending : string := "PENDING".

Definition PriorityLow : string := "low".
Definition PriorityMedium : string := "medium".
Definition PriorityHigh : string := "high".
Definition PriorityUrgent : string := "urgent".

(* ===================================================================== *)
(** * Data model of the services *)
(* ===================================================================== *)

(** ** WhatsApp service: internal/models *)
Module whatsapp_models.

Record NotificationPayload := {
  NotificationID : string;
  MessageType : string;
  To : string;
  TemplateBody : string;
  Params : gmap string string;
  ChannelConfig : gmap string GoValue;
  FallbackChannels : list (gmap string GoValue);
  Priority : string;
  Locale : string;
  MediaURL : string;
  MediaType : string;
  TemplateName : string
}.

Definition MediaTypeImage : string := "image".
Definition MediaTypeDocument : string := "document".
Definition MediaTypeAudio : string := "audio".
Definition MediaTypeVideo : string := "video".

Definition ErrInvalidNotificationID : error := errors_New "invalid notification ID".
Definition ErrInvalidRecipient : error := errors_New "invalid recipient".
Definition ErrMissingContent : error := errors_New "missing message content".
Definition ErrInvalidTemplate : error := errors_New "invalid template".
Definition ErrInvalidPhoneNumber : error := errors_New "invalid phone number".

(** [func (n *NotificationPayload) IsValid() error] *)
Definition IsValid (n : NotificationPayload) : option error :=
  if decide (NotificationID n = "") then Some ErrInvalidNotificationID
  else if decide (To n = "") then Some ErrInvalidRecipient
  else if decide (TemplateBody n = "" /\ TemplateName n = "") then Some ErrMissingContent
  else None.

Record TextMessage := {
  PreviewURL : bool;
  Body : string
}.

Record MediaMessage := {
  media_ID : string;
  Link : string;
  Caption : string;
  Filename : string
}.

Record TemplateParameter := {
  param_Type : string;
  param_Text : string;
  param_Image : option MediaMessage
}.

Record TemplateComponent := {
  comp_Type : string;
  Parameters : list TemplateParameter
}.

Record TemplateLanguage := {
  Code : string
}.

Record TemplateMessage := {
  Name : string;
  Language : TemplateLanguage;
  Components : list TemplateComponent
}.

(** [WhatsAppMessage]: the pointer fields are [None] when [nil]. *)
Record WhatsAppMessage := {
  MessagingProduct : string;
  RecipientType : string;
  msg_To : string;
  msg_Type : string;
  Text : option TextMessage;
  Image : option MediaMessage;
  Document : option MediaMessage;
  Audio : option MediaMessage;
  Video : option MediaMessage;
  Template : option TemplateMessage
}.

(** The three shapes of a chat message. *)
Inductive Variant := TextVariant | MediaVariant | TemplateVariant.

(** The shape of a message: which of its pointer fields are populated. *)
Definition variant_of (m : WhatsAppMessage) : option Variant :=
  match Text m, Image m, Document m, Audio m, Video m, Template m with
  | Some _, None, None, None, None, None => Some TextVariant
  | None, Some _, None, None, None, None
  | None, None, Some _, None, None, None
  | None, None, None, Some _, None, None
  | None, None, None, None, Some _, None => Some MediaVariant
  | None, None, None, None, None, Some _ => Some TemplateVariant
  | _, _, _, _, _, _ => None
  end.

End whatsapp_models.

(** ** Email service: internal/models *)
Module email_models.

Record NotificationPayload := {
  NotificationID : string;
  MessageType : string;
  To : string;
  TemplateBody : string;
  Params : gmap string string;
  ChannelConfig : gmap string GoValue;
  FallbackChannels : list (gmap string GoValue);
  Priority : string;
  Locale : string
}.

Record EmailMessage := {
  msg_To : string;
  Subject : string;
  Body : string;
  Headers : gmap string string
}.

Definition ErrInvalidNotificationID : error := errors_New "invalid notification ID".
Definition ErrInvalidRecipient : error := errors_New "invalid recipient email address".
Definition ErrMissingContent : error := errors_New "missing email content".
Definition ErrInvalidSubject : error := errors_New "invalid email subject".
Definition ErrInvalidEmailFormat : error := errors_New "invalid email format".

(** [func (n *NotificationPayload) IsValid() error] *)
Definition IsValid (n : NotificationPayload) : option error :=
  if decide (NotificationID n = "") then Some ErrInvalidNotificationID
  else if decide (To n = "") then Some ErrInvalidRecipient
  else if decide (TemplateBody n = "") then Some ErrMissingContent
  else None.

(** [func (n *NotificationPayload) GetSubject() string] *)
Definition GetSubject (n : NotificationPayload) : string :=
  match ChannelConfig n !! "subject" with
  | Some (VString subject) => subject
  | _ => "Notification"
  end.

(** The entry [key] of [channelConfig["headers"]], when that is a map. *)
Definition custom_header (n : NotificationPayload) (key : string) : option GoValue :=
  match ChannelConfig n !! "headers" with
  | Some (VMap custom) => custom !! key
  | _ => None
  end.

End email_models.

(** ** SMS service: main.go *)
Module sms_models.

Record NotificationPayload := {
  NotificationId : string;
  MessageType : string;
  To : string;
  TemplateBody : string;
  Params : gmap string string;
  ChannelConfig : gmap string GoValue;
  FallbackChannels : list (gmap string GoValue);
  Priority : string;
  Locale : string
}.

End sms_models.

(* ===================================================================== *)
(** * The call log *)
(* ===================================================================== *)

(** The stages of the pipelines that do no input or output themselves; the
    orchestrating functions record when they enter one. *)
Inductive Stage :=
| Stage_IsValid
| Stage_CleanPhoneNumber
| Stage_BuildMessage
| Stage_BuildFromPayload
| Stage_BuildEmailMessage
| Stage_ValidateEmailMessage
| Stage_renderTemplate.

(** The message handed to a channel sender. *)
Inductive ChannelMessage :=
| Chat (m : whatsapp_models.WhatsAppMessage)
| Email (m : email_models.EmailMessage)
| SMS (to message : string).

(** What a run does, in order: the calls to Kafka and to the channel sender,
    and the entries into the pipeline stages. *)
Inductive Call :=
| FetchMessage (r : result KafkaMessage)
| CommitMessages (m : KafkaMessage)
| WriteMessages (key : option string) (ack : AckPayload)
| Send (m : ChannelMessage)
| Enter (s : Stage).

(** A computation that appends to the call log and returns a value. *)
Definition Eff (A : Type) : Type := list Call * A.

Definition ret {A : Type} (a : A) : Eff A := ([], a).

Definition bind {A B : Type} (m : Eff A) (k : A -> Eff B) : Eff B :=
  let (l1, a) := m in
  let (l2, b) := k a in
  (l1 ++ l2, b).

(** Perform the call [c], which answers [a]. *)
Definition call {A : Type} (c : Call) (a : A) : Eff A := ([c], a).

Definition log_of {A : Type} (m : Eff A) : list Call := m.1.
Definition value_of {A : Type} (m : Eff A) : A := m.2.

Notation "'let*' x ':=' m 'in' k" := (bind m (fun x => k))
  (at level 10, x pattern, m at level 100, k at level 200).
Notation "m ';;' k" := (bind m (fun _ => k))
  (at level 100, k at level 200, right associativity).

(** ** Observations on a call log *)

Definition is_commit (c : Call) : bool :=
  match c with CommitMessages _ => true | _ => false end.

Definition is_send (c : Call) : bool :=
  match c with Send _ => true | _ => false end.

(** The acknowledgments written, in order. *)
Definition acks (l : list Call) : list AckPayload :=
  omap (fun c => match c with WriteMessages _ a => Some a | _ => None end) l.

(** Every offset commit in the log comes after an acknowledgment write.
    [seen] tells whether a write has been met already. *)
Fixpoint commits_follow_ack (seen : bool) (l : list Call) : bool :=
  match l with
  | [] => true
  | WriteMessages _ _ :: l' => commits_follow_ack true l'
  | CommitMessages _ :: l' => seen && commits_follow_ack seen l'
  | _ :: l' => commits_follow_ack seen l'
  end.

(* ===================================================================== *)
(** * The Kafka reader (github.com/segmentio/kafka-go) *)
(* ===================================================================== *)

Module kafka.

(** [kafka.Reader.ReadMessage] of kafka-go: it fetches a message and, when
    the reader belongs to a consumer group ([GroupID] set), commits its offset
    before it returns; a failed commit is returned as the read's error. *)
Definition ReadMessage (GroupID : string) (p : Poll) : Eff (result KafkaMessage) :=
  match p with
  | PollError e =>
      call (FetchMessage (Err e)) tt ;;
      ret (Err (fmt_Errorf "fetching message: " e ""))
  | PollMessage m o =>
      call (FetchMessage (Ok m)) tt ;;
      if decide (GroupID <> "") then
        let* r := call (CommitMessages m) (commit_result o) in
        match r with
        | Some e => ret (Err (fmt_Errorf "committing message: " e ""))
        | None => ret (Ok m)
        end
      else ret (Ok m)
  end.

(** The outcomes that go with a poll (none are used when the fetch fails). *)
Definition outcomes_of (p : Poll) : Outcomes :=
  match p with
  | PollMessage _ o => o
  | PollError _ =>
      {| time_Now := 0; send_result := None; write_result := None;
         commit_result := None |}
  end.

End kafka.

(* ===================================================================== *)
(** * WhatsApp service *)
(* ===================================================================== *)

(** ** internal/utils *)
Module whatsapp_utils.
Import whatsapp_models.

Definition is_digit (c : ascii) : bool :=
  Nat.leb 48 (nat_of_ascii c) && Nat.leb (nat_of_ascii c) 57.

Definition is_digit_1_9 (c : ascii) : bool :=
  Nat.leb 49 (nat_of_ascii c) && Nat.leb (nat_of_ascii c) 57.

Fixpoint all_digits (s : string) : bool :=
  match s with
  | EmptyString => true
  | String c s' => is_digit c && all_digits s'
  end.

(** [phoneNumberRegex.MatchString] for the pattern [^\+[1-9]\d{1,14}$]: a
    plus sign at the start of the text, one digit from 1 to 9, then one to
    fourteen digits up to the end of the text. *)
Definition phoneNumberRegex_MatchString (s : string) : bool :=
  match s with
  | String p (String d rest) =>
      Ascii.eqb p "+"%char && is_digit_1_9 d && all_digits rest
      && Nat.leb 1 (String.length rest) && Nat.leb (String.length rest) 14
  | _ => false
  end.

(** The value of the variable [cleaned] when the format is validated. *)
Definition cleaned (phone : string) : string :=
  let cleaned := strings.ReplaceAll phone " " "" in
  let cleaned := strings.ReplaceAll cleaned "-" "" in
  let cleaned := strings.ReplaceAll cleaned "(" "" in
  let cleaned := strings.ReplaceAll cleaned ")" "" in
  let cleaned := strings.ReplaceAll cleaned "." "" in
  if negb (strings.HasPrefix cleaned "+") then "+" +:+ cleaned else cleaned.

(** [func CleanPhoneNumber(phone string) (string, error)] *)
Definition CleanPhoneNumber (phone : string) : result string :=
  if decide (phone = "") then Err ErrInvalidPhoneNumber
  else if negb (phoneNumberRegex_MatchString (cleaned phone))
       then Err ErrInvalidPhoneNumber
       else Ok (cleaned phone).

(** [func GetLanguageCode(locale string) string] *)
Definition GetLanguageCode (locale : string) : string :=
  if decide (locale = "") then "en"
  else if strings.Contains locale "_" then strings.Split_first locale "_"%char
  else locale.

End whatsapp_utils.

(** ** What the cleanup amounts to

    [remove_bytes drop s] is [s] without the bytes that [drop] selects, and
    [with_plus s] is [s] with a plus sign put in front unless it has one. *)
Fixpoint remove_bytes (drop : ascii -> bool) (s : string) : string :=
  match s with
  | EmptyString => EmptyString
  | String c s' =>
      if drop c then remove_bytes drop s' else String c (remove_bytes drop s')
  end.

Definition with_plus (s : string) : string :=
  if strings.HasPrefix s "+" then s else "+" +:+ s.

Definition one_of (bytes : list ascii) (c : ascii) : bool :=
  existsb (Ascii.eqb c) bytes.

(** ** internal/services: message builder and notification service *)
Module whatsapp_services.
Import whatsapp_models.

Definition new_message (to type : string) : WhatsAppMessage :=
  {| MessagingProduct := "whatsapp"; RecipientType := "individual";
     msg_To := to; msg_Type := type;
     Text := None; Image := None; Document := None; Audio := None;
     Video := None; Template := None |}.

Definition set_Text (m : WhatsAppMessage) (t : TextMessage) : WhatsAppMessage :=
  {| MessagingProduct := MessagingProduct m; RecipientType := RecipientType m;
     msg_To := msg_To m; msg_Type := msg_Type m;
     Text := Some t; Image := Image m; Document := Document m; Audio := Audio m;
     Video := Video m; Template := Template m |}.

Definition set_Image (m : WhatsAppMessage) (x : MediaMessage) : WhatsAppMessage :=
  {| MessagingProduct := MessagingProduct m; RecipientType := RecipientType m;
     msg_To := msg_To m; msg_Type := msg_Type m;
     Text := Text m; Image := Some x; Document := Document m; Audio := Audio m;
     Video := Video m; Template := Template m |}.

Definition set_Document (m : WhatsAppMessage) (x : MediaMessage) : WhatsAppMessage :=
  {| MessagingProduct := MessagingProduct m; RecipientType := RecipientType m;
     msg_To := msg_To m; msg_Type := msg_Type m;
     Text := Text m; Image := Image m; Document := Some x; Audio := Audio m;
     Video := Video m; Template := Template m |}.

Definition set_Audio (m : WhatsAppMessage) (x : MediaMessage) : WhatsAppMessage :=
  {| MessagingProduct := MessagingProduct m; RecipientType := RecipientType m;
     msg_To := msg_To m; msg_Type := msg_Type m;
     Text := Text m; Image := Image m; Document := Document m; Audio := Some x;
     Video := Video m; Template := Template m |}.

Definition set_Video (m : WhatsAppMessage) (x : MediaMessage) : WhatsAppMessage :=
  {| MessagingProduct := MessagingProduct m; RecipientType := RecipientType m;
     msg_To := msg_To m; msg_Type := msg_Type m;
     Text := Text m; Image := Image m; Document := Document m; Audio := Audio m;
     Video := Some x; Template := Template m |}.

Definition set_Template (m : WhatsAppMessage) (x : TemplateMessage) : WhatsAppMessage :=
  {| MessagingProduct := MessagingProduct m; RecipientType := RecipientType m;
     msg_To := msg_To m; msg_Type := msg_Type m;
     Text := Text m; Image := Image m; Document := Document m; Audio := Audio m;
     Video := Video m; Template := Some x |}.

Definition set_Type (m : WhatsAppMessage) (type : string) : WhatsAppMessage :=
  {| MessagingProduct := MessagingProduct m; RecipientType := RecipientType m;
     msg_To := msg_To m; msg_Type := type;
     Text := Text m; Image := Image m; Document := Document m; Audio := Audio m;
     Video := Video m; Template := Template m |}.

Definition set_Filename (x : MediaMessage) (filename : string) : MediaMessage :=
  {| media_ID := media_ID x; Link := Link x; Caption := Caption x;
     Filename := filename |}.

Section Builder.
Context `{MapRange}.

(** [func (mb *MessageBuilder) buildTextMessage] *)
Definition buildTextMessage (to : string) (payload : NotificationPayload)
    : result WhatsAppMessage :=
  let body := RenderTemplate (TemplateBody payload) (Params payload) in
  if decide (body = "") then Err ErrMissingContent
  else Ok (set_Text (new_message to "text") {| PreviewURL := true; Body := body |}).

(** [func (mb *MessageBuilder) buildMediaMessage] *)
Definition buildMediaMessage (to : string) (payload : NotificationPayload)
    : result WhatsAppMessage :=
  if decide (MediaURL payload = "") then Err ErrMissingContent
  else
    let message := new_message to (MediaType payload) in
    let mediaMsg :=
      {| media_ID := ""; Link := MediaURL payload;
         Caption := RenderTemplate (TemplateBody payload) (Params payload);
         Filename := "" |} in
    let mediaMsg :=
      if decide (MediaType payload = MediaTypeDocument)
      then match Params payload !! "filename" with
           | Some filename => set_Filename mediaMsg filename
           | None => mediaMsg
           end
      else mediaMsg in
    Ok (if decide (MediaType payload = MediaTypeImage) then set_Image message mediaMsg
        else if decide (MediaType payload = MediaTypeDocument) then set_Document message mediaMsg
        else if decide (MediaType payload = MediaTypeAudio) then set_Audio message mediaMsg
        else if decide (MediaType payload = MediaTypeVideo) then set_Video message mediaMsg
        else set_Image (set_Type message "image") mediaMsg).

(** [func (mb *MessageBuilder) buildTemplateMessage] *)
Definition buildTemplateMessage (to : string) (payload : NotificationPayload)
    : result WhatsAppMessage :=
  if decide (TemplateName payload = "") then Err ErrInvalidTemplate
  else
    let parameters :=
      (fun kv => {| param_Type := "text"; param_Text := kv.2; param_Image := None |})
        <$> range (Params payload) in
    let components :=
      if decide (0 < size (Params payload))
      then [ {| comp_Type := "body"; Parameters := parameters |} ]
      else [] in
    Ok (set_Template (new_message to "template")
          {| Name := TemplateName payload;
             Language := {| Code := whatsapp_utils.GetLanguageCode (Locale payload) |};
             Components := components |}).

(** [func (mb *MessageBuilder) BuildMessage]: the [switch] on the populated
    fields. *)
Definition BuildMessage (payload : NotificationPayload) (to : string)
    : result WhatsAppMessage :=
  if decide (MediaURL payload <> "") then buildMediaMessage to payload
  else if decide (TemplateName payload <> "") then buildTemplateMessage to payload
  else buildTextMessage to payload.

(** [func (ns *NotificationService) ProcessNotification]; the call to
    [whatsappClient.SendMessage] answers [send_result o]. *)
Definition ProcessNotification (o : Outcomes) (payload : NotificationPayload)
    : Eff (option error) :=
  call (Enter Stage_IsValid) tt ;;
  match IsValid payload with
  | Some err => ret (Some (fmt_Errorf "invalid notification payload: " err ""))
  | None =>
      call (Enter Stage_CleanPhoneNumber) tt ;;
      match whatsapp_utils.CleanPhoneNumber (To payload) with
      | Err err =>
          ret (Some (fmt_Errorf ("invalid phone number " +:+ To payload +:+ ": ") err ""))
      | Ok cleanTo =>
          call (Enter Stage_BuildMessage) tt ;;
          match BuildMessage payload cleanTo with
          | Err err => ret (Some (fmt_Errorf "failed to build message: " err ""))
          | Ok message =>
              let* r := call (Send (Chat message)) (send_result o) in
              match r with
              | Some err =>
                  ret (Some (fmt_Errorf "failed to send WhatsApp message: " err ""))
              | None => ret None
              end
          end
      end
  end.

End Builder.
End whatsapp_services.

(** ** internal/whatsapp, internal/kafka and the [service] package: the
    consumer that acknowledges from its message handler *)
Module whatsapp_legacy.
Import whatsapp_models.
Import whatsapp_services.

(** [func CleanPhoneNumber(phone string) string] of package [whatsapp] *)
Definition CleanPhoneNumber (phone : string) : string :=
  let cleaned := strings.ReplaceAll phone " " "" in
  let cleaned := strings.ReplaceAll cleaned "-" "" in
  let cleaned := strings.ReplaceAll cleaned "(" "" in
  let cleaned := strings.ReplaceAll cleaned ")" "" in
  if negb (strings.HasPrefix cleaned "+") then "+" +:+ cleaned else cleaned.

(** [func GetLanguageCode(locale string) string] of package [whatsapp] *)
Definition GetLanguageCode (locale : string) : string :=
  if decide (locale = "") then "en"
  else if strings.Contains locale "_" then strings.Split_first locale "_"%char
  else locale.

Section Builder.
Context `{MapRange}.

(** [func (mb *MessageBuilder) renderTemplate] *)
Definition renderTemplate (template : string) (params : gmap string string) : string :=
  render_loop (range params) template.

(** [func (mb *MessageBuilder) BuildTextMessage] *)
Definition BuildTextMessage (to body : string) : WhatsAppMessage :=
  set_Text (new_message (CleanPhoneNumber to) "text")
           {| PreviewURL := true; Body := body |}.

(** [func (mb *MessageBuilder) BuildMediaMessage] *)
Definition BuildMediaMessage (to : string) (payload : NotificationPayload)
    : WhatsAppMessage :=
  let message := new_message (CleanPhoneNumber to) (MediaType payload) in
  let caption := renderTemplate (TemplateBody payload) (Params payload) in
  let mediaMsg :=
    {| media_ID := ""; Link := MediaURL payload; Caption := caption; Filename := "" |} in
  if decide (MediaType payload = MediaTypeImage) then set_Image message mediaMsg
  else if decide (MediaType payload = MediaTypeDocument) then
    set_Document message
      match Params payload !! "filename" with
      | Some filename => set_Filename mediaMsg filename
      | None => mediaMsg
      end
  else if decide (MediaType payload = MediaTypeAudio) then set_Audio message mediaMsg
  else if decide (MediaType payload = MediaTypeVideo) then set_Video message mediaMsg
  else set_Image (set_Type message "image") mediaMsg.

(** [func (mb *MessageBuilder) BuildTemplateMessage] *)
Definition BuildTemplateMessage (to : string) (payload : NotificationPayload)
    : WhatsAppMessage :=
  let components :=
    if decide (0 < size (Params payload))
    then [ {| comp_Type := "body";
              Parameters :=
                (fun kv => {| param_Type := "text"; param_Text := kv.2;
                              param_Image := None |})
                  <$> range (Params payload) |} ]
    else [] in
  set_Template (new_message (CleanPhoneNumber to) "template")
    {| Name := TemplateName payload;
       Language := {| Code := GetLanguageCode (Locale payload) |};
       Components := components |}.

(** [func (mb *MessageBuilder) BuildFromPayload] *)
Definition BuildFromPayload (payload : NotificationPayload) : WhatsAppMessage :=
  if decide (MediaURL payload <> "") then BuildMediaMessage (To payload) payload
  else if decide (TemplateName payload <> "") then BuildTemplateMessage (To payload) payload
  else
    let body := renderTemplate (TemplateBody payload) (Params payload) in
    BuildTextMessage (To payload) body.

(** [func (p *Producer) SendAck]; [writer.WriteMessages] answers
    [write_result o]. *)
Definition SendAck (o : Outcomes) (notificationID status details : string)
    : Eff (option error) :=
  let ack := {| ack_NotificationID := notificationID; ack_Status := status;
                ack_Details := details; ack_Timestamp := time_Now o |} in
  let* r := call (WriteMessages (Some notificationID) ack) (write_result o) in
  match r with
  | Some err => ret (Some (fmt_Errorf "failed to write ack to Kafka: " err ""))
  | None => ret None
  end.

(** [func (s *WhatsAppService) HandleMessage]; [client.SendMessage] answers
    [send_result o].  [models.AckStatusFailure] and [models.AckStatusSuccess]
    are not declared in the sources at hand; they are taken to be the status
    strings "FAILURE" and "SUCCESS" of [models.Status]. *)
Definition HandleMessage (o : Outcomes) (payload : NotificationPayload)
    : Eff (option error) :=
  call (Enter Stage_BuildFromPayload) tt ;;
  let message := BuildFromPayload payload in
  let* r := call (Send (Chat message)) (send_result o) in
  match r with
  | Some err =>
      SendAck o (NotificationID payload) StatusFailure
              ("Failed to send WhatsApp message: " +:+ Error err) ;;
      ret (Some (fmt_Errorf "failed to send WhatsApp message: " err ""))
  | None =>
      SendAck o (NotificationID payload) StatusSuccess
              "WhatsApp message sent successfully" ;;
      ret None
  end.

End Builder.

Section Consumer.
(** [json.Unmarshal(msg.Value, &payload)]: the payload as far as it was
    filled, and the error. *)
Variable json_Unmarshal : string -> NotificationPayload * option error.
(** [handler.HandleMessage] *)
Variable handler : Outcomes -> NotificationPayload -> Eff (option error).
(** [c.reader.Config().GroupID] *)
Variable GroupID : string.

(** The body of the [default:] branch of the loop of [Consumer.Start]. *)
Definition Start_iteration (p : Poll) : Eff unit :=
  let* r := kafka.ReadMessage GroupID p in
  match r with
  | Err _ => ret tt
  | Ok msg =>
      match json_Unmarshal (Value msg) with
      | (_, Some _) => ret tt
      | (payload, None) => handler (kafka.outcomes_of p) payload ;; ret tt
      end
  end.

(** [func (c *Consumer) Start]: the loop runs until the context is
    cancelled, which happens when the script of polls is exhausted. *)
Fixpoint Start (script : list Poll) : Eff error :=
  match script with
  | [] => ret context_Canceled
  | p :: script' => Start_iteration p ;; Start script'
  end.

End Consumer.
End whatsapp_legacy.

(* ===================================================================== *)
(** * Email service *)
(* ===================================================================== *)

Module email_services.
Import email_models.

(** [func (mb *MessageBuilder) mapPriorityToHeader] *)
Definition mapPriorityToHeader (priority : string) : string :=
  if decide (priority = PriorityUrgent) then "1 (Highest)"
  else if decide (priority = PriorityHigh) then "2 (High)"
  else if decide (priority = PriorityMedium) then "3 (Normal)"
  else if decide (priority = PriorityLow) then "4 (Low)"
  else "3 (Normal)".

(** The body of the loop over [channelConfig["headers"]]: string values are
    copied into the message headers, the others are skipped. *)
Definition add_custom_header (headers : gmap string string)
    (kv : string * GoValue) : gmap string string :=
  match kv.2 with
  | VString strValue => <[kv.1 := strValue]> headers
  | _ => headers
  end.

(** The acknowledgment that [processMessage] writes for a decoded request. *)
Definition expected_ack (o : Outcomes) (payload : NotificationPayload)
    (r : option error) : AckPayload :=
  {| ack_NotificationID := NotificationID payload;
     ack_Status := match r with None => StatusSuccess | Some _ => StatusFailure end;
     ack_Details := match r with
                    | None => "Email sent successfully"
                    | Some err => Error err
                    end;
     ack_Timestamp := time_Now o |}.

Section Service.
Context `{MapRange}.
(** [emailRegex.MatchString] and [strings.TrimSpace], used by
    [utils.ValidateEmail]. *)
Variable emailRegex_MatchString : string -> bool.
Variable strings_TrimSpace : string -> string.
(** [json.Unmarshal(message.Value, &payload)]: the payload as far as it was
    filled, and the error. *)
Variable json_Unmarshal : string -> NotificationPayload * option error.

(** [func RenderEmailTemplate(subject, body string, params map[string]string)] *)
Definition RenderEmailTemplate (subject body : string)
    (params : gmap string string) : string * string :=
  let renderedSubject := RenderTemplate subject params in
  let renderedBody := RenderTemplate body params in
  (renderedSubject, renderedBody).

(** [func ValidateEmail(email string) error] *)
Definition ValidateEmail (email : string) : option error :=
  if decide (email = "") then Some ErrInvalidRecipient
  else if negb (emailRegex_MatchString (strings_TrimSpace email))
       then Some ErrInvalidEmailFormat
       else None.

(** [func (mb *MessageBuilder) BuildEmailMessage] *)
Definition BuildEmailMessage (payload : NotificationPayload) : result EmailMessage :=
  match IsValid payload with
  | Some err => Err err
  | None =>
      let subject := GetSubject payload in
      let (renderedSubject, renderedBody) :=
        RenderEmailTemplate subject (TemplateBody payload) (Params payload) in
      let headers : gmap string string := ∅ in
      let headers :=
        if decide (Priority payload <> "")
        then <["X-Priority" := mapPriorityToHeader (Priority payload)]> headers
        else headers in
      let headers :=
        if decide (NotificationID payload <> "")
        then <["X-Notification-ID" := NotificationID payload]> headers
        else headers in
      let headers :=
        match ChannelConfig payload !! "headers" with
        | Some (VMap custom) => foldl add_custom_header headers (range custom)
        | _ => headers
        end in
      Ok {| msg_To := To payload; Subject := renderedSubject;
            Body := renderedBody; Headers := headers |}
  end.

(** [func (mb *MessageBuilder) ValidateEmailMessage] *)
Definition ValidateEmailMessage (message : EmailMessage) : option error :=
  match ValidateEmail (msg_To message) with
  | Some err => Some err
  | None =>
      if decide (Subject message = "") then Some ErrInvalidSubject
      else if decide (Body message = "") then Some ErrMissingContent
      else None
  end.

(** [func (ns *NotificationService) ProcessNotification]; the call to
    [emailClient.SendEmail] answers [send_result o]. *)
Definition ProcessNotification (o : Outcomes) (payload : NotificationPayload)
    : Eff (option error) :=
  call (Enter Stage_BuildEmailMessage) tt ;;
  match BuildEmailMessage payload with
  | Err err => ret (Some (fmt_Errorf "failed to build email message: " err ""))
  | Ok message =>
      call (Enter Stage_ValidateEmailMessage) tt ;;
      match ValidateEmailMessage message with
      | Some err => ret (Some (fmt_Errorf "invalid email message: " err ""))
      | None =>
          let* r := call (Send (Email message)) (send_result o) in
          match r with
          | Some err => ret (Some (fmt_Errorf "failed to send email: " err ""))
          | None => ret None
          end
      end
  end.

(** [func (ks *KafkaService) SendAck]; [ks.writer.WriteMessages] answers
    [write_result o]. *)
Definition SendAck (o : Outcomes) (notificationID status details : string)
    : Eff (option error) :=
  let ack := {| ack_NotificationID := notificationID; ack_Status := status;
                ack_Details := details; ack_Timestamp := time_Now o |} in
  call (WriteMessages (Some notificationID) ack) (write_result o).

(** [func (ks *KafkaService) processMessage] *)
Definition processMessage (o : Outcomes) (message : KafkaMessage)
    (processor : Outcomes -> NotificationPayload -> Eff (option error))
    : Eff (option error) :=
  match json_Unmarshal (Value message) with
  | (payload, Some _) =>
      SendAck o (NotificationID payload) StatusFailure "Invalid JSON payload"
  | (payload, None) =>
      let* r := processor o payload in
      match r with
      | Some err => SendAck o (NotificationID payload) StatusFailure (Error err)
      | None => SendAck o (NotificationID payload) StatusSuccess "Email sent successfully"
      end
  end.

(** The body of the [default:] branch of the loop of [StartConsumer]. *)
Definition StartConsumer_iteration (p : Poll)
    (processor : Outcomes -> NotificationPayload -> Eff (option error)) : Eff unit :=
  match p with
  | PollError e => call (FetchMessage (Err e)) tt
  | PollMessage m o =>
      call (FetchMessage (Ok m)) tt ;;
      processMessage o m processor ;;
      call (CommitMessages m) (commit_result o) ;;
      ret tt
  end.

(** [func (ks *KafkaService) StartConsumer]: the loop runs until the context
    is cancelled, which happens when the script of polls is exhausted. *)
Fixpoint StartConsumer (script : list Poll)
    (processor : Outcomes -> NotificationPayload -> Eff (option error)) : Eff error :=
  match script with
  | [] => ret context_Canceled
  | p :: script' => StartConsumer_iteration p processor ;; StartConsumer script' processor
  end.

(** [func (ns *NotificationService) StartConsumer] *)
Definition NotificationService_StartConsumer (script : list Poll) : Eff error :=
  StartConsumer script ProcessNotification.

End Service.
End email_services.

(* ===================================================================== *)
(** * SMS service (main.go) *)
(* ===================================================================== *)

Module sms_service.
Import sms_models.

Record AppConfig := {
  KafkaBroker : string;
  SMSTopic : string;
  AckTopic : string;
  GroupID : string;
  ServicePort : string
}.

Section Service.
Context `{MapRange}.
(** [os.Getenv] *)
Variable os_Getenv : string -> string.
(** [json.Unmarshal(m.Value, &payload)] *)
Variable json_Unmarshal : string -> NotificationPayload * option error.

(** [func getenv(key, def string) string] *)
Definition getenv (key def : string) : string :=
  let val := os_Getenv key in
  if decide (val = "") then def else val.

(** [func getConfigFromEnv() AppConfig] *)
Definition getConfigFromEnv : AppConfig :=
  {| KafkaBroker := getenv "KAFKA_BROKER" "localhost:9092";
     SMSTopic := getenv "SMS_TOPIC" "notification_sms_topic";
     AckTopic := getenv "ACK_TOPIC" "notification_sms_ack_topic";
     GroupID := getenv "GROUP_ID" "sms-service-group";
     ServicePort := getenv "SERVICE_PORT" "8086" |}.

(** [func cleanPhoneNumber(phone string) string] *)
Definition cleanPhoneNumber (phone : string) : string :=
  let cleaned := strings.ReplaceAll phone " " "" in
  let cleaned := strings.ReplaceAll cleaned "-" "" in
  let cleaned := strings.ReplaceAll cleaned "(" "" in
  let cleaned := strings.ReplaceAll cleaned ")" "" in
  if negb (strings.HasPrefix cleaned "+") then "+" +:+ cleaned else cleaned.

(** [func sendSMS(to, message string) error]: the send is simulated and
    always succeeds. *)
Definition sendSMS (to message : string) : Eff (option error) :=
  call (Send (SMS to message)) None.

(** [func handleSMSPayload(payload NotificationPayload, config AppConfig) error] *)
Definition handleSMSPayload (payload : NotificationPayload) (config : AppConfig)
    : Eff (option error) :=
  call (Enter Stage_CleanPhoneNumber) tt ;;
  let to := cleanPhoneNumber (To payload) in
  call (Enter Stage_renderTemplate) tt ;;
  let message := renderTemplate (TemplateBody payload) (Params payload) in
  sendSMS to message.

(** [func produceAck(cfg AppConfig, notificationId, status, details string)]:
    the message is written without a key; a failed write is printed. *)
Definition produceAck (o : Outcomes) (cfg : AppConfig)
    (notificationId status details : string) : Eff unit :=
  let ack := {| ack_NotificationID := notificationId; ack_Status := status;
                ack_Details := details; ack_Timestamp := time_Now o |} in
  call (WriteMessages None ack) (write_result o) ;;
  ret tt.

(** The body of the loop of [consumeSMSTopic]. *)
Definition consumeSMSTopic_iteration (cfg : AppConfig) (p : Poll) : Eff unit :=
  let* r := kafka.ReadMessage (GroupID cfg) p in
  match r with
  | Err _ => ret tt
  | Ok m =>
      match json_Unmarshal (Value m) with
      | (_, Some _) => ret tt
      | (payload, None) =>
          let o := kafka.outcomes_of p in
          let* r := handleSMSPayload payload cfg in
          match r with
          | Some err =>
              produceAck o cfg (NotificationId payload) "FAILURE"
                         ("Failed to send SMS: " +:+ Error err)
          | None =>
              produceAck o cfg (NotificationId payload) "SUCCESS" "SMS sent successfully"
          end
      end
  end.

(** [func consumeSMSTopic(cfg AppConfig)]: the loop never returns; the run
    is followed for as long as the script of polls lasts. *)
Fixpoint consumeSMSTopic (cfg : AppConfig) (script : list Poll) : Eff unit :=
  match script with
  | [] => ret tt
  | p :: script' => consumeSMSTopic_iteration cfg p ;; consumeSMSTopic cfg script'
  end.

End Service.
End sms_service.

(* ===================================================================== *)
(** * Sample inputs *)
(* ===================================================================== *)

Module samples.

Definition outcomes_ok : Outcomes :=
  {| time_Now := 1700000000; send_result := None; write_result := None;
     commit_result := None |}.

(** A chat request whose recipient has a leading zero. *)
Definition chat_leading_zero : whatsapp_models.NotificationPayload :=
  {| whatsapp_models.NotificationID := "n-1";
     whatsapp_models.MessageType := "whatsapp";
     whatsapp_models.To := "(012) 345-6789";
     whatsapp_models.TemplateBody := "Hello";
     whatsapp_models.Params := ∅;
     whatsapp_models.ChannelConfig := ∅;
     whatsapp_models.FallbackChannels := [];
     whatsapp_models.Priority := "high";
     whatsapp_models.Locale := "en_US";
     whatsapp_models.MediaURL := "";
     whatsapp_models.MediaType := "";
     whatsapp_models.TemplateName := "" |}.

(** A chat request without a recipient. *)
Definition chat_no_recipient : whatsapp_models.NotificationPayload :=
  {| whatsapp_models.NotificationID := "n-6";
     whatsapp_models.MessageType := "whatsapp";
     whatsapp_models.To := "";
     whatsapp_models.TemplateBody := "Hello";
     whatsapp_models.Params := ∅;
     whatsapp_models.ChannelConfig := ∅;
     whatsapp_models.FallbackChannels := [];
     whatsapp_models.Priority := "low";
     whatsapp_models.Locale := "";
     whatsapp_models.MediaURL := "";
     whatsapp_models.MediaType := "";
     whatsapp_models.TemplateName := "" |}.

(** A valid chat request whose only parameter is empty: the body renders
    to the empty string. *)
Definition chat_empty_body : whatsapp_models.NotificationPayload :=
  {| whatsapp_models.NotificationID := "n-2";
     whatsapp_models.MessageType := "whatsapp";
     whatsapp_models.To := "+1234567890";
     whatsapp_models.TemplateBody := "{a}";
     whatsapp_models.Params := {[ "a" := "" ]};
     whatsapp_models.ChannelConfig := ∅;
     whatsapp_models.FallbackChannels := [];
     whatsapp_models.Priority := "low";
     whatsapp_models.Locale := "";
     whatsapp_models.MediaURL := "";
     whatsapp_models.MediaType := "";
     whatsapp_models.TemplateName := "" |}.

(** A chat request with a media URL and a template name. *)
Definition chat_media_and_template : whatsapp_models.NotificationPayload :=
  {| whatsapp_models.NotificationID := "n-3";
     whatsapp_models.MessageType := "whatsapp";
     whatsapp_models.To := "+1234567890";
     whatsapp_models.TemplateBody := "Your invoice";
     whatsapp_models.Params := ∅;
     whatsapp_models.ChannelConfig := ∅;
     whatsapp_models.FallbackChannels := [];
     whatsapp_models.Priority := "low";
     whatsapp_models.Locale := "en_US";
     whatsapp_models.MediaURL := "https://example.com/invoice.pdf";
     whatsapp_models.MediaType := "document";
     whatsapp_models.TemplateName := "invoice_ready" |}.

(** A valid email request; [priority] is its priority field. *)
Definition email_request (priority : string) : email_models.NotificationPayload :=
  {| email_models.NotificationID := "n-4";
     email_models.MessageType := "email";
     email_models.To := "ann@example.com";
     email_models.TemplateBody := "Hello {name}";
     email_models.Params := {[ "name" := "Ann" ]};
     email_models.ChannelConfig := {[ "subject" := VString "Welcome" ]};
     email_models.FallbackChannels := [];
     email_models.Priority := priority;
     email_models.Locale := "en_US" |}.

(** An SMS request without a recipient. *)
Definition sms_no_recipient : sms_models.NotificationPayload :=
  {| sms_models.NotificationId := "n-5";
     sms_models.MessageType := "sms";
     sms_models.To := "";
     sms_models.TemplateBody := "Hi";
     sms_models.Params := ∅;
     sms_models.ChannelConfig := ∅;
     sms_models.FallbackChannels := [];
     sms_models.Priority := "low";
     sms_models.Locale := "" |}.

Definition sms_config : sms_service.AppConfig :=
  {| sms_service.KafkaBroker := "localhost:9092";
     sms_service.SMSTopic := "notification_sms_topic";
     sms_service.AckTopic := "notification_sms_ack_topic";
     sms_service.GroupID := "sms-service-group";
     sms_service.ServicePort := "8086" |}.

(** An SMS request. *)
Definition sms_request : sms_models.NotificationPayload :=
  {| sms_models.NotificationId := "n-7";
     sms_models.MessageType := "sms";
     sms_models.To := "(123) 456-7890";
     sms_models.TemplateBody := "Hi {name}";
     sms_models.Params := {[ "name" := "Ann" ]};
     sms_models.ChannelConfig := ∅;
     sms_models.FallbackChannels := [];
     sms_models.Priority := "low";
     sms_models.Locale := "" |}.

(** The zero values of the payload structs: what [json.Unmarshal] leaves
    when it rejects the input before it decodes any field. *)
Definition sms_zero : sms_models.NotificationPayload :=
  {| sms_models.NotificationId := ""; sms_models.MessageType := "";
     sms_models.To := ""; sms_models.TemplateBody := "";
     sms_models.Params := ∅; sms_models.ChannelConfig := ∅;
     sms_models.FallbackChannels := []; sms_models.Priority := "";
     sms_models.Locale := "" |}.

Definition email_zero : email_models.NotificationPayload :=
  {| email_models.NotificationID := ""; email_models.MessageType := "";
     email_models.To := ""; email_models.TemplateBody := "";
     email_models.Params := ∅; email_models.ChannelConfig := ∅;
     email_models.FallbackChannels := []; email_models.Priority := "";
     email_models.Locale := "" |}.

Definition chat_zero : whatsapp_models.NotificationPayload :=
  {| whatsapp_models.NotificationID := ""; whatsapp_models.MessageType := "";
     whatsapp_models.To := ""; whatsapp_models.TemplateBody := "";
     whatsapp_models.Params := ∅; whatsapp_models.ChannelConfig := ∅;
     whatsapp_models.FallbackChannels := []; whatsapp_models.Priority := "";
     whatsapp_models.Locale := ""; whatsapp_models.MediaURL := "";
     whatsapp_models.MediaType := ""; whatsapp_models.TemplateName := "" |}.

(** Two inbound messages: one whose body is cut short, one that decodes. *)
Definition bad_message : KafkaMessage :=
  {| Offset := 41; Key := "n-0"; Value := "{notificationId:" |}.

Definition good_message : KafkaMessage :=
  {| Offset := 42; Key := "n-7"; Value := "request n-7" |}.

Definition syntax_error : error := errors_New "unexpected end of JSON input".

(** Stand-ins for [json.Unmarshal] on the two bodies above. *)
Definition sms_Unmarshal (data : string)
    : sms_models.NotificationPayload * option error :=
  if decide (data = Value good_message) then (sms_request, None)
  else (sms_zero, Some syntax_error).

Definition email_Unmarshal (data : string)
    : email_models.NotificationPayload * option error :=
  if decide (data = Value good_message) then (email_request "high", None)
  else (email_zero, Some syntax_error).

Definition chat_Unmarshal (data : string)
    : whatsapp_models.NotificationPayload * option error :=
  if decide (data = Value good_message) then (chat_media_and_template, None)
  else (chat_zero, Some syntax_error).

(** Outcomes in which the acknowledgment write fails. *)
Definition outcomes_write_fails : Outcomes :=
  {| time_Now := 1700000000; send_result := None;
     write_result := Some (errors_New "kafka: write timeout");
     commit_result := None |}.

(** Outcomes in which the channel sender fails. *)
Definition outcomes_send_fails : Outcomes :=
  {| time_Now := 1700000000;
     send_result := Some (errors_New "network error");
     write_result := None; commit_result := None |}.

End samples.

(* ===================================================================== *)
(** * Further code of the services *)
(* ===================================================================== *)

From Equations Require Import Equations.
From Equations.Prop Require Import Logic.

(** A runtime that starts every enumeration [n] entries further on. *)
Definition range_from (n : nat) : MapRange :=
  {| range := fun V m => drop n (map_to_list m) ++ take n (map_to_list m);
     range_perm := fun V m =>
       eq_rect _ (fun l => drop n (map_to_list m) ++ take n (map_to_list m) ≡ₚ l)
               (Permutation_app_comm (drop n (map_to_list m)) (take n (map_to_list m)))
               _ (take_drop n (map_to_list m)) |}.

(** ** Strings seen byte by byte *)

(** [f] applied to every byte of [s], the results put end to end. *)
Fixpoint map_bytes (f : ascii -> string) (s : string) : string :=
  match s with
  | EmptyString => EmptyString
  | String c s' => f c +:+ map_bytes f s'
  end.

(** The byte [c] occurs in [s]. *)
Fixpoint has_byte (c : ascii) (s : string) : bool :=
  match s with
  | EmptyString => false
  | String x s' => Ascii.eqb x c || has_byte c s'
  end.

(** The string is one byte long. *)
Definition one_byte (s : string) : bool :=
  match s with
  | String _ EmptyString => true
  | _ => false
  end.

(** ** email-service/internal/utils/template.go: EscapeHTML *)
Module email_utils.

(** The double quote character. *)
Definition quote : ascii := ascii_of_nat 34.

(** The map [replacements] of [EscapeHTML]. *)
Definition replacements : gmap string string :=
  {[ "&" := "&amp;"; "<" := "&lt;"; ">" := "&gt;";
     String quote "" := "&quot;"; "'" := "&#39;" ]}.

(** The loop [for old, new := range replacements], over [order]. *)
Definition escape_loop (order : list (string * string)) (text : string) : string :=
  foldl (fun result kv => strings.ReplaceAll result kv.1 kv.2) text order.

(** [func EscapeHTML(text string) string] *)
Definition EscapeHTML `{MapRange} (text : string) : string :=
  escape_loop (range replacements) text.

(** What one pass over the text gives: every byte that is a key of
    [replacements] becomes its entity, the others stay. *)
Definition escape_byte (c : ascii) : string :=
  default (String c "") (replacements !! String c "").

(** An order of visit under which the loop is one pass: every key is one
    byte, no key comes twice, and no replacement holds the key of an entry
    visited after it. *)
Fixpoint table_ok (order : list (string * string)) : bool :=
  match order with
  | [] => true
  | kv :: rest =>
      one_byte kv.1
      && forallb (fun kv' =>
                    negb (String.eqb kv'.1 kv.1)
                    && match kv'.1 with
                       | String c _ => negb (has_byte c kv.2)
                       | EmptyString => true
                       end) rest
      && table_ok rest
  end.

(** The bytes [EscapeHTML] is meant to remove from the text. *)
Definition markup_bytes : list ascii := ["<"%char; ">"%char; quote; "'"%char].

End email_utils.

(** ** whatsapp-service/internal/utils/phone.go: IsValidPhoneNumber *)
Module whatsapp_phone.
Import whatsapp_models whatsapp_utils.

(** [func IsValidPhoneNumber(phone string) bool] *)
Definition IsValidPhoneNumber (phone : string) : bool :=
  match CleanPhoneNumber phone with
  | Err _ => false
  | Ok cleaned => phoneNumberRegex_MatchString cleaned
  end.

End whatsapp_phone.

(** The bytes the chat cleanup removes, and those the SMS cleanup removes. *)
Definition chat_separators : list ascii := [" "; "-"; "("; ")"; "."]%char.
Definition sms_separators : list ascii := [" "; "-"; "("; ")"]%char.

(** ** Indices and slices *)

(** [strings.Index(s, substr)]: the index of the first instance of
    [substr] in [s]; [None] stands for -1. *)
Fixpoint strings_Index (s substr : string) {struct s} : option nat :=
  if strings.HasPrefix s substr then Some 0
  else match s with
       | EmptyString => None
       | String _ s' => S <$> strings_Index s' substr
       end.

(** [s[n:]], for [n] up to the length of [s]. *)
Fixpoint slice_from (n : nat) (s : string) : string :=
  match n, s with
  | S n', String _ s' => slice_from n' s'
  | _, _ => s
  end.

(** [s[:n]], for [n] up to the length of [s]. *)
Fixpoint slice_to (n : nat) (s : string) : string :=
  match n, s with
  | S n', String c s' => String c (slice_to n' s')
  | _, _ => EmptyString
  end.

(** [s[lo:hi]], for [lo <= hi] up to the length of [s]. *)
Definition slice (s : string) (lo hi : nat) : string :=
  slice_to (hi - lo) (slice_from lo s).

(** ** utils/template.go: ValidateTemplate *)

(** The body of [if _, exists := params[param]; !exists]: [param] is put
    at the end of [missingParams] unless it is there already. *)
Definition note_missing (params : gmap string string)
    (missingParams : list string) (param : string) : list string :=
  match params !! param with
  | Some _ => missingParams
  | None =>
      let found := existsb (fun missing => bool_decide (missing = param)) missingParams in
      if negb found then missingParams ++ [param] else missingParams
  end.

(** The loop [for { ... }] of [ValidateTemplate], from the values of
    [start] and [missingParams] at the head of an iteration. *)
Equations ValidateTemplate_loop (template : string) (params : gmap string string)
    (start : nat) (missingParams : list string) : list string
    by wf (String.length template - start) lt :=
ValidateTemplate_loop template params start missingParams
    with inspect (strings_Index (slice_from start template) "{") := {
  | exist _ None _ => missingParams
  | exist _ (Some startIdx) Hstart
      with inspect (strings_Index (slice_from (startIdx + start) template) "}") := {
      | exist _ None _ => missingParams
      | exist _ (Some endIdx) Hend =>
          ValidateTemplate_loop template params (endIdx + (startIdx + start) + 1)
            (note_missing params missingParams
               (slice template (startIdx + start + 1) (endIdx + (startIdx + start)))) } }.
Next Obligation.
  assert (Hlt : forall s i, strings_Index s "}" = Some i -> i < String.length s).
  { induction s as [|c s IH]; intros i; cbn [strings_Index]; [done |].
    destruct (strings.HasPrefix (String c s) "}").
    - intros [= <-]. cbn [String.length]. lia.
    - destruct (strings_Index s "}") as [j|]; [| done].
      intros [= <-]. cbn [String.length]. specialize (IH j eq_refl). lia. }
  assert (Hlen : forall n s, String.length (slice_from n s) = String.length s - n).
  { induction n as [|n IH]; intros [|c s]; cbn; done. }
  apply Hlt in Hend. rewrite Hlen in Hend. lia.
Qed.

(** [func ValidateTemplate(template string, params map[string]string) []string] *)
Definition ValidateTemplate (template : string) (params : gmap string string)
    : list string :=
  ValidateTemplate_loop template params 0 [].

(** The names of the placeholders of a token list, in order. *)
Definition hole_keys (ts : list Token) : list string :=
  omap (fun t => match t with Hole k => Some k | Text _ => None end) ts.

(** A list without the repetitions of its elements. *)
Fixpoint first_occurrences (l : list string) : list string :=
  match l with
  | [] => []
  | x :: l' => x :: filter (fun y => y <> x) (first_occurrences l')
  end.

(** ** email-service/internal/utils/validation.go: SanitizeSubject *)
Module email_validation.
Section Validation.
(** [strings.TrimSpace] *)
Variable strings_TrimSpace : string -> string.

(** [func FormatEmailAddress(email, name string) string] *)
Definition FormatEmailAddress (email name : string) : string :=
  if decide (name = "") then email
  else name +:+ " <" +:+ email +:+ ">".

(** [func SanitizeSubject(subject string) string]; line feed, carriage
    return and tab are the bytes 10, 13 and 9. *)
Definition SanitizeSubject (subject : string) : string :=
  let subject := strings.ReplaceAll subject (String "010" "") " " in
  let subject := strings.ReplaceAll subject (String "013" "") " " in
  let subject := strings.ReplaceAll subject (String "009" "") " " in
  let subject := strings_TrimSpace subject in
  if decide (200 < String.length subject)
  then slice_to 197 subject +:+ "..."
  else subject.

End Validation.

(** The bytes [SanitizeSubject] replaces. *)
Definition line_bytes : list ascii := ["010"; "013"; "009"]%char.

(** [strings.TrimSpace] on text whose white space is ASCII white space:
    the text without the white space at its start and at its end. *)
Definition is_ascii_space (c : ascii) : bool :=
  one_of ["009"; "010"; "011"; "012"; "013"; " "]%char c.

Fixpoint trim_left (s : string) : string :=
  match s with
  | EmptyString => EmptyString
  | String c s' => if is_ascii_space c then trim_left s' else s
  end.

Fixpoint trim_right (s : string) : string :=
  match s with
  | EmptyString => EmptyString
  | String c s' =>
      match trim_right s' with
      | EmptyString => if is_ascii_space c then EmptyString else String c EmptyString
      | r => String c r
      end
  end.

Definition ascii_TrimSpace (s : string) : string := trim_right (trim_left s).

End email_validation.

(** ** Observations on a chat message *)

(** The names of the content fields of a message that are populated, in
    the order of the struct. *)
Definition populated (m : whatsapp_models.WhatsAppMessage) : list string :=
  (match whatsapp_models.Text m with Some _ => ["text"] | None => [] end)
  ++ (match whatsapp_models.Image m with Some _ => ["image"] | None => [] end)
  ++ (match whatsapp_models.Document m with Some _ => ["document"] | None => [] end)
  ++ (match whatsapp_models.Audio m with Some _ => ["audio"] | None => [] end)
  ++ (match whatsapp_models.Video m with Some _ => ["video"] | None => [] end)
  ++ (match whatsapp_models.Template m with Some _ => ["template"] | None => [] end).

(** The texts of the parameters of the components of a template. *)
Definition template_texts (t : whatsapp_models.TemplateMessage) : list string :=
  whatsapp_models.Components t
    ≫= (fun c => whatsapp_models.param_Text <$> whatsapp_models.Parameters c).

(** ** Further sample requests *)
Module more_samples.

(** A template request with two parameters and a regional locale. *)
Definition chat_template : whatsapp_models.NotificationPayload :=
  {| whatsapp_models.NotificationID := "n-7";
     whatsapp_models.MessageType := "whatsapp";
     whatsapp_models.To := "+15550100";
     whatsapp_models.TemplateBody := "";
     whatsapp_models.Params := {[ "1" := "Ann"; "2" := "42" ]};
     whatsapp_models.ChannelConfig := ∅;
     whatsapp_models.FallbackChannels := [];
     whatsapp_models.Priority := "low";
     whatsapp_models.Locale := "pt_BR";
     whatsapp_models.MediaURL := "";
     whatsapp_models.MediaType := "";
     whatsapp_models.TemplateName := "welcome" |}.

(** An email request whose custom headers take the name of the tracking
    header, and one whose configured subject is empty. *)
Definition email_custom_headers : email_models.NotificationPayload :=
  {| email_models.NotificationID := "n-8";
     email_models.MessageType := "email";
     email_models.To := "ann@example.com";
     email_models.TemplateBody := "Hello {name}";
     email_models.Params := {[ "name" := "Ann" ]};
     email_models.ChannelConfig :=
       {[ "subject" := VString "Welcome";
          "headers" := VMap {[ "X-Notification-ID" := VString "n-0";
                               "Reply-To" := VString "bob@example.com";
                               "X-Retries" := VNumber "3" ]} ]};
     email_models.FallbackChannels := [];
     email_models.Priority := "high";
     email_models.Locale := "en_US" |}.

Definition email_empty_subject : email_models.NotificationPayload :=
  {| email_models.NotificationID := "n-9";
     email_models.MessageType := "email";
     email_models.To := "ann@example.com";
     email_models.TemplateBody := "Hello {name}";
     email_models.Params := {[ "name" := "Ann" ]};
     email_models.ChannelConfig := {[ "subject" := VString "" ]};
     email_models.FallbackChannels := [];
     email_models.Priority := "";
     email_models.Locale := "en_US" |}.

End more_samples.

(** ** Observations on the headers of an email *)

(** The headers [BuildEmailMessage] sets before the custom headers. *)
Definition standard_header (payload : email_models.NotificationPayload)
    (key : string) : option string :=
  if decide (key = "X-Notification-ID")
  then Some (email_models.NotificationID payload)
  else if decide (key = "X-Priority")
  then (if decide (email_models.Priority payload = "") then None
        else Some (email_services.mapPriorityToHeader (email_models.Priority payload)))
  else None.

(** ** Observations on a run *)

(** The messages that the polls of a script deliver, in order. *)
Definition fetched (script : list Poll) : list KafkaMessage :=
  omap (fun p => match p with PollMessage m _ => Some m | PollError _ => None end)
       script.

(** The messages whose offset a log commits, in order. *)
Definition commits (l : list Call) : list KafkaMessage :=
  omap (fun c => match c with CommitMessages m => Some m | _ => None end) l.

(** The messages handed to the channel sender, in order. *)
Definition sends (l : list Call) : list ChannelMessage :=
  omap (fun c => match c with Send m => Some m | _ => None end) l.

(* ===================================================================== *)
(** * Configuration (internal/config) *)
(* ===================================================================== *)

(** [func getEnv(key, defaultValue string) string]; [os_Getenv] is the
    environment after [godotenv.Load]. *)
Definition getEnv (os_Getenv : string -> string) (key defaultValue : string) : string :=
  let value := os_Getenv key in
  if decide (value <> "") then value else defaultValue.

Record ServerConfig := {
  Port : string;
  ReadTimeout : Z;
  WriteTimeout : Z
}.

Record KafkaConfig := {
  Broker : string;
  ConsumerGroup : string;
  Topic : string;
  AckTopic : string;
  MinBytes : Z;
  MaxBytes : Z
}.

Module whatsapp_config.

Record WhatsAppConfig := {
  AccessToken : string;
  PhoneNumberID : string;
  BusinessAccountID : string;
  APIVersion : string;
  WebhookVerifyToken : string;
  BaseURL : string
}.

Record Config := {
  Server : ServerConfig;
  Kafka : KafkaConfig;
  WhatsApp : WhatsAppConfig
}.

(** [func (c *Config) validate() error] *)
Definition validate (c : Config) : option error :=
  if decide (AccessToken (WhatsApp c) = "")
  then Some (errors_New "WHATSAPP_ACCESS_TOKEN is required")
  else if decide (PhoneNumberID (WhatsApp c) = "")
  then Some (errors_New "WHATSAPP_PHONE_NUMBER_ID is required")
  else if decide (Broker (Kafka c) = "")
  then Some (errors_New "KAFKA_BROKER is required")
  else None.

Section Load.
Variable os_Getenv : string -> string.

(** [func Load()]: the configuration, or the error of its validation. *)
Definition Load : result Config :=
  let cfg :=
    {| Server := {| Port := getEnv os_Getenv "SERVICE_PORT" "8085";
                    ReadTimeout := 30; WriteTimeout := 30 |};
       Kafka := {| Broker := getEnv os_Getenv "KAFKA_BROKER" "localhost:9092";
                   ConsumerGroup := getEnv os_Getenv "GROUP_ID" "whatsapp-service-group";
                   Topic := getEnv os_Getenv "WHATSAPP_TOPIC" "notification_whatsapp_topic";
                   AckTopic := getEnv os_Getenv "ACK_TOPIC" "notification_whatsapp_ack_topic";
                   MinBytes := 10000; MaxBytes := 10000000 |};
       WhatsApp :=
         {| AccessToken := getEnv os_Getenv "WHATSAPP_ACCESS_TOKEN" "";
            PhoneNumberID := getEnv os_Getenv "WHATSAPP_PHONE_NUMBER_ID" "";
            BusinessAccountID := getEnv os_Getenv "WHATSAPP_BUSINESS_ACCOUNT_ID" "";
            APIVersion := getEnv os_Getenv "WHATSAPP_API_VERSION" "v18.0";
            WebhookVerifyToken := getEnv os_Getenv "WHATSAPP_WEBHOOK_VERIFY_TOKEN" "";
            BaseURL := "https://graph.facebook.com" |} |} in
  match validate cfg with
  | Some err => Err (fmt_Errorf "invalid configuration: " err "")
  | None => Ok cfg
  end.

End Load.
End whatsapp_config.

Module email_config.

Record EmailConfig := {
  SMTPHost : string;
  SMTPPort : string;
  SMTPUser : string;
  SMTPPassword : string;
  FromEmail : string;
  FromName : string
}.

Record Config := {
  Server : ServerConfig;
  Kafka : KafkaConfig;
  Email : EmailConfig
}.

(** [func (c *Config) validate() error] *)
Definition validate (c : Config) : option error :=
  if decide (FromEmail (Email c) = "")
  then Some (errors_New "EMAIL_SENDER is required")
  else if decide (SMTPUser (Email c) = "")
  then Some (errors_New "EMAIL_SMTP_USER is required")
  else if decide (SMTPPassword (Email c) = "")
  then Some (errors_New "EMAIL_SMTP_PASSWORD is required")
  else None.

Section Load.
Variable os_Getenv : string -> string.

(** [func Load()]: the configuration, or the error of its validation. *)
Definition Load : result Config :=
  let cfg :=
    {| Server := {| Port := getEnv os_Getenv "SERVICE_PORT" "8084";
                    ReadTimeout := 30; WriteTimeout := 30 |};
       Kafka := {| Broker := getEnv os_Getenv "KAFKA_BROKER" "localhost:9092";
                   ConsumerGroup := getEnv os_Getenv "GROUP_ID" "email-service-group";
                   Topic := getEnv os_Getenv "EMAIL_TOPIC" "notification_email_topic";
                   AckTopic := getEnv os_Getenv "ACK_TOPIC" "notification_email_ack_topic";
                   MinBytes := 10000; MaxBytes := 10000000 |};
       Email :=
         {| SMTPHost := getEnv os_Getenv "EMAIL_SMTP_HOST" "smtp.gmail.com";
            SMTPPort := getEnv os_Getenv "EMAIL_SMTP_PORT" "587";
            SMTPUser := getEnv os_Getenv "EMAIL_SMTP_USER" "";
            SMTPPassword := getEnv os_Getenv "EMAIL_SMTP_PASSWORD" "";
            FromEmail := getEnv os_Getenv "EMAIL_SENDER" "";
            FromName := getEnv os_Getenv "EMAIL_FROM_NAME" "Notification System" |} |} in
  match validate cfg with
  | Some err => Err (fmt_Errorf "invalid configuration: " err "")
  | None => Ok cfg
  end.

End Load.
End email_config.

(* ===================================================================== *)
(** * HTTP handlers (internal/handlers) *)
(* ===================================================================== *)

Module http.

(** What a handler reads of a request: the method, the query of the URL
    and the body, which is its bytes or the error of reading it. *)
Record Request := {
  Method : string;
  URL_Query : gmap string (list string);
  req_Body : result string
}.

(** What a handler writes: plain text, or the JSON encoding of a map. *)
Inductive Body :=
| Plain (text : string)
| JSON (fields : gmap string GoValue)
| NoBody.

Record Response := {
  StatusCode : nat;
  resp_Body : Body
}.

Definition MethodGet : string := "GET".
Definition MethodPost : string := "POST".
Definition StatusOK : nat := 200.
Definition StatusBadRequest : nat := 400.
Definition StatusForbidden : nat := 403.
Definition StatusMethodNotAllowed : nat := 405.
Definition StatusInternalServerError : nat := 500.

(** [url.Values.Get]: the first value of the key, or the empty string. *)
Definition Get (v : gmap string (list string)) (key : string) : string :=
  match v !! key with
  | Some (x :: _) => x
  | _ => ""
  end.

End http.

(** [http.Error(w, error, code)]: the text is written with a newline. *)
Definition http_Error (error : string) (code : nat) : http.Response :=
  {| http.StatusCode := code;
     http.resp_Body := http.Plain (error +:+ String "010" "") |}.

Module whatsapp_handlers.
Import whatsapp_models http.

(** [func (c *WhatsAppClient) VerifyWebhook] *)
Definition VerifyWebhook (cfg : whatsapp_config.WhatsAppConfig)
    (verifyToken challenge : string) : result string :=
  if decide (verifyToken <> whatsapp_config.WebhookVerifyToken cfg)
  then Err (errors_New "invalid verify token")
  else Ok challenge.

(** [func (h *HTTPHandlers) handleWebhookVerification] *)
Definition handleWebhookVerification (cfg : whatsapp_config.WhatsAppConfig)
    (r : Request) : Response :=
  let verifyToken := Get (URL_Query r) "hub.verify_token" in
  let challenge := Get (URL_Query r) "hub.challenge" in
  if decide (verifyToken = "" \/ challenge = "")
  then http_Error "Missing verification parameters" StatusBadRequest
  else match VerifyWebhook cfg verifyToken challenge with
       | Err _ => http_Error "Verification failed" StatusForbidden
       | Ok responseChallenge =>
           {| StatusCode := StatusOK; resp_Body := Plain responseChallenge |}
       end.

(** [func (h *HTTPHandlers) handleWebhookNotification] *)
Definition handleWebhookNotification (r : Request) : Response :=
  match req_Body r with
  | Err _ => http_Error "Bad request" StatusBadRequest
  | Ok _ => {| StatusCode := StatusOK; resp_Body := NoBody |}
  end.

(** [func (h *HTTPHandlers) WebhookHandler] *)
Definition WebhookHandler (cfg : whatsapp_config.WhatsAppConfig) (r : Request)
    : Response :=
  if decide (Method r = MethodGet) then handleWebhookVerification cfg r
  else if decide (Method r = MethodPost) then handleWebhookNotification r
  else http_Error "Method not allowed" StatusMethodNotAllowed.

Section Handlers.
Context `{MapRange}.
(** [json.NewDecoder(r.Body).Decode(&payload)] on the bytes of the body. *)
Variable json_Decode : string -> result NotificationPayload.

(** [func (h *HTTPHandlers) SendTestHandler] *)
Definition SendTestHandler (o : Outcomes) (r : Request) : Eff Response :=
  if decide (Method r <> MethodPost)
  then ret (http_Error "Method not allowed" StatusMethodNotAllowed)
  else
    match (match req_Body r with Err e => Err e | Ok data => json_Decode data end) with
    | Err _ => ret (http_Error "Invalid JSON" StatusBadRequest)
    | Ok payload =>
        let* res := whatsapp_services.ProcessNotification o payload in
        match res with
        | Some err =>
            ret (http_Error ("Failed to send message: " +:+ Error err)
                            StatusInternalServerError)
        | None =>
            ret {| StatusCode := StatusOK;
                   resp_Body :=
                     JSON {[ "status" := VString "sent";
                             "notificationId" := VString (NotificationID payload);
                             "message" := VString "Test message sent successfully" ]} |}
        end
    end.

End Handlers.
End whatsapp_handlers.

Module email_handlers.
Import email_models http.

Section Handlers.
Context `{MapRange}.
Variable emailRegex_MatchString : string -> bool.
Variable strings_TrimSpace : string -> string.
(** [json.NewDecoder(r.Body).Decode(&payload)] on the bytes of the body. *)
Variable json_Decode : string -> result NotificationPayload.

(** [func (h *HTTPHandlers) SendTestHandler] *)
Definition SendTestHandler (o : Outcomes) (r : Request) : Eff Response :=
  if decide (Method r <> MethodPost)
  then ret (http_Error "Method not allowed" StatusMethodNotAllowed)
  else
    match (match req_Body r with Err e => Err e | Ok data => json_Decode data end) with
    | Err _ => ret (http_Error "Invalid JSON" StatusBadRequest)
    | Ok payload =>
        let* res := email_services.ProcessNotification
                      emailRegex_MatchString strings_TrimSpace o payload in
        match res with
        | Some err =>
            ret (http_Error ("Failed to send email: " +:+ Error err)
                            StatusInternalServerError)
        | None =>
            ret {| StatusCode := StatusOK;
                   resp_Body :=
                     JSON {[ "status" := VString "sent";
                             "notificationId" := VString (NotificationID payload);
                             "message" := VString "Test email sent successfully";
                             "recipient" := VString (To payload) ]} |}
        end
    end.

End Handlers.
End email_handlers.

Module sms_handlers.
Import sms_models http.

(** The bytes of the answer of [handleSendTest]: the object with the one
    member status, of value sent. *)
Definition sent_body : string :=
  "{" +:+ String "034" "status" +:+ String "034" ":"
      +:+ String "034" "sent" +:+ String "034" "}".

Section Handlers.
Context `{MapRange}.
(** [json.NewDecoder(r.Body).Decode(&payload)] on the bytes of the body. *)
Variable json_Decode : string -> result NotificationPayload.

(** [func handleSendTest(config AppConfig) http.HandlerFunc] *)
Definition handleSendTest (config : sms_service.AppConfig) (r : Request)
    : Eff Response :=
  if decide (Method r <> "POST")
  then ret (http_Error "Method not allowed" StatusMethodNotAllowed)
  else
    match (match req_Body r with Err e => Err e | Ok data => json_Decode data end) with
    | Err _ => ret (http_Error "Invalid JSON" StatusBadRequest)
    | Ok payload =>
        let* res := sms_service.handleSMSPayload payload config in
        match res with
        | Some err => ret (http_Error (Error err) StatusInternalServerError)
        | None =>
            ret {| StatusCode := StatusOK;
                   resp_Body := Plain sent_body |}
        end
    end.

End Handlers.
End sms_handlers.

(* ===================================================================== *)
(** * The format of an email address (utils/validation.go) *)
(* ===================================================================== *)

Module email_format.

Definition is_alpha (c : ascii) : bool :=
  (Nat.leb 65 (nat_of_ascii c) && Nat.leb (nat_of_ascii c) 90)
  || (Nat.leb 97 (nat_of_ascii c) && Nat.leb (nat_of_ascii c) 122).

Definition is_alnum (c : ascii) : bool :=
  is_alpha c || whatsapp_utils.is_digit c.

(** The classes [[a-zA-Z0-9._%+-]] and [[a-zA-Z0-9.-]]. *)
Definition is_local (c : ascii) : bool :=
  is_alnum c || one_of ["."; "_"; "%"; "+"; "-"]%char c.

Definition is_domain (c : ascii) : bool :=
  is_alnum c || one_of ["."; "-"]%char c.

Fixpoint all_bytes (p : ascii -> bool) (s : string) : bool :=
  match s with
  | EmptyString => true
  | String c s' => p c && all_bytes p s'
  end.

(** The parts of [s] before and after the first [c]. *)
Fixpoint split_first (c : ascii) (s : string) : option (string * string) :=
  match s with
  | EmptyString => None
  | String x s' =>
      if Ascii.eqb x c then Some (EmptyString, s')
      else match split_first c s' with
           | Some (a, b) => Some (String x a, b)
           | None => None
           end
  end.

(** The parts of [s] before and after the last [c]. *)
Fixpoint split_last (c : ascii) (s : string) : option (string * string) :=
  match s with
  | EmptyString => None
  | String x s' =>
      match split_last c s' with
      | Some (a, b) => Some (String x a, b)
      | None => if Ascii.eqb x c then Some (EmptyString, s') else None
      end
  end.

(** [emailRegex.MatchString] for the pattern
    [^[a-zA-Z0-9._%+-]+@[a-zA-Z0-9.-]+\.[a-zA-Z]{2,}$]: the local part
    cannot hold an at sign and the last part cannot hold a dot, so the
    text is cut at its first at sign and at its last dot. *)
Definition emailRegex_MatchString (s : string) : bool :=
  match split_first "@" s with
  | Some (local, rest) =>
      match split_last "." rest with
      | Some (domain, tld) =>
          Nat.leb 1 (String.length local) && all_bytes is_local local
          && Nat.leb 1 (String.length domain) && all_bytes is_domain domain
          && Nat.leb 2 (String.length tld) && all_bytes is_alpha tld
      | None => false
      end
  | None => false
  end.

(** The texts the pattern denotes. *)
Definition email_shape (s : string) : Prop :=
  exists local domain tld,
    s = local +:+ "@" +:+ domain +:+ "." +:+ tld
    /\ 1 <= String.length local /\ all_bytes is_local local = true
    /\ 1 <= String.length domain /\ all_bytes is_domain domain = true
    /\ 2 <= String.length tld /\ all_bytes is_alpha tld = true.

End email_format.
(* ===================================================================== *)
(** * Facts about [strings.ReplaceAll] *)
(* ===================================================================== *)

Lemma append_assoc (a b c : string) : (a +:+ b) +:+ c = a +:+ (b +:+ c).
Proof. induction a as [|x a IH]; simpl; [reflexivity | by rewrite IH]. Qed.

Lemma append_empty_r (a : string) : a +:+ "" = a.
Proof. induction a as [|x a IH]; simpl; [reflexivity | by rewrite IH]. Qed.

Lemma HasPrefix_append (p s : string) : strings.HasPrefix (p +:+ s) p = true.
Proof.
  induction p as [|c p IH]; simpl; [reflexivity |].
  by rewrite Ascii.eqb_refl.
Qed.

Lemma replace_from_skip (old new p s : string) :
  strings.replace_from old new (String.length p) (p +:+ s)
  = strings.replace_from old new 0 s.
Proof. induction p as [|c p IH]; simpl; [by destruct s | exact IH]. Qed.

Lemma ReplaceAll_empty (old new : string) :
  old <> "" -> strings.ReplaceAll "" old new = "".
Proof. by destruct old. Qed.

(** A match at the head is replaced and the scan resumes after it. *)
Lemma ReplaceAll_match (old new s : string) :
  old <> "" ->
  strings.ReplaceAll (old +:+ s) old new = new +:+ strings.ReplaceAll s old new.
Proof.
  destruct old as [|c old]; [done | intros _].
  unfold strings.ReplaceAll.
  change (String c old +:+ s) with (String c (old +:+ s)).
  cbn [strings.replace_from].
  change (String c (old +:+ s)) with (String c old +:+ s).
  rewrite HasPrefix_append. f_equal.
  cbn [String.length]. rewrite Nat.sub_1_r. cbn [Nat.pred].
  apply replace_from_skip.
Qed.

(** No match at the head: the first byte is copied. *)
Lemma ReplaceAll_step (c : ascii) (s old new : string) :
  strings.HasPrefix (String c s) old = false ->
  strings.ReplaceAll (String c s) old new = String c (strings.ReplaceAll s old new).
Proof.
  destruct old as [|o old]; [done | intros Hp].
  unfold strings.ReplaceAll. cbn [strings.replace_from]. by rewrite Hp.
Qed.

(* ===================================================================== *)
(** * Rendering on well-formed templates *)
(* ===================================================================== *)

Lemma placeholder_nonempty (k : string) : placeholder k <> "".
Proof. done. Qed.

Lemma placeholder_append (k rest : string) :
  placeholder k +:+ rest = String "{" (k +:+ "}" +:+ rest).
Proof. unfold placeholder. simpl. by rewrite append_assoc. Qed.

Lemma brace_free_no_lbrace (k : string) :
  brace_free k = true -> no_lbrace k = true.
Proof.
  induction k as [|c k IH]; simpl; [done |].
  intros [[Hc _]%andb_prop Hk]%andb_prop. rewrite Hc. simpl. by apply IH.
Qed.

Lemma no_lbrace_append (a b : string) :
  no_lbrace a = true -> no_lbrace b = true -> no_lbrace (a +:+ b) = true.
Proof.
  induction a as [|c a IH]; simpl; [done |].
  intros [Hc Ha]%andb_prop Hb. rewrite Hc. simpl. by apply IH.
Qed.

(** Text without an opening brace is copied: no placeholder starts in it. *)
Lemma ReplaceAll_text (s rest key v : string) :
  no_lbrace s = true ->
  strings.ReplaceAll (s +:+ rest) (placeholder key) v
  = s +:+ strings.ReplaceAll rest (placeholder key) v.
Proof.
  induction s as [|c s IH]; simpl; [done |].
  intros [Hc Hs]%andb_prop.
  rewrite ReplaceAll_step.
  - by rewrite IH.
  - simpl. by destruct (Ascii.eqb c "{"%char).
Qed.

(** Two brace-free names that match up to the closing brace are equal. *)
Lemma HasPrefix_key (k k' rest : string) :
  brace_free k = true -> brace_free k' = true ->
  strings.HasPrefix (k' +:+ "}" +:+ rest) (k +:+ "}") = true -> k' = k.
Proof.
  revert k'. induction k as [|a k IH]; intros [|c k']; simpl; try done.
  - intros _ [[_ Hc]%andb_prop _]%andb_prop.
    destruct (Ascii.eqb c "}"%char); done.
  - intros [[_ Ha]%andb_prop _]%andb_prop _.
    rewrite Ascii.eqb_sym. destruct (Ascii.eqb a "}"%char); done.
  - intros [_ Hk]%andb_prop [_ Hk']%andb_prop.
    destruct (Ascii.eqb_spec c a) as [->|]; [|done].
    intros Hp. f_equal. by apply IH.
Qed.

Lemma ReplaceAll_hole_same (k rest v : string) :
  strings.ReplaceAll (placeholder k +:+ rest) (placeholder k) v
  = v +:+ strings.ReplaceAll rest (placeholder k) v.
Proof. apply ReplaceAll_match, placeholder_nonempty. Qed.

Lemma ReplaceAll_hole_other (k k' rest v : string) :
  brace_free k = true -> brace_free k' = true -> k' <> k ->
  strings.ReplaceAll (placeholder k' +:+ rest) (placeholder k) v
  = placeholder k' +:+ strings.ReplaceAll rest (placeholder k) v.
Proof.
  intros Hk Hk' Hne.
  rewrite !placeholder_append, ReplaceAll_step.
  - f_equal. rewrite <- append_assoc, ReplaceAll_text; [by rewrite append_assoc |].
    apply no_lbrace_append; [by apply brace_free_no_lbrace | done].
  - unfold placeholder. simpl.
    destruct (strings.HasPrefix (k' +:+ "}" +:+ rest) (k +:+ "}")) eqn:Hp; [|done].
    by apply HasPrefix_key in Hp.
Qed.

(** One loop iteration on a well-formed template is [subst1] on its tokens. *)
Lemma ReplaceAll_flatten (k v : string) (ts : list Token) :
  brace_free k = true ->
  Forall (fun t => wf_token t = true) ts ->
  strings.ReplaceAll (flatten ts) (placeholder k) v = flatten (subst1 k v <$> ts).
Proof.
  intros Hk. induction 1 as [|t ts Ht _ IH]; [done |].
  change (flatten (t :: ts)) with (token_string t +:+ flatten ts).
  rewrite fmap_cons.
  change (flatten (subst1 k v t :: (subst1 k v <$> ts)))
    with (token_string (subst1 k v t) +:+ flatten (subst1 k v <$> ts)).
  rewrite <- IH. destruct t as [s|k']; simpl in *.
  - by apply ReplaceAll_text.
  - destruct (decide (k' = k)) as [->|Hne]; simpl.
    + apply ReplaceAll_hole_same.
    + by apply ReplaceAll_hole_other.
Qed.

Lemma wf_subst1 (k v : string) (t : Token) :
  no_lbrace v = true -> wf_token t = true -> wf_token (subst1 k v t) = true.
Proof. intros Hv. destruct t as [s|k']; simpl; [done |]. by case_decide. Qed.

Lemma render_loop_flatten (order : list (string * string)) (ts : list Token) :
  Forall (fun kv => brace_free kv.1 = true /\ no_lbrace kv.2 = true) order ->
  Forall (fun t => wf_token t = true) ts ->
  render_loop order (flatten ts) = flatten (subst_loop order <$> ts).
Proof.
  intros Ho. revert ts.
  induction Ho as [|[k v] order [Hk Hv] _ IH]; intros ts Hts.
  - transitivity (flatten (id <$> ts)); [by rewrite list_fmap_id | reflexivity].
  - unfold render_loop in *. cbn [foldl fst snd].
    rewrite ReplaceAll_flatten by done.
    rewrite IH.
    + f_equal. rewrite <- list_fmap_compose. done.
    + apply Forall_fmap. eapply Forall_impl; [exact Hts |].
      intros t Ht. by apply wf_subst1.
Qed.

Lemma subst_loop_text (order : list (string * string)) (s : string) :
  subst_loop order (Text s) = Text s.
Proof. induction order as [|kv order IH]; [done | exact IH]. Qed.

Lemma subst_loop_absent (order : list (string * string)) (k : string) :
  k ∉ order.*1 -> subst_loop order (Hole k) = Hole k.
Proof.
  induction order as [|[k1 v1] order IH]; [done |].
  rewrite fmap_cons, not_elem_of_cons. intros [Hne Hnot].
  unfold subst_loop. cbn [foldl fst snd subst1].
  case_decide; [done |]. by apply IH.
Qed.

Lemma subst_loop_present (order : list (string * string)) (k v : string) :
  NoDup order.*1 -> (k, v) ∈ order -> subst_loop order (Hole k) = Text v.
Proof.
  induction order as [|[k1 v1] order IH]; [by intros _ ?%elem_of_nil |].
  rewrite fmap_cons, NoDup_cons, elem_of_cons. intros [Hk1 Hnd] Hin.
  unfold subst_loop. cbn [foldl fst snd subst1].
  case_decide as Hk; subst.
  - destruct Hin as [[= ->]|Hin]; [apply subst_loop_text |].
    exfalso. apply Hk1. apply list_elem_of_fmap. by exists (k1, v).
  - destruct Hin as [[= -> ->]|Hin]; [done |]. by apply IH.
Qed.

(** The loop agrees with the one-pass substitution, whatever the order. *)
Lemma subst_loop_subst `{MapRange} (params : gmap string string) (t : Token) :
  subst_loop (range params) t = subst params t.
Proof.
  pose proof (range_perm _ params) as Hperm.
  assert (Hnd : NoDup (range params).*1).
  { rewrite Hperm. apply NoDup_fst_map_to_list. }
  destruct t as [s|k]; simpl; [apply subst_loop_text |].
  destruct (params !! k) as [v|] eqn:Hk.
  - apply subst_loop_present; [done |].
    rewrite Hperm. by apply elem_of_map_to_list.
  - apply subst_loop_absent. intros [[k' v] [-> Hin]]%list_elem_of_fmap.
    rewrite Hperm in Hin. apply elem_of_map_to_list in Hin. simpl in Hk. congruence.
Qed.

Lemma render_loop_empty (order : list (string * string)) :
  render_loop order "" = "".
Proof.
  induction order as [|kv order IH]; [done |].
  unfold render_loop in *. simpl. exact IH.
Qed.

(** The guard of [RenderTemplate] changes nothing: both renderers agree. *)
Lemma RenderTemplate_renderTemplate `{MapRange} (template : string)
    (params : gmap string string) :
  RenderTemplate template params = renderTemplate template params.
Proof.
  unfold RenderTemplate, renderTemplate. case_decide as He; [|done].
  subst. by rewrite render_loop_empty.
Qed.

Lemma range_empty `{MapRange} (V : Type) : range (∅ : gmap string V) = [].
Proof.
  apply Permutation_nil_r. rewrite range_perm. by rewrite map_to_list_empty.
Qed.

Lemma ReplaceAll_self (old new : string) :
  old <> "" -> strings.ReplaceAll old old new = new.
Proof.
  intros Ho. rewrite <- (append_empty_r old) at 1.
  rewrite ReplaceAll_match by done.
  rewrite ReplaceAll_empty by done. apply append_empty_r.
Qed.

(** The specification's examples, on both runtimes. *)
Example render_hello :
  @RenderTemplate range_fwd "Hello {name}!" {[ "name" := "World" ]} = "Hello World!"
  /\ @RenderTemplate range_bwd "Hello {name}!" {[ "name" := "World" ]} = "Hello World!".
Proof. split; vm_compute; reflexivity. Qed.

Example render_partial :
  @RenderTemplate range_fwd "{a}{b}" {[ "a" := "1" ]} = "1{b}".
Proof. vm_compute; reflexivity. Qed.

Lemma plain_params_range `{MapRange} (params : gmap string string) :
  plain_params params = true ->
  Forall (fun kv => brace_free kv.1 = true /\ no_lbrace kv.2 = true) (range params).
Proof.
  unfold plain_params. rewrite forallb_forall, <- List.Forall_forall.
  rewrite <- (range_perm _ params). intros HF.
  eapply Forall_impl; [exact HF |].
  intros kv Hkv. by apply andb_prop.
Qed.

Lemma wf_tokens_Forall (ts : list Token) :
  forallb wf_token ts = true -> Forall (fun t => wf_token t = true) ts.
Proof. by rewrite forallb_forall, <- List.Forall_forall. Qed.

(** C4, as the specification states it, fails: with the parameters
    a -> "{b}" and b -> "{a}" the template "{a}{b}" should render to
    "{b}{a}"; the loop yields "{a}{a}" when it visits a first and "{b}{b}"
    when it visits b first.  And with the keys "a{b}" and "b", whose
    placeholders overlap in "{a{b}}", one of the two is never replaced by its
    value. *)
Lemma RenderTemplate_not_one_pass :
  let params : gmap string string := {[ "a" := "{b}"; "b" := "{a}" ]} in
  let ts := [Hole "a"; Hole "b"] in
  flatten ts = "{a}{b}"
  /\ forallb wf_token ts = true
  /\ render_spec params ts = "{b}{a}"
  /\ @RenderTemplate range_fwd (flatten ts) params = "{a}{a}"
  /\ @RenderTemplate range_bwd (flatten ts) params = "{b}{b}"
  /\ @renderTemplate range_fwd (flatten ts) params = "{a}{a}"
  /\ @renderTemplate range_bwd (flatten ts) params = "{b}{b}"
  /\ @RenderTemplate range_fwd "{a{b}}" {[ "a{b}" := "1"; "b" := "2" ]} = "1"
  /\ @RenderTemplate range_bwd "{a{b}}" {[ "a{b}" := "1"; "b" := "2" ]} = "{a2}".
Proof. repeat split; vm_compute; reflexivity. Qed.

(** C4 (amended).  On a well-formed template (text without an opening brace
    and placeholders with brace-free names), with parameters whose keys are
    brace-free and whose values contain no opening brace, both renderers
    replace every placeholder whose key is in the map by its value and leave
    the others verbatim, in every iteration order; an empty template renders
    to the empty string; with no parameters the template is returned
    unchanged. *)
Theorem RenderTemplate_one_pass `{MapRange} (T : string) (params : gmap string string) :
  (forall ts : list Token,
      T = flatten ts -> forallb wf_token ts = true -> plain_params params = true ->
      RenderTemplate T params = render_spec params ts
      /\ renderTemplate T params = render_spec params ts)
  /\ (T = "" -> RenderTemplate T params = "" /\ renderTemplate T params = "")
  /\ (params = ∅ -> RenderTemplate T params = T /\ renderTemplate T params = T).
Proof.
  split; [|split].
  - intros ts -> Hts Hp.
    assert (renderTemplate (flatten ts) params = render_spec params ts) as Hr.
    { unfold renderTemplate, render_spec.
      rewrite render_loop_flatten
        by (by apply plain_params_range || by apply wf_tokens_Forall).
      f_equal. apply list_fmap_ext. intros _ t _. apply subst_loop_subst. }
    by rewrite RenderTemplate_renderTemplate.
  - intros ->. rewrite RenderTemplate_renderTemplate.
    unfold renderTemplate. by rewrite render_loop_empty.
  - intros ->. rewrite RenderTemplate_renderTemplate.
    unfold renderTemplate. by rewrite range_empty.
Qed.

Lemma RenderTemplate_one_pass_witness :
  @RenderTemplate range_bwd "Dear {name}, code {code} {x}"
     {[ "name" := "Ann"; "code" := "42" ]} = "Dear Ann, code 42 {x}"
  /\ @RenderTemplate range_bwd "" {[ "name" := "Ann" ]} = ""
  /\ @RenderTemplate range_bwd "Dear {name}" ∅ = "Dear {name}".
Proof.
  split; [|split].
  - pose proof (RenderTemplate_one_pass (H := range_bwd)
                  "Dear {name}, code {code} {x}"
                  {[ "name" := "Ann"; "code" := "42" ]}) as [Hw _].
    destruct (Hw [Text "Dear "; Hole "name"; Text ", code "; Hole "code";
                  Text " "; Hole "x"]) as [-> _];
      [reflexivity | reflexivity | vm_compute; reflexivity | vm_compute; reflexivity].
  - pose proof (RenderTemplate_one_pass (H := range_bwd) ""
                  {[ "name" := "Ann" ]}) as (_ & He & _).
    destruct He as [-> _]; reflexivity.
  - pose proof (RenderTemplate_one_pass (H := range_bwd) "Dear {name}" ∅)
      as (_ & _ & Hn).
    destruct Hn as [-> _]; reflexivity.
Defined.

(** C5, as the specification states it, fails: with the parameters
    a -> "{b}" and b -> "x", when the loop visits a before b the placeholder
    "{b}" that the value of a brought in is substituted in turn, and the
    output "x" does not contain it. *)
Lemma RenderTemplate_rescans_values :
  let params : gmap string string := {[ "a" := "{b}"; "b" := "x" ]} in
  params !! "a" = Some "{b}"
  /\ strings.Contains "{b}" (placeholder "b") = true
  /\ (@range range_fwd) _ params = [("a", "{b}"); ("b", "x")]
  /\ @RenderTemplate range_fwd "{a}" params = "x"
  /\ strings.Contains (@RenderTemplate range_fwd "{a}" params) (placeholder "b") = false.
Proof. repeat split; vm_compute; reflexivity. Qed.

Lemma range_pair `{MapRange} (a b va vb : string) :
  a <> b ->
  range ({[ a := va; b := vb ]} : gmap string string) = [(a, va); (b, vb)]
  \/ range ({[ a := va; b := vb ]} : gmap string string) = [(b, vb); (a, va)].
Proof.
  intros Hab. apply Permutation_length_2_inv.
  rewrite range_perm, map_to_list_insert by by rewrite lookup_singleton_ne.
  by rewrite map_to_list_singleton.
Qed.

(** With the parameters a -> "{b}" and b -> v, the template "{a}" renders to v
    when a is visited first, and to "{b}" when b is visited first. *)
Lemma RenderTemplate_two_keys `{MapRange} (a b v : string) :
  brace_free a = true -> brace_free b = true -> a <> b ->
  RenderTemplate (placeholder a) {[ a := placeholder b; b := v ]}
  = match range ({[ a := placeholder b; b := v ]} : gmap string string) with
    | (k, _) :: _ => if decide (k = a) then v else placeholder b
    | [] => placeholder a
    end.
Proof.
  intros Ha Hb Hab. unfold RenderTemplate.
  rewrite decide_False by apply placeholder_nonempty.
  destruct (range_pair a b (placeholder b) v Hab) as [-> | ->];
    unfold render_loop; cbn [foldl fst snd].
  - rewrite decide_True by done.
    rewrite ReplaceAll_self by apply placeholder_nonempty.
    apply ReplaceAll_self, placeholder_nonempty.
  - rewrite decide_False by done.
    rewrite <- (append_empty_r (placeholder a)) at 1.
    rewrite ReplaceAll_hole_other by done.
    rewrite ReplaceAll_empty by apply placeholder_nonempty.
    rewrite append_empty_r.
    apply ReplaceAll_self, placeholder_nonempty.
Qed.

Lemma flatten_app (a b : list Token) : flatten (a ++ b) = flatten a +:+ flatten b.
Proof.
  induction a as [|t a IH]; [done |].
  cbn [app flatten foldr]. fold (flatten (a ++ b)). fold (flatten a).
  by rewrite IH, append_assoc.
Qed.

Lemma flatten_expand1 (k : string) (value ts : list Token) :
  flatten (subst1 k (flatten value) <$> ts) = flatten (expand1 k value ts).
Proof.
  induction ts as [|t ts IH]; [done |].
  unfold expand1. rewrite fmap_cons, bind_cons, flatten_app.
  fold (expand1 k value ts). rewrite <- IH.
  change (flatten (?x :: ?l)) with (token_string x +:+ flatten l).
  f_equal. destruct t as [s|k']; cbn [subst1 token_string].
  - cbn. by rewrite append_empty_r.
  - case_decide; cbn; by rewrite ?append_empty_r.
Qed.

Lemma wf_expand1 (k : string) (value ts : list Token) :
  Forall (fun t => wf_token t = true) value ->
  Forall (fun t => wf_token t = true) ts ->
  Forall (fun t => wf_token t = true) (expand1 k value ts).
Proof.
  intros Hv Hts. unfold expand1. apply Forall_bind.
  eapply Forall_impl; [exact Hts |].
  intros [s|k'] Ht; unfold compose; cbn beta iota; [by constructor |].
  case_decide; [done | by constructor].
Qed.

(** The loop on a well-formed template, with well-formed values. *)
Lemma render_loop_expand (order : list (string * list Token)) (ts : list Token) :
  wf_order order = true ->
  Forall (fun t => wf_token t = true) ts ->
  render_loop (flatten_values order) (flatten ts) = flatten (expand order ts).
Proof.
  unfold wf_order. revert ts.
  induction order as [|[k value] order IH]; intros ts Ho Hts; [done |].
  cbn [forallb fst snd] in Ho.
  apply andb_prop in Ho as [[Hk Hv]%andb_prop Ho].
  unfold render_loop, flatten_values in *. cbn [fmap list_fmap foldl fst snd].
  rewrite ReplaceAll_flatten by done.
  rewrite flatten_expand1. rewrite IH; [done | done |].
  apply wf_expand1; [by apply wf_tokens_Forall | done].
Qed.

(** C5 (amended).  The keys are substituted one after the other, in map
    iteration order, each on the whole result of the previous ones: on a
    well-formed template, with brace-free keys and values that are
    well-formed templates themselves, the output is the template in which,
    key after key in that order, the placeholders of the key are replaced by
    its value, those that the values of earlier keys brought in included.  So
    with a -> "{b}" and b -> v the placeholder "{b}" that substituting "{a}"
    introduces stays in the output only when b is visited before a; when a is
    visited first it is replaced by v. *)
Theorem RenderTemplate_sequential `{MapRange} :
  (forall (params : gmap string string) (order : list (string * list Token))
          (ts : list Token),
      range params = flatten_values order ->
      wf_order order = true ->
      forallb wf_token ts = true ->
      RenderTemplate (flatten ts) params = flatten (expand order ts))
  /\ (forall a b v : string,
      brace_free a = true -> brace_free b = true -> a <> b ->
      RenderTemplate (placeholder a) {[ a := placeholder b; b := v ]}
      = match range ({[ a := placeholder b; b := v ]} : gmap string string) with
        | (k, _) :: _ => if decide (k = a) then v else placeholder b
        | [] => placeholder a
        end).
Proof.
  split; [|apply RenderTemplate_two_keys].
  intros params order ts Hr Ho Hts.
  rewrite RenderTemplate_renderTemplate. unfold renderTemplate. rewrite Hr.
  apply render_loop_expand; [done | by apply wf_tokens_Forall].
Qed.

Lemma RenderTemplate_sequential_witness :
  @RenderTemplate range_fwd "{a} and {b}" {[ "a" := "<{b}>"; "b" := "x" ]}
    = "<x> and x"
  /\ @RenderTemplate range_bwd "{a} and {b}" {[ "a" := "<{b}>"; "b" := "x" ]}
    = "<{b}> and x"
  /\ @RenderTemplate range_fwd "{a}" {[ "a" := "{b}"; "b" := "x" ]} = "x"
  /\ @RenderTemplate range_bwd "{a}" {[ "a" := "{b}"; "b" := "x" ]} = "{b}".
Proof.
  pose proof (RenderTemplate_sequential (H := range_fwd)) as [Hf Hf2].
  pose proof (RenderTemplate_sequential (H := range_bwd)) as [Hb Hb2].
  split; [|split; [|split]].
  - exact (Hf {[ "a" := "<{b}>"; "b" := "x" ]}
              [("a", [Text "<"; Hole "b"; Text ">"]); ("b", [Text "x"])]
              [Hole "a"; Text " and "; Hole "b"] eq_refl eq_refl eq_refl).
  - exact (Hb {[ "a" := "<{b}>"; "b" := "x" ]}
              [("b", [Text "x"]); ("a", [Text "<"; Hole "b"; Text ">"])]
              [Hole "a"; Text " and "; Hole "b"] eq_refl eq_refl eq_refl).
  - exact (Hf2 "a" "b" "x" eq_refl eq_refl ltac:(discriminate)).
  - exact (Hb2 "a" "b" "x" eq_refl eq_refl ltac:(discriminate)).
Defined.

(* ===================================================================== *)
(** * Phone cleanup *)
(* ===================================================================== *)

Section Phone.
Import whatsapp_models whatsapp_utils whatsapp_services.

Example clean_examples :
  CleanPhoneNumber "(123) 456-7890" = Ok "+1234567890"
  /\ CleanPhoneNumber "+1234567890" = Ok "+1234567890"
  /\ CleanPhoneNumber "123.456.7890" = Ok "+1234567890"
  /\ sms_service.cleanPhoneNumber "(123) 456-7890" = "+1234567890"
  /\ sms_service.cleanPhoneNumber "+1234567890" = "+1234567890".
Proof. repeat split; vm_compute; reflexivity. Qed.

(** Replacing a single byte by nothing removes every occurrence of it. *)
Lemma ReplaceAll_byte (c : ascii) (s : string) :
  strings.ReplaceAll s (String c "") "" = remove_bytes (fun x => Ascii.eqb x c) s.
Proof.
  unfold strings.ReplaceAll.
  induction s as [|x s IH]; [done |].
  cbn [strings.replace_from strings.HasPrefix remove_bytes String.length Nat.sub].
  destruct (Ascii.eqb x c); [exact IH | by rewrite IH].
Qed.

Lemma remove_bytes_twice (f g : ascii -> bool) (s : string) :
  remove_bytes f (remove_bytes g s) = remove_bytes (fun c => g c || f c) s.
Proof.
  induction s as [|x s IH]; [done |].
  cbn [remove_bytes]. destruct (g x); cbn [orb remove_bytes]; [exact IH |].
  destruct (f x); [exact IH | by rewrite IH].
Qed.

Lemma remove_bytes_ext (f g : ascii -> bool) (s : string) :
  (forall c, f c = g c) -> remove_bytes f s = remove_bytes g s.
Proof.
  intros Hfg. induction s as [|x s IH]; [done |].
  cbn [remove_bytes]. by rewrite Hfg, IH.
Qed.

(** The chat cleanup removes spaces, dashes, parentheses and dots. *)
Lemma chat_cleaned_spec (phone : string) :
  cleaned phone
  = with_plus (remove_bytes (one_of [" "; "-"; "("; ")"; "."]%char) phone).
Proof.
  unfold cleaned, with_plus. rewrite !ReplaceAll_byte, !remove_bytes_twice.
  rewrite (remove_bytes_ext _ (one_of [" "; "-"; "("; ")"; "."]%char)).
  - by destruct (strings.HasPrefix _ "+").
  - intros c. unfold one_of. cbn [existsb]. by rewrite !orb_assoc, orb_false_r.
Qed.

(** The SMS cleanup removes spaces, dashes and parentheses. *)
Lemma sms_cleanPhoneNumber_spec (phone : string) :
  sms_service.cleanPhoneNumber phone
  = with_plus (remove_bytes (one_of [" "; "-"; "("; ")"]%char) phone).
Proof.
  unfold sms_service.cleanPhoneNumber, with_plus.
  rewrite !ReplaceAll_byte, !remove_bytes_twice.
  rewrite (remove_bytes_ext _ (one_of [" "; "-"; "("; ")"]%char)).
  - by destruct (strings.HasPrefix _ "+").
  - intros c. unfold one_of. cbn [existsb]. by rewrite !orb_assoc, orb_false_r.
Qed.

(** C9.  The chat service's cleanup removes all spaces, dashes, parentheses
    and dots and puts a plus sign in front when there is none; the SMS
    service's cleanup does the same for spaces, dashes and parentheses but
    keeps the dots: "123.456.7890" comes out as "+123.456.7890" from
    [cleanPhoneNumber] (and from the legacy chat builder), and as
    "+1234567890" from [utils.CleanPhoneNumber]. *)
Theorem sms_cleanPhoneNumber_keeps_dots :
  (forall phone : string,
      cleaned phone
      = with_plus (remove_bytes (one_of [" "; "-"; "("; ")"; "."]%char) phone))
  /\ (forall phone : string,
      sms_service.cleanPhoneNumber phone
      = with_plus (remove_bytes (one_of [" "; "-"; "("; ")"]%char) phone))
  /\ sms_service.cleanPhoneNumber "123.456.7890" = "+123.456.7890"
  /\ whatsapp_legacy.CleanPhoneNumber "123.456.7890" = "+123.456.7890"
  /\ CleanPhoneNumber "123.456.7890" = Ok "+1234567890".
Proof.
  split; [exact chat_cleaned_spec |].
  split; [exact sms_cleanPhoneNumber_spec |].
  split; [|split]; vm_compute; reflexivity.
Qed.

Lemma MatchString_shape (s : string) :
  phoneNumberRegex_MatchString s = true <->
  exists d ds, s = String "+" (String d ds)
               /\ is_digit_1_9 d = true /\ all_digits ds = true
               /\ 1 <= String.length ds <= 14.
Proof.
  split.
  - destruct s as [|p [|d ds]]; cbn [phoneNumberRegex_MatchString]; try done.
    intros [[[[Hp Hd]%andb_prop Hds]%andb_prop Hl1]%andb_prop Hl2]%andb_prop.
    apply Ascii.eqb_eq in Hp as ->.
    apply Nat.leb_le in Hl1, Hl2. by exists d, ds.
  - intros (d & ds & -> & Hd & Hds & Hl1 & Hl2).
    cbn [phoneNumberRegex_MatchString].
    rewrite Ascii.eqb_refl, Hd, Hds. cbn [andb].
    apply andb_true_intro; split; by apply Nat.leb_le.
Qed.

Lemma MatchString_leading_zero (rest : string) :
  phoneNumberRegex_MatchString ("+" +:+ "0" +:+ rest) = false.
Proof. reflexivity. Qed.

Lemma is_digit_1_9_digit (d : ascii) : is_digit_1_9 d = true -> is_digit d = true.
Proof.
  unfold is_digit, is_digit_1_9.
  intros [H1 H2]%andb_prop. apply andb_true_intro. split; [|done].
  apply Nat.leb_le in H1. apply Nat.leb_le. lia.
Qed.

Lemma MatchString_non_digit (ds : string) :
  all_digits ds = false -> phoneNumberRegex_MatchString ("+" +:+ ds) = false.
Proof.
  intros Hnd.
  destruct (phoneNumberRegex_MatchString ("+" +:+ ds)) eqn:Hm; [|done].
  apply MatchString_shape in Hm as (d & ds' & [= ->] & Hd & Hds & _).
  cbn [all_digits] in Hnd. by rewrite (is_digit_1_9_digit d Hd), Hds in Hnd.
Qed.

Lemma MatchString_too_long (ds : string) :
  15 < String.length ds -> phoneNumberRegex_MatchString ("+" +:+ ds) = false.
Proof.
  intros Hl.
  destruct (phoneNumberRegex_MatchString ("+" +:+ ds)) eqn:Hm; [|done].
  apply MatchString_shape in Hm as (d & ds' & [= ->] & _ & _ & _ & Hl').
  cbn [String.length] in Hl. lia.
Qed.

Lemma CleanPhoneNumber_spec (phone : string) :
  CleanPhoneNumber phone
  = if phoneNumberRegex_MatchString (cleaned phone)
    then Ok (cleaned phone) else Err ErrInvalidPhoneNumber.
Proof.
  unfold CleanPhoneNumber. case_decide as He.
  - subst. reflexivity.
  - by destruct (phoneNumberRegex_MatchString (cleaned phone)).
Qed.

(** C10.  [CleanPhoneNumber] returns the cleaned number exactly when it
    matches the international format, and the invalid-phone-number error
    otherwise; the format excludes a leading zero, a character that is not a
    digit, and more than fifteen digits; and [ProcessNotification] then
    returns an error without entering [BuildMessage] and without sending. *)
Theorem CleanPhoneNumber_validates `{MapRange} (phone : string) :
  CleanPhoneNumber phone
    = (if phoneNumberRegex_MatchString (cleaned phone)
       then Ok (cleaned phone) else Err ErrInvalidPhoneNumber)
  /\ (phoneNumberRegex_MatchString (cleaned phone) = true <->
      exists d ds, cleaned phone = String "+" (String d ds)
                   /\ is_digit_1_9 d = true /\ all_digits ds = true
                   /\ 1 <= String.length ds <= 14)
  /\ (forall ds : string,
        cleaned phone = "+" +:+ ds ->
        ((exists rest, ds = "0" +:+ rest) \/ all_digits ds = false
          \/ 15 < String.length ds) ->
        CleanPhoneNumber phone = Err ErrInvalidPhoneNumber)
  /\ (forall (o : Outcomes) (payload : NotificationPayload),
        To payload = phone ->
        CleanPhoneNumber phone = Err ErrInvalidPhoneNumber ->
        (exists err, value_of (ProcessNotification o payload) = Some err)
        /\ (Enter Stage_BuildMessage ∉ log_of (ProcessNotification o payload))
        /\ forallb (fun c => negb (is_send c)) (log_of (ProcessNotification o payload)) = true).
Proof.
  split; [apply CleanPhoneNumber_spec |].
  split; [apply MatchString_shape |].
  split.
  - intros ds Hc Hbad. rewrite CleanPhoneNumber_spec, Hc.
    destruct Hbad as [[rest ->] | [Hnd | Hlong]].
    + by rewrite (MatchString_leading_zero rest).
    + by rewrite MatchString_non_digit.
    + by rewrite MatchString_too_long.
  - intros o payload <- Hm. unfold ProcessNotification.
    destruct (IsValid payload) as [err|]; simpl.
    + split; [by eexists |]. split; [|done].
      by intros [?|?%elem_of_nil]%elem_of_cons.
    + rewrite Hm. simpl.
      split; [by eexists |]. split; [|done].
      intros [?|[?|?%elem_of_nil]%elem_of_cons]%elem_of_cons; done.
Qed.

Lemma CleanPhoneNumber_validates_witness :
  CleanPhoneNumber "(012) 345-6789" = Err ErrInvalidPhoneNumber
  /\ (exists err,
        value_of (@ProcessNotification range_fwd samples.outcomes_ok samples.chat_leading_zero)
        = Some err).
Proof.
  pose proof (CleanPhoneNumber_validates (H := range_fwd) "(012) 345-6789")
    as (_ & _ & Hbad & Hproc).
  split.
  - apply (Hbad "0123456789"); [vm_compute; reflexivity |].
    left. exists "123456789". reflexivity.
  - apply (Hproc samples.outcomes_ok samples.chat_leading_zero);
      [reflexivity |].
    apply (Hbad "0123456789"); [vm_compute; reflexivity |].
    left. exists "123456789". reflexivity.
Defined.

End Phone.

(* ===================================================================== *)
(** * Message composition *)
(* ===================================================================== *)

Section Compose.
Import whatsapp_models whatsapp_services.
Context `{MapRange}.

Lemma buildMediaMessage_variant (to : string) (payload : NotificationPayload) :
  MediaURL payload <> "" ->
  exists m, buildMediaMessage to payload = Ok m /\ variant_of m = Some MediaVariant.
Proof.
  intros Hurl. unfold buildMediaMessage.
  rewrite decide_False by done.
  eexists; split; [reflexivity |].
  repeat case_decide; reflexivity.
Qed.

Lemma buildTemplateMessage_variant (to : string) (payload : NotificationPayload) :
  TemplateName payload <> "" ->
  exists m, buildTemplateMessage to payload = Ok m
            /\ variant_of m = Some TemplateVariant.
Proof.
  intros Hname. unfold buildTemplateMessage.
  rewrite decide_False by done. by eexists.
Qed.

Lemma buildTextMessage_variant (to : string) (payload : NotificationPayload) :
  if decide (RenderTemplate (TemplateBody payload) (Params payload) = "")
  then buildTextMessage to payload = Err ErrMissingContent
  else exists m, buildTextMessage to payload = Ok m
                 /\ variant_of m = Some TextVariant.
Proof.
  unfold buildTextMessage. case_decide; [done |]. by eexists.
Qed.

(** C7 (amended).  The composer selects the shape by the populated fields:
    a non-empty media URL yields the Media variant whatever the template
    name; otherwise a non-empty template name yields the Template variant;
    otherwise the Text variant is selected, which is produced when the
    rendered body is not empty and fails with MissingContent when it is. *)
Theorem BuildMessage_priority (payload : NotificationPayload) (to : string) :
  (MediaURL payload <> "" ->
     exists m, BuildMessage payload to = Ok m /\ variant_of m = Some MediaVariant)
  /\ (MediaURL payload = "" -> TemplateName payload <> "" ->
     exists m, BuildMessage payload to = Ok m /\ variant_of m = Some TemplateVariant)
  /\ (MediaURL payload = "" -> TemplateName payload = "" ->
     if decide (RenderTemplate (TemplateBody payload) (Params payload) = "")
     then BuildMessage payload to = Err ErrMissingContent
     else exists m, BuildMessage payload to = Ok m
                    /\ variant_of m = Some TextVariant).
Proof.
  unfold BuildMessage. split; [|split].
  - intros Hurl. rewrite decide_True by done.
    by apply buildMediaMessage_variant.
  - intros Hurl Hname.
    rewrite (decide_False (P := MediaURL payload <> "")) by congruence.
    rewrite decide_True by done. by apply buildTemplateMessage_variant.
  - intros Hurl Hname.
    rewrite (decide_False (P := MediaURL payload <> "")) by congruence.
    rewrite (decide_False (P := TemplateName payload <> "")) by congruence.
    apply buildTextMessage_variant.
Qed.

End Compose.

(** C7, as the specification states it, fails in its last case: a valid chat
    request without media URL and template name whose body renders to the
    empty string gets no Text message; the composer returns MissingContent. *)
Lemma BuildMessage_text_may_fail :
  whatsapp_models.IsValid samples.chat_empty_body = None
  /\ whatsapp_models.MediaURL samples.chat_empty_body = ""
  /\ whatsapp_models.TemplateName samples.chat_empty_body = ""
  /\ @whatsapp_services.BuildMessage range_fwd samples.chat_empty_body "+1234567890"
     = Err whatsapp_models.ErrMissingContent
  /\ @whatsapp_services.BuildMessage range_bwd samples.chat_empty_body "+1234567890"
     = Err whatsapp_models.ErrMissingContent.
Proof. repeat split; vm_compute; reflexivity. Qed.

Lemma BuildMessage_priority_witness :
  exists m,
    @whatsapp_services.BuildMessage range_fwd samples.chat_media_and_template
      "+1234567890" = Ok m
    /\ whatsapp_models.variant_of m = Some whatsapp_models.MediaVariant.
Proof.
  pose proof (BuildMessage_priority (H := range_fwd)
                samples.chat_media_and_template "+1234567890") as [Hm _].
  apply Hm. discriminate.
Defined.

(* ===================================================================== *)
(** * Email headers *)
(* ===================================================================== *)

Section EmailHeaders.
Import email_models email_services.
Context `{MapRange}.

Example priority_examples :
  mapPriorityToHeader "" = "3 (Normal)" /\ mapPriorityToHeader "unknown" = "3 (Normal)".
Proof. split; reflexivity. Qed.

Lemma custom_headers_absent (l : list (string * GoValue))
    (headers : gmap string string) (key : string) :
  (forall s, (key, VString s) ∉ l) ->
  foldl add_custom_header headers l !! key = headers !! key.
Proof.
  revert headers. induction l as [|[k v] l IH]; intros headers Hno; [done |].
  cbn [foldl]. rewrite IH.
  - unfold add_custom_header. cbn [fst snd].
    destruct v; try done.
    apply lookup_insert_ne. intros ->. eapply Hno. left.
  - intros s Hin. eapply Hno. right. exact Hin.
Qed.

Lemma custom_headers_present (l : list (string * GoValue))
    (headers : gmap string string) (key s : string) :
  NoDup l.*1 -> (key, VString s) ∈ l ->
  foldl add_custom_header headers l !! key = Some s.
Proof.
  revert headers. induction l as [|[k v] l IH]; intros headers;
    [by intros _ ?%elem_of_nil |].
  rewrite fmap_cons, NoDup_cons, elem_of_cons. intros [Hk Hnd] [[= <- <-]|Hin].
  - cbn [foldl]. rewrite custom_headers_absent.
    + unfold add_custom_header. cbn [fst snd]. apply lookup_insert_eq.
    + intros s' Hin. apply Hk. apply list_elem_of_fmap. by exists (key, VString s').
  - cbn [foldl]. by apply IH.
Qed.

(** The headers after the loop over the custom headers. *)
Lemma custom_headers_lookup (custom : gmap string GoValue)
    (headers : gmap string string) (key : string) :
  foldl add_custom_header headers (range custom) !! key
  = match custom !! key with
    | Some (VString s) => Some s
    | _ => headers !! key
    end.
Proof.
  pose proof (range_perm _ custom) as Hperm.
  assert (Hnd : NoDup (range custom).*1).
  { rewrite Hperm. apply NoDup_fst_map_to_list. }
  assert (Hin : forall v, (key, v) ∈ range custom <-> custom !! key = Some v).
  { intros v. rewrite Hperm. apply elem_of_map_to_list. }
  destruct (custom !! key) as [v|] eqn:Hk.
  - destruct v as [| | |s| |];
      try (apply custom_headers_absent; intros s' Hs; apply Hin in Hs; congruence).
    apply custom_headers_present; [done |]. by apply Hin.
  - apply custom_headers_absent. intros s' Hs. apply Hin in Hs. congruence.
Qed.

(** C8 (amended).  [mapPriorityToHeader] is total: urgent, high, medium and
    low map to "1 (Highest)", "2 (High)", "3 (Normal)" and "4 (Low)", every
    other string to "3 (Normal)".  The composed message of a valid request
    carries, as X-Priority, the string entry of that name of the custom
    headers when there is one; otherwise the mapped priority when the
    priority is not empty; and no X-Priority header when it is empty. *)
Theorem priority_header (payload : NotificationPayload) :
  mapPriorityToHeader "urgent" = "1 (Highest)"
  /\ mapPriorityToHeader "high" = "2 (High)"
  /\ mapPriorityToHeader "medium" = "3 (Normal)"
  /\ mapPriorityToHeader "low" = "4 (Low)"
  /\ (forall p : string,
        p <> "urgent" -> p <> "high" -> p <> "low" ->
        mapPriorityToHeader p = "3 (Normal)")
  /\ (IsValid payload = None ->
      exists m, BuildEmailMessage payload = Ok m
        /\ Headers m !! "X-Priority"
           = match custom_header payload "X-Priority" with
             | Some (VString s) => Some s
             | _ => if decide (Priority payload = "") then None
                    else Some (mapPriorityToHeader (Priority payload))
             end).
Proof.
  repeat (split; [reflexivity |]).
  split.
  - intros p Hu Hh Hl. unfold mapPriorityToHeader.
    repeat case_decide; done.
  - intros Hv. unfold BuildEmailMessage. rewrite Hv. cbn zeta.
    unfold RenderEmailTemplate. eexists; split; [reflexivity |].
    cbn [Headers]. unfold custom_header.
    assert (Hbase :
      (if decide (NotificationID payload <> "")
       then <["X-Notification-ID" := NotificationID payload]>
              (if decide (Priority payload <> "")
               then <["X-Priority" := mapPriorityToHeader (Priority payload)]>
                      (∅ : gmap string string)
               else ∅)
       else (if decide (Priority payload <> "")
             then <["X-Priority" := mapPriorityToHeader (Priority payload)]>
                    (∅ : gmap string string)
             else ∅)) !! "X-Priority"
      = if decide (Priority payload = "") then None
        else Some (mapPriorityToHeader (Priority payload))).
    { repeat case_decide; simplify_map_eq; done. }
    destruct (ChannelConfig payload !! "headers") as [[| | | | |custom]|];
      try exact Hbase.
    rewrite custom_headers_lookup.
    destruct (custom !! "X-Priority") as [[]|]; done.
Qed.

End EmailHeaders.

(** C8, as the specification states it, fails for the empty priority: the
    composed message of a valid request with priority "" carries no
    X-Priority header at all (while "unknown" gives "3 (Normal)"). *)
Lemma empty_priority_no_header :
  email_models.IsValid (samples.email_request "") = None
  /\ (exists m,
        @email_services.BuildEmailMessage range_fwd (samples.email_request "") = Ok m
        /\ email_models.Headers m !! "X-Priority" = None
        /\ email_models.Headers m !! "X-Notification-ID" = Some "n-4")
  /\ (exists m,
        @email_services.BuildEmailMessage range_fwd (samples.email_request "unknown")
        = Ok m
        /\ email_models.Headers m !! "X-Priority" = Some "3 (Normal)").
Proof.
  split; [reflexivity |]. split; eexists; (split; [reflexivity |]).
  - split; vm_compute; reflexivity.
  - vm_compute; reflexivity.
Qed.

Lemma priority_header_witness :
  exists m,
    @email_services.BuildEmailMessage range_fwd (samples.email_request "urgent") = Ok m
    /\ email_models.Headers m !! "X-Priority" = Some "1 (Highest)".
Proof.
  pose proof (priority_header (H := range_fwd) (samples.email_request "urgent"))
    as (_ & _ & _ & _ & _ & Hb).
  destruct (Hb eq_refl) as (m & Hm & Hp).
  exists m. split; [exact Hm |]. rewrite Hp. vm_compute. reflexivity.
Defined.

(* ===================================================================== *)
(** * Validation in the pipelines *)
(* ===================================================================== *)

Section Validation.
Context `{MapRange}.
Variable emailRegex_MatchString : string -> bool.
Variable strings_TrimSpace : string -> string.

Lemma chat_IsValid_order (n : whatsapp_models.NotificationPayload) :
  (whatsapp_models.NotificationID n = "" ->
     whatsapp_models.IsValid n = Some whatsapp_models.ErrInvalidNotificationID)
  /\ (whatsapp_models.NotificationID n <> "" -> whatsapp_models.To n = "" ->
     whatsapp_models.IsValid n = Some whatsapp_models.ErrInvalidRecipient)
  /\ (whatsapp_models.NotificationID n <> "" -> whatsapp_models.To n <> "" ->
     whatsapp_models.TemplateBody n = "" -> whatsapp_models.TemplateName n = "" ->
     whatsapp_models.IsValid n = Some whatsapp_models.ErrMissingContent)
  /\ (whatsapp_models.NotificationID n <> "" -> whatsapp_models.To n <> "" ->
     whatsapp_models.TemplateBody n <> "" \/ whatsapp_models.TemplateName n <> "" ->
     whatsapp_models.IsValid n = None).
Proof.
  unfold whatsapp_models.IsValid.
  repeat split; intros; repeat destruct (decide _); intuition congruence.
Qed.

Lemma email_IsValid_order (n : email_models.NotificationPayload) :
  (email_models.NotificationID n = "" ->
     email_models.IsValid n = Some email_models.ErrInvalidNotificationID)
  /\ (email_models.NotificationID n <> "" -> email_models.To n = "" ->
     email_models.IsValid n = Some email_models.ErrInvalidRecipient)
  /\ (email_models.NotificationID n <> "" -> email_models.To n <> "" ->
     email_models.TemplateBody n = "" ->
     email_models.IsValid n = Some email_models.ErrMissingContent)
  /\ (email_models.NotificationID n <> "" -> email_models.To n <> "" ->
     email_models.TemplateBody n <> "" ->
     email_models.IsValid n = None).
Proof.
  unfold email_models.IsValid.
  repeat split; intros; repeat destruct (decide _); intuition congruence.
Qed.

(** C6 (amended).  In the chat and email services validation fails fast on
    the first violated rule, in the order identifier, recipient, content
    (chat: template body and template name both empty; email: template body
    empty), and it runs first in [ProcessNotification]: an invalid request
    ends there, before cleanup, composition and sending.  The SMS service has
    no validation: [handleSMSPayload] cleans, renders and sends whatever the
    request holds. *)
Theorem validation_before_composition :
  (forall n : whatsapp_models.NotificationPayload,
     (whatsapp_models.NotificationID n = "" ->
        whatsapp_models.IsValid n = Some whatsapp_models.ErrInvalidNotificationID)
     /\ (whatsapp_models.NotificationID n <> "" -> whatsapp_models.To n = "" ->
        whatsapp_models.IsValid n = Some whatsapp_models.ErrInvalidRecipient)
     /\ (whatsapp_models.NotificationID n <> "" -> whatsapp_models.To n <> "" ->
        whatsapp_models.TemplateBody n = "" -> whatsapp_models.TemplateName n = "" ->
        whatsapp_models.IsValid n = Some whatsapp_models.ErrMissingContent)
     /\ (whatsapp_models.NotificationID n <> "" -> whatsapp_models.To n <> "" ->
        whatsapp_models.TemplateBody n <> "" \/ whatsapp_models.TemplateName n <> "" ->
        whatsapp_models.IsValid n = None))
  /\ (forall n : email_models.NotificationPayload,
     (email_models.NotificationID n = "" ->
        email_models.IsValid n = Some email_models.ErrInvalidNotificationID)
     /\ (email_models.NotificationID n <> "" -> email_models.To n = "" ->
        email_models.IsValid n = Some email_models.ErrInvalidRecipient)
     /\ (email_models.NotificationID n <> "" -> email_models.To n <> "" ->
        email_models.TemplateBody n = "" ->
        email_models.IsValid n = Some email_models.ErrMissingContent)
     /\ (email_models.NotificationID n <> "" -> email_models.To n <> "" ->
        email_models.TemplateBody n <> "" ->
        email_models.IsValid n = None))
  /\ (forall (o : Outcomes) (n : whatsapp_models.NotificationPayload) (err : error),
     whatsapp_models.IsValid n = Some err ->
     whatsapp_services.ProcessNotification o n
     = ([Enter Stage_IsValid],
        Some (fmt_Errorf "invalid notification payload: " err "")))
  /\ (forall (o : Outcomes) (n : email_models.NotificationPayload) (err : error),
     email_models.IsValid n = Some err ->
     email_services.BuildEmailMessage n = Err err
     /\ email_services.ProcessNotification emailRegex_MatchString strings_TrimSpace o n
        = ([Enter Stage_BuildEmailMessage],
           Some (fmt_Errorf "failed to build email message: " err "")))
  /\ (forall (n : sms_models.NotificationPayload) (cfg : sms_service.AppConfig),
     sms_service.handleSMSPayload n cfg
     = ([Enter Stage_CleanPhoneNumber; Enter Stage_renderTemplate;
         Send (SMS (sms_service.cleanPhoneNumber (sms_models.To n))
                   (renderTemplate (sms_models.TemplateBody n) (sms_models.Params n)))],
        None)).
Proof.
  split; [exact chat_IsValid_order |].
  split; [exact email_IsValid_order |].
  split; [|split].
  - intros o n err Hv. unfold whatsapp_services.ProcessNotification.
    by rewrite Hv.
  - intros o n err Hv.
    assert (email_services.BuildEmailMessage n = Err err) as Hb.
    { unfold email_services.BuildEmailMessage. by rewrite Hv. }
    split; [exact Hb |].
    unfold email_services.ProcessNotification. by rewrite Hb.
  - intros n cfg. reflexivity.
Qed.

End Validation.

(** C6, as the specification states it, fails for the SMS service: a request
    with an empty recipient is not stopped; the recipient is cleaned to "+"
    and the message is handed to the sender. *)
Lemma sms_empty_recipient_is_sent :
  sms_models.To samples.sms_no_recipient = ""
  /\ @sms_service.handleSMSPayload range_fwd samples.sms_no_recipient samples.sms_config
     = ([Enter Stage_CleanPhoneNumber; Enter Stage_renderTemplate; Send (SMS "+" "Hi")],
        None).
Proof. split; vm_compute; reflexivity. Qed.

Lemma validation_before_composition_witness :
  @whatsapp_services.ProcessNotification range_fwd samples.outcomes_ok
     samples.chat_no_recipient
  = ([Enter Stage_IsValid],
     Some (fmt_Errorf "invalid notification payload: "
             whatsapp_models.ErrInvalidRecipient "")).
Proof.
  pose proof (validation_before_composition (H := range_fwd)
                (fun _ => true) (fun s => s)) as (Hc & _ & Hp & _).
  apply Hp.
  destruct (Hc samples.chat_no_recipient) as (_ & Hr & _).
  apply Hr; [discriminate | reflexivity].
Defined.

(* ===================================================================== *)
(** * The consumer loops *)
(* ===================================================================== *)

Lemma log_of_bind {A B : Type} (m : Eff A) (k : A -> Eff B) :
  log_of (bind m k) = log_of m ++ log_of (k (value_of m)).
Proof. destruct m as [l a]. unfold bind, log_of, value_of. simpl. by destruct (k a). Qed.

Lemma value_of_bind {A B : Type} (m : Eff A) (k : A -> Eff B) :
  value_of (bind m k) = value_of (k (value_of m)).
Proof. destruct m as [l a]. unfold bind, log_of, value_of. simpl. by destruct (k a). Qed.

Lemma acks_app (l1 l2 : list Call) : acks (l1 ++ l2) = acks l1 ++ acks l2.
Proof. apply omap_app. Qed.

Lemma commits_follow_ack_tail (pre : list Call) (key : option string)
    (ack : AckPayload) (m : KafkaMessage) (seen : bool) :
  Forall (fun c => is_commit c = false) pre ->
  commits_follow_ack seen (pre ++ [WriteMessages key ack; CommitMessages m]) = true.
Proof.
  intros Hpre. revert seen.
  induction Hpre as [|c pre Hc _ IH]; intros seen; [done |].
  destruct c; simpl in *; try done; apply IH.
Qed.

(** A read writes no acknowledgment and sends nothing. *)
Lemma ReadMessage_quiet (GroupID : string) (p : Poll) :
  acks (log_of (kafka.ReadMessage GroupID p)) = []
  /\ filter (fun c => is_send c = true) (log_of (kafka.ReadMessage GroupID p)) = [].
Proof.
  unfold kafka.ReadMessage. destruct p as [e|m o]; [done |].
  case_decide; [|done]. by destruct (commit_result o).
Qed.

Section Loops.
Context `{MapRange}.
Variable emailRegex_MatchString : string -> bool.
Variable strings_TrimSpace : string -> string.
Variable email_Unmarshal : string -> email_models.NotificationPayload * option error.
Variable sms_Unmarshal : string -> sms_models.NotificationPayload * option error.
Variable chat_Unmarshal : string -> whatsapp_models.NotificationPayload * option error.
Variable os_Getenv : string -> string.

#[local] Abbreviation email_ProcessNotification :=
  (email_services.ProcessNotification emailRegex_MatchString strings_TrimSpace).
#[local] Abbreviation email_iteration :=
  (email_services.StartConsumer_iteration email_Unmarshal).
#[local] Abbreviation email_StartConsumer :=
  (email_services.StartConsumer email_Unmarshal).
#[local] Abbreviation sms_iteration :=
  (sms_service.consumeSMSTopic_iteration sms_Unmarshal).
#[local] Abbreviation sms_consumeSMSTopic :=
  (sms_service.consumeSMSTopic sms_Unmarshal).
#[local] Abbreviation chat_iteration :=
  (whatsapp_legacy.Start_iteration chat_Unmarshal whatsapp_legacy.HandleMessage).
#[local] Abbreviation chat_Start :=
  (whatsapp_legacy.Start chat_Unmarshal whatsapp_legacy.HandleMessage).

(** The loops go on with the rest of the script after each poll, and end
    only when the context is cancelled. *)
Lemma email_StartConsumer_cons (p : Poll) (rest : list Poll)
    (processor : Outcomes -> email_models.NotificationPayload -> Eff (option error)) :
  log_of (email_StartConsumer (p :: rest) processor)
  = log_of (email_iteration p processor) ++ log_of (email_StartConsumer rest processor).
Proof. cbn [email_services.StartConsumer]. by rewrite log_of_bind. Qed.

Lemma email_StartConsumer_returns (script : list Poll)
    (processor : Outcomes -> email_models.NotificationPayload -> Eff (option error)) :
  value_of (email_StartConsumer script processor) = context_Canceled.
Proof.
  induction script as [|p rest IH]; [done |].
  cbn [email_services.StartConsumer]. by rewrite value_of_bind.
Qed.

Lemma sms_consumeSMSTopic_cons (cfg : sms_service.AppConfig) (p : Poll)
    (rest : list Poll) :
  log_of (sms_consumeSMSTopic cfg (p :: rest))
  = log_of (sms_iteration cfg p) ++ log_of (sms_consumeSMSTopic cfg rest).
Proof. cbn [sms_service.consumeSMSTopic]. by rewrite log_of_bind. Qed.

Lemma chat_Start_cons (GroupID : string) (p : Poll) (rest : list Poll) :
  log_of (chat_Start GroupID (p :: rest))
  = log_of (chat_iteration GroupID p) ++ log_of (chat_Start GroupID rest).
Proof. cbn [whatsapp_legacy.Start]. by rewrite log_of_bind. Qed.

Lemma getConfigFromEnv_GroupID :
  sms_service.GroupID (sms_service.getConfigFromEnv os_Getenv) <> "".
Proof.
  cbn [sms_service.getConfigFromEnv sms_service.GroupID].
  unfold sms_service.getenv. by case_decide.
Qed.

(** C1 (amended).  When the body of an inbound message fails to decode, the
    email service's loop writes one FAILURE acknowledgment with the details
    "Invalid JSON payload", under the notification identifier that the
    decoder left in the payload, does not call the processor, commits the
    message and goes on with the next poll.  The loops of the SMS service and
    of the chat [kafka.Consumer] write no acknowledgment for such a message:
    they do nothing beyond the read and go on with the next poll. *)
Theorem malformed_json_handling (m : KafkaMessage) (o : Outcomes) (rest : list Poll) :
  (forall (payload : email_models.NotificationPayload) (err : error)
          (processor : Outcomes -> email_models.NotificationPayload -> Eff (option error)),
     email_Unmarshal (Value m) = (payload, Some err) ->
     let ack := {| ack_NotificationID := email_models.NotificationID payload;
                   ack_Status := StatusFailure;
                   ack_Details := "Invalid JSON payload";
                   ack_Timestamp := time_Now o |} in
     log_of (email_iteration (PollMessage m o) processor)
     = [FetchMessage (Ok m);
        WriteMessages (Some (email_models.NotificationID payload)) ack;
        CommitMessages m]
     /\ log_of (email_StartConsumer (PollMessage m o :: rest) processor)
        = [FetchMessage (Ok m);
           WriteMessages (Some (email_models.NotificationID payload)) ack;
           CommitMessages m]
          ++ log_of (email_StartConsumer rest processor))
  /\ (forall (payload : sms_models.NotificationPayload) (err : error)
             (cfg : sms_service.AppConfig),
     sms_Unmarshal (Value m) = (payload, Some err) ->
     log_of (sms_iteration cfg (PollMessage m o))
     = log_of (kafka.ReadMessage (sms_service.GroupID cfg) (PollMessage m o))
     /\ acks (log_of (sms_iteration cfg (PollMessage m o))) = []
     /\ log_of (sms_consumeSMSTopic cfg (PollMessage m o :: rest))
        = log_of (sms_iteration cfg (PollMessage m o))
          ++ log_of (sms_consumeSMSTopic cfg rest))
  /\ (forall (payload : whatsapp_models.NotificationPayload) (err : error)
             (GroupID : string),
     chat_Unmarshal (Value m) = (payload, Some err) ->
     log_of (chat_iteration GroupID (PollMessage m o))
     = log_of (kafka.ReadMessage GroupID (PollMessage m o))
     /\ acks (log_of (chat_iteration GroupID (PollMessage m o))) = []
     /\ log_of (chat_Start GroupID (PollMessage m o :: rest))
        = log_of (chat_iteration GroupID (PollMessage m o))
          ++ log_of (chat_Start GroupID rest)).
Proof.
  split; [|split].
  - intros payload err processor Hd ack.
    assert (log_of (email_iteration (PollMessage m o) processor)
            = [FetchMessage (Ok m);
               WriteMessages (Some (email_models.NotificationID payload)) ack;
               CommitMessages m]) as Hit.
    { unfold email_services.StartConsumer_iteration, email_services.processMessage.
      by rewrite Hd. }
    split; [exact Hit |]. by rewrite email_StartConsumer_cons, Hit.
  - intros payload err cfg Hd.
    assert (log_of (sms_iteration cfg (PollMessage m o))
            = log_of (kafka.ReadMessage (sms_service.GroupID cfg) (PollMessage m o)))
      as Hit.
    { unfold sms_service.consumeSMSTopic_iteration. rewrite log_of_bind.
      destruct (value_of _) as [m'|e] eqn:Hr; [|apply app_nil_r].
      assert (m' = m) as ->.
      { unfold kafka.ReadMessage in Hr. case_decide; [|by injection Hr].
        destruct (commit_result o); [done | by injection Hr]. }
      rewrite Hd. apply app_nil_r. }
    split; [exact Hit |]. split; [|apply sms_consumeSMSTopic_cons].
    rewrite Hit. unfold kafka.ReadMessage.
    case_decide; [|done]. by destruct (commit_result o).
  - intros payload err GroupID Hd.
    assert (log_of (chat_iteration GroupID (PollMessage m o))
            = log_of (kafka.ReadMessage GroupID (PollMessage m o))) as Hit.
    { unfold whatsapp_legacy.Start_iteration. rewrite log_of_bind.
      destruct (value_of _) as [m'|e] eqn:Hr; [|apply app_nil_r].
      assert (m' = m) as ->.
      { unfold kafka.ReadMessage in Hr. case_decide; [|by injection Hr].
        destruct (commit_result o); [done | by injection Hr]. }
      rewrite Hd. apply app_nil_r. }
    split; [exact Hit |]. split; [|apply chat_Start_cons].
    rewrite Hit. unfold kafka.ReadMessage.
    case_decide; [|done]. by destruct (commit_result o).
Qed.

(** The three ways [ProcessNotification] of the email service can go. *)
Lemma email_ProcessNotification_cases (o : Outcomes)
    (payload : email_models.NotificationPayload) :
  (exists cause,
      email_services.BuildEmailMessage payload = Err cause
      /\ email_ProcessNotification o payload
         = ([Enter Stage_BuildEmailMessage],
            Some (fmt_Errorf "failed to build email message: " cause "")))
  \/ (exists msg cause,
      email_services.BuildEmailMessage payload = Ok msg
      /\ email_services.ValidateEmailMessage emailRegex_MatchString
           strings_TrimSpace msg = Some cause
      /\ email_ProcessNotification o payload
         = ([Enter Stage_BuildEmailMessage; Enter Stage_ValidateEmailMessage],
            Some (fmt_Errorf "invalid email message: " cause "")))
  \/ (exists msg,
      email_services.BuildEmailMessage payload = Ok msg
      /\ email_services.ValidateEmailMessage emailRegex_MatchString
           strings_TrimSpace msg = None
      /\ email_ProcessNotification o payload
         = ([Enter Stage_BuildEmailMessage; Enter Stage_ValidateEmailMessage;
             Send (Email msg)],
            match send_result o with
            | Some cause => Some (fmt_Errorf "failed to send email: " cause "")
            | None => None
            end)).
Proof.
  unfold email_services.ProcessNotification.
  destruct (email_services.BuildEmailMessage payload) as [msg|cause];
    [|left; by exists cause].
  right.
  destruct (email_services.ValidateEmailMessage _ _ msg) as [cause|] eqn:Hv;
    [left; by exists msg, cause |].
  right. exists msg. repeat split; [done |].
  by destruct (send_result o).
Qed.

Lemma email_iteration_decoded (m : KafkaMessage) (o : Outcomes)
    (payload : email_models.NotificationPayload)
    (processor : Outcomes -> email_models.NotificationPayload -> Eff (option error)) :
  email_Unmarshal (Value m) = (payload, None) ->
  log_of (email_iteration (PollMessage m o) processor)
  = FetchMessage (Ok m) :: log_of (processor o payload)
    ++ [WriteMessages (Some (email_models.NotificationID payload))
          (email_services.expected_ack o payload (value_of (processor o payload)));
        CommitMessages m].
Proof.
  intros Hd.
  unfold email_services.StartConsumer_iteration, email_services.processMessage.
  rewrite Hd. destruct (processor o payload) as [l [err|]];
    cbn; by rewrite <- app_assoc.
Qed.

Lemma sms_iteration_decoded (cfg : sms_service.AppConfig) (m : KafkaMessage)
    (o : Outcomes) (payload : sms_models.NotificationPayload) :
  value_of (kafka.ReadMessage (sms_service.GroupID cfg) (PollMessage m o)) = Ok m ->
  sms_Unmarshal (Value m) = (payload, None) ->
  log_of (sms_iteration cfg (PollMessage m o))
  = log_of (kafka.ReadMessage (sms_service.GroupID cfg) (PollMessage m o))
    ++ [Enter Stage_CleanPhoneNumber; Enter Stage_renderTemplate;
        Send (SMS (sms_service.cleanPhoneNumber (sms_models.To payload))
                  (renderTemplate (sms_models.TemplateBody payload)
                                  (sms_models.Params payload)));
        WriteMessages None
          {| ack_NotificationID := sms_models.NotificationId payload;
             ack_Status := "SUCCESS";
             ack_Details := "SMS sent successfully";
             ack_Timestamp := time_Now o |}].
Proof.
  intros Hr Hd. unfold sms_service.consumeSMSTopic_iteration.
  rewrite log_of_bind, Hr, Hd. reflexivity.
Qed.

Lemma email_ProcessNotification_acks (o : Outcomes)
    (payload : email_models.NotificationPayload) :
  acks (log_of (email_ProcessNotification o payload)) = []
  /\ length (filter (fun c => is_send c = true)
                    (log_of (email_ProcessNotification o payload))) <= 1.
Proof.
  destruct (email_ProcessNotification_cases o payload)
    as [(cause & _ & ->) | [(msg & cause & _ & _ & ->) | (msg & _ & _ & ->)]];
    (split; [done | vm_compute; lia]).
Qed.

Lemma email_ProcessNotification_success (o : Outcomes)
    (payload : email_models.NotificationPayload) :
  value_of (email_ProcessNotification o payload) = None <->
  (exists msg, Send (Email msg) ∈ log_of (email_ProcessNotification o payload))
  /\ send_result o = None.
Proof.
  destruct (email_ProcessNotification_cases o payload)
    as [(cause & _ & ->) | [(msg & cause & _ & _ & ->) | (msg & _ & _ & ->)]];
    cbn [log_of value_of fst snd].
  - split; [done | intros [[msg Hin] _]].
    by apply list_elem_of_singleton in Hin.
  - split; [done | intros [[msg' Hin] _]].
    apply elem_of_cons in Hin as [|Hin]; [done |].
    by apply list_elem_of_singleton in Hin.
  - destruct (send_result o) as [cause|]; [by split; [|intros [_ ?]] |].
    split; [intros _ | done]. split; [|done].
    exists msg. do 2 right. left.
Qed.

Lemma email_ProcessNotification_failure (o : Outcomes)
    (payload : email_models.NotificationPayload) (err : error) :
  value_of (email_ProcessNotification o payload) = Some err ->
  exists before cause,
    Error err = before +:+ Error cause
    /\ (email_services.BuildEmailMessage payload = Err cause
        \/ (exists msg,
              email_services.BuildEmailMessage payload = Ok msg
              /\ email_services.ValidateEmailMessage
                   emailRegex_MatchString strings_TrimSpace msg = Some cause)
        \/ send_result o = Some cause).
Proof.
  destruct (email_ProcessNotification_cases o payload)
    as [(cause & Hb & ->) | [(msg & cause & Hb & Hv & ->) | (msg & Hb & Hv & ->)]];
    cbn [value_of snd].
  - intros [= <-]. exists "failed to build email message: ", cause.
    cbn [Error]. rewrite append_empty_r. split; [done | by left].
  - intros [= <-]. exists "invalid email message: ", cause.
    cbn [Error]. rewrite append_empty_r. split; [done |]. right; left. by exists msg.
  - destruct (send_result o) as [cause|]; [|done].
    intros [= <-]. exists "failed to send email: ", cause.
    cbn [Error]. rewrite append_empty_r. split; [done | by right; right].
Qed.

(** C2.  For a message that decodes, the loops of the email service, of the
    SMS service and of the chat [kafka.Consumer] write exactly one
    acknowledgment, under the request's notification identifier: SUCCESS when
    the sender was called and succeeded; FAILURE otherwise, with details that
    end with the message of the error of the stage that failed.  The sender
    is called at most once, and the loop goes on with the next poll. *)
Theorem one_acknowledgment_per_message (m : KafkaMessage) (o : Outcomes)
    (rest : list Poll) :
  (forall payload : email_models.NotificationPayload,
     email_Unmarshal (Value m) = (payload, None) ->
     let res := email_ProcessNotification o payload in
     let it := email_iteration (PollMessage m o) email_ProcessNotification in
     let ack := email_services.expected_ack o payload (value_of res) in
     log_of it
     = FetchMessage (Ok m) :: log_of res
       ++ [WriteMessages (Some (email_models.NotificationID payload)) ack;
           CommitMessages m]
     /\ acks (log_of it) = [ack]
     /\ ack_NotificationID ack = email_models.NotificationID payload
     /\ (ack_Status ack = StatusSuccess <->
         (exists msg, Send (Email msg) ∈ log_of res) /\ send_result o = None)
     /\ (ack_Status ack <> StatusSuccess ->
         ack_Status ack = StatusFailure
         /\ exists before cause,
              ack_Details ack = before +:+ Error cause
              /\ (email_services.BuildEmailMessage payload = Err cause
                  \/ (exists msg,
                        email_services.BuildEmailMessage payload = Ok msg
                        /\ email_services.ValidateEmailMessage
                             emailRegex_MatchString strings_TrimSpace msg
                           = Some cause)
                  \/ send_result o = Some cause))
     /\ length (filter (fun c => is_send c = true) (log_of it)) <= 1
     /\ log_of (email_StartConsumer (PollMessage m o :: rest) email_ProcessNotification)
        = log_of it ++ log_of (email_StartConsumer rest email_ProcessNotification))
  /\ (forall (payload : sms_models.NotificationPayload) (cfg : sms_service.AppConfig),
     value_of (kafka.ReadMessage (sms_service.GroupID cfg) (PollMessage m o)) = Ok m ->
     sms_Unmarshal (Value m) = (payload, None) ->
     let it := sms_iteration cfg (PollMessage m o) in
     acks (log_of it)
     = [ {| ack_NotificationID := sms_models.NotificationId payload;
            ack_Status := StatusSuccess;
            ack_Details := "SMS sent successfully";
            ack_Timestamp := time_Now o |} ]
     /\ filter (fun c => is_send c = true) (log_of it)
        = [Send (SMS (sms_service.cleanPhoneNumber (sms_models.To payload))
                     (renderTemplate (sms_models.TemplateBody payload)
                                     (sms_models.Params payload)))]
     /\ log_of (sms_consumeSMSTopic cfg (PollMessage m o :: rest))
        = log_of it ++ log_of (sms_consumeSMSTopic cfg rest))
  /\ (forall (payload : whatsapp_models.NotificationPayload) (GroupID : string),
     value_of (kafka.ReadMessage GroupID (PollMessage m o)) = Ok m ->
     chat_Unmarshal (Value m) = (payload, None) ->
     let it := chat_iteration GroupID (PollMessage m o) in
     acks (log_of it)
     = [ {| ack_NotificationID := whatsapp_models.NotificationID payload;
            ack_Status := match send_result o with
                          | None => StatusSuccess
                          | Some _ => StatusFailure
                          end;
            ack_Details := match send_result o with
                           | None => "WhatsApp message sent successfully"
                           | Some err => "Failed to send WhatsApp message: " +:+ Error err
                           end;
            ack_Timestamp := time_Now o |} ]
     /\ filter (fun c => is_send c = true) (log_of it)
        = [Send (Chat (whatsapp_legacy.BuildFromPayload payload))]
     /\ log_of (chat_Start GroupID (PollMessage m o :: rest))
        = log_of it ++ log_of (chat_Start GroupID rest)).
Proof.
  split; [|split].
  - intros payload Hd res it ack. subst res it ack.
    pose proof (email_iteration_decoded m o payload email_ProcessNotification Hd)
      as Hit.
    destruct (email_ProcessNotification_acks o payload) as [Hacks Hsends].
    split; [exact Hit |].
    split.
    { rewrite Hit. change (?x :: ?l ++ ?r) with ([x] ++ l ++ r).
      rewrite !acks_app. by rewrite Hacks. }
    split; [reflexivity |].
    split.
    { rewrite <- (email_ProcessNotification_success o payload).
      unfold email_services.expected_ack. cbn [ack_Status].
      by destruct (value_of _). }
    split.
    { unfold email_services.expected_ack. cbn [ack_Status ack_Details].
      destruct (value_of _) as [err|] eqn:Hres; [intros _ | done].
      split; [done |]. by apply email_ProcessNotification_failure. }
    split; [|apply email_StartConsumer_cons].
    rewrite Hit. change (?x :: ?l ++ ?r) with ([x] ++ l ++ r).
    rewrite !filter_app, !length_app.
    change (length (filter _ [FetchMessage (Ok m)])) with 0.
    change (length (filter _ [WriteMessages _ _; CommitMessages m])) with 0.
    lia.
  - intros payload cfg Hr Hd it. subst it.
    rewrite (sms_iteration_decoded cfg m o payload Hr Hd).
    split; [|split].
    + rewrite acks_app. unfold kafka.ReadMessage.
      case_decide; [|done]. by destruct (commit_result o).
    + rewrite filter_app. unfold kafka.ReadMessage.
      case_decide; [|done]. by destruct (commit_result o).
    + rewrite sms_consumeSMSTopic_cons.
      by rewrite (sms_iteration_decoded cfg m o payload Hr Hd).
  - intros payload GroupID Hr Hd it. subst it.
    destruct (ReadMessage_quiet GroupID (PollMessage m o)) as [Hra Hrs].
    split; [|split; [|apply chat_Start_cons]].
    + unfold whatsapp_legacy.Start_iteration. rewrite log_of_bind, Hr, Hd.
      rewrite acks_app, Hra.
      unfold whatsapp_legacy.HandleMessage, whatsapp_legacy.SendAck.
      cbn [kafka.outcomes_of].
      destruct (send_result o), (write_result o); reflexivity.
    + unfold whatsapp_legacy.Start_iteration. rewrite log_of_bind, Hr, Hd.
      rewrite filter_app, Hrs.
      unfold whatsapp_legacy.HandleMessage, whatsapp_legacy.SendAck.
      cbn [kafka.outcomes_of].
      destruct (send_result o), (write_result o); reflexivity.
Qed.

Lemma email_ProcessNotification_no_commit (o : Outcomes)
    (payload : email_models.NotificationPayload) :
  Forall (fun c => is_commit c = false) (log_of (email_ProcessNotification o payload)).
Proof.
  destruct (email_ProcessNotification_cases o payload)
    as [(cause & _ & ->) | [(msg & cause & _ & _ & ->) | (msg & _ & _ & ->)]];
    cbn [log_of fst]; repeat constructor.
Qed.

(** C3 (amended).  In the email service's loop the offset of a fetched
    message is committed as the last call of the iteration, right after the
    acknowledgment write and whatever that write answered.  The loops of the
    SMS service and of the chat [kafka.Consumer] read with [ReadMessage],
    which, with a consumer group, commits the offset as part of the read:
    there the commit comes first, before the payload is decoded, and no
    commit follows the acknowledgment. *)
Theorem commit_and_acknowledgment_order (m : KafkaMessage) (o : Outcomes) :
  (forall processor : Outcomes -> email_models.NotificationPayload -> Eff (option error),
     exists pre key ack,
       log_of (email_iteration (PollMessage m o) processor)
       = FetchMessage (Ok m) :: pre ++ [WriteMessages key ack; CommitMessages m])
  /\ commits_follow_ack false
       (log_of (email_iteration (PollMessage m o) email_ProcessNotification)) = true
  /\ (exists post,
       log_of (sms_iteration (sms_service.getConfigFromEnv os_Getenv) (PollMessage m o))
       = FetchMessage (Ok m) :: CommitMessages m :: post
       /\ Forall (fun c => is_commit c = false) post)
  /\ (forall GroupID : string,
       GroupID <> "" ->
       exists post,
         log_of (chat_iteration GroupID (PollMessage m o))
         = FetchMessage (Ok m) :: CommitMessages m :: post
         /\ Forall (fun c => is_commit c = false) post).
Proof.
  assert (Hshape : forall processor,
    exists pre key ack,
      log_of (email_iteration (PollMessage m o) processor)
      = FetchMessage (Ok m) :: pre ++ [WriteMessages key ack; CommitMessages m]
      /\ (pre = [] \/ exists payload, pre = log_of (processor o payload))).
  { intros processor.
    destruct (email_Unmarshal (Value m)) as [payload [err|]] eqn:Hd.
    - exists [], (Some (email_models.NotificationID payload)). eexists.
      split; [|by left].
      unfold email_services.StartConsumer_iteration, email_services.processMessage.
      rewrite Hd. reflexivity.
    - exists (log_of (processor o payload)). do 2 eexists.
      split; [by apply email_iteration_decoded | right; by exists payload]. }
  split; [|split; [|split]].
  - intros processor.
    destruct (Hshape processor) as (pre & key & ack & Hlog & _). by exists pre, key, ack.
  - destruct (Hshape email_ProcessNotification) as (pre & key & ack & -> & Hpre).
    cbn [commits_follow_ack]. apply commits_follow_ack_tail.
    destruct Hpre as [-> | [payload ->]]; [constructor |].
    apply email_ProcessNotification_no_commit.
  - pose proof getConfigFromEnv_GroupID as Hg.
    unfold sms_service.consumeSMSTopic_iteration, kafka.ReadMessage.
    rewrite decide_True by done.
    destruct (commit_result o) as [e|]; [by exists [] |].
    cbn -[sms_service.getConfigFromEnv].
    destruct (sms_Unmarshal (Value m)) as [payload [err|]]; [by exists [] |].
    eexists; split; [reflexivity | repeat constructor].
  - intros GroupID Hg.
    unfold whatsapp_legacy.Start_iteration, kafka.ReadMessage.
    rewrite decide_True by done.
    destruct (commit_result o) as [e|]; [by exists [] |].
    cbn -[whatsapp_legacy.HandleMessage].
    destruct (chat_Unmarshal (Value m)) as [payload [err|]]; [by exists [] |].
    unfold whatsapp_legacy.HandleMessage, whatsapp_legacy.SendAck.
    destruct (send_result o), (write_result o);
      (eexists; split; [reflexivity | repeat constructor]).
Qed.

End Loops.

(** C1, as the specification states it, fails for the SMS service and for the
    chat [kafka.Consumer]: a message whose body does not decode is read (and
    its offset committed by the read), and nothing else happens; no
    acknowledgment is written. *)
Lemma malformed_json_without_ack :
  samples.sms_Unmarshal (Value samples.bad_message)
    = (samples.sms_zero, Some samples.syntax_error)
  /\ @sms_service.consumeSMSTopic_iteration range_fwd samples.sms_Unmarshal
       samples.sms_config (PollMessage samples.bad_message samples.outcomes_ok)
     = ([FetchMessage (Ok samples.bad_message); CommitMessages samples.bad_message], tt)
  /\ acks (log_of (@sms_service.consumeSMSTopic_iteration range_fwd
                     samples.sms_Unmarshal samples.sms_config
                     (PollMessage samples.bad_message samples.outcomes_ok))) = []
  /\ acks (log_of (whatsapp_legacy.Start_iteration samples.chat_Unmarshal
                     (@whatsapp_legacy.HandleMessage range_fwd)
                     "whatsapp-service-group"
                     (PollMessage samples.bad_message samples.outcomes_ok))) = [].
Proof. repeat split; vm_compute; reflexivity. Qed.

(** A run of the email loop over a failed fetch, a body that does not
    decode and a request whose send fails: two acknowledgments, two commits,
    and the loop returns when the context is cancelled. *)
Example email_loop_run :
  @email_services.StartConsumer samples.email_Unmarshal
    [PollError (errors_New "i/o timeout");
     PollMessage samples.bad_message samples.outcomes_ok;
     PollMessage samples.good_message samples.outcomes_send_fails]
    (@email_services.ProcessNotification range_fwd (fun _ => true) (fun s => s))
  = ([FetchMessage (Err (errors_New "i/o timeout"));
      FetchMessage (Ok samples.bad_message);
      WriteMessages (Some "")
        {| ack_NotificationID := ""; ack_Status := "FAILURE";
           ack_Details := "Invalid JSON payload"; ack_Timestamp := 1700000000 |};
      CommitMessages samples.bad_message;
      FetchMessage (Ok samples.good_message);
      Enter Stage_BuildEmailMessage; Enter Stage_ValidateEmailMessage;
      Send (Email {| email_models.msg_To := "ann@example.com";
                     email_models.Subject := "Welcome";
                     email_models.Body := "Hello Ann";
                     email_models.Headers :=
                       {[ "X-Priority" := "2 (High)";
                          "X-Notification-ID" := "n-4" ]} |});
      WriteMessages (Some "n-4")
        {| ack_NotificationID := "n-4"; ack_Status := "FAILURE";
           ack_Details := "failed to send email: network error";
           ack_Timestamp := 1700000000 |};
      CommitMessages samples.good_message],
     context_Canceled).
Proof. vm_compute. reflexivity. Qed.

Lemma malformed_json_handling_witness :
  log_of (@email_services.StartConsumer_iteration samples.email_Unmarshal
            (PollMessage samples.bad_message samples.outcomes_ok)
            (@email_services.ProcessNotification range_fwd (fun _ => true) (fun s => s)))
  = [FetchMessage (Ok samples.bad_message);
     WriteMessages (Some "")
       {| ack_NotificationID := ""; ack_Status := "FAILURE";
          ack_Details := "Invalid JSON payload"; ack_Timestamp := 1700000000 |};
     CommitMessages samples.bad_message].
Proof.
  pose proof (malformed_json_handling (H := range_fwd)
                samples.email_Unmarshal samples.sms_Unmarshal samples.chat_Unmarshal
                samples.bad_message samples.outcomes_ok []) as [He _].
  destruct (He samples.email_zero samples.syntax_error
              (@email_services.ProcessNotification range_fwd (fun _ => true) (fun s => s)))
    as [Hlog _]; [reflexivity |].
  exact Hlog.
Defined.

(** C3, as the specification states it, fails for the SMS service: the
    offset is committed by the read, before the request is handled and before
    the acknowledgment is written. *)
Lemma sms_commit_precedes_ack :
  log_of (@sms_service.consumeSMSTopic_iteration range_fwd samples.sms_Unmarshal
            samples.sms_config (PollMessage samples.good_message samples.outcomes_ok))
  = [FetchMessage (Ok samples.good_message);
     CommitMessages samples.good_message;
     Enter Stage_CleanPhoneNumber; Enter Stage_renderTemplate;
     Send (SMS "+1234567890" "Hi Ann");
     WriteMessages None
       {| ack_NotificationID := "n-7"; ack_Status := "SUCCESS";
          ack_Details := "SMS sent successfully"; ack_Timestamp := 1700000000 |}]
  /\ commits_follow_ack false
       (log_of (@sms_service.consumeSMSTopic_iteration range_fwd samples.sms_Unmarshal
                  samples.sms_config
                  (PollMessage samples.good_message samples.outcomes_ok))) = false.
Proof. split; vm_compute; reflexivity. Qed.

Lemma one_acknowledgment_per_message_witness :
  acks (log_of (@email_services.StartConsumer_iteration samples.email_Unmarshal
                  (PollMessage samples.good_message samples.outcomes_send_fails)
                  (@email_services.ProcessNotification range_fwd
                     (fun _ => true) (fun s => s))))
  = [ {| ack_NotificationID := "n-4"; ack_Status := "FAILURE";
         ack_Details := "failed to send email: network error";
         ack_Timestamp := 1700000000 |} ]
  /\ acks (log_of (@sms_service.consumeSMSTopic_iteration range_fwd
                     samples.sms_Unmarshal samples.sms_config
                     (PollMessage samples.good_message samples.outcomes_write_fails)))
     = [ {| ack_NotificationID := "n-7"; ack_Status := "SUCCESS";
            ack_Details := "SMS sent successfully";
            ack_Timestamp := 1700000000 |} ].
Proof.
  split.
  - pose proof (one_acknowledgment_per_message (H := range_fwd)
                  (fun _ => true) (fun s => s)
                  samples.email_Unmarshal samples.sms_Unmarshal
                  samples.chat_Unmarshal samples.good_message samples.outcomes_send_fails []) as [He _].
    destruct (He (samples.email_request "high") eq_refl) as (_ & Hacks & _).
    rewrite Hacks. vm_compute. reflexivity.
  - pose proof (one_acknowledgment_per_message (H := range_fwd)
                  (fun _ => true) (fun s => s)
                  samples.email_Unmarshal samples.sms_Unmarshal
                  samples.chat_Unmarshal samples.good_message samples.outcomes_write_fails []) as (_ & Hs & _).
    destruct (Hs samples.sms_request samples.sms_config eq_refl eq_refl)
      as (Hacks & _).
    exact Hacks.
Defined.

Lemma commit_and_acknowledgment_order_witness :
  commits_follow_ack false
    (log_of (@email_services.StartConsumer_iteration samples.email_Unmarshal
               (PollMessage samples.good_message samples.outcomes_write_fails)
               (@email_services.ProcessNotification range_fwd
                  (fun _ => true) (fun s => s)))) = true
  /\ exists post,
       log_of (whatsapp_legacy.Start_iteration samples.chat_Unmarshal
                 (@whatsapp_legacy.HandleMessage range_fwd) "whatsapp-service-group"
                 (PollMessage samples.good_message samples.outcomes_write_fails))
       = FetchMessage (Ok samples.good_message)
         :: CommitMessages samples.good_message :: post
       /\ Forall (fun c => is_commit c = false) post.
Proof.
  pose proof (commit_and_acknowledgment_order (H := range_fwd)
                (fun _ => true) (fun s => s)
                samples.email_Unmarshal samples.sms_Unmarshal samples.chat_Unmarshal
                (fun _ => "") samples.good_message samples.outcomes_write_fails)
    as (_ & He & _ & Hc).
  split; [exact He |].
  apply Hc. discriminate.
Defined.

(* ===================================================================== *)
(** * Further properties: replacing single bytes *)
(* ===================================================================== *)

Lemma map_bytes_app (f : ascii -> string) (a b : string) :
  map_bytes f (a +:+ b) = map_bytes f a +:+ map_bytes f b.
Proof.
  induction a as [|c a IH]; [done |].
  cbn [String.append map_bytes]. by rewrite IH, append_assoc.
Qed.

Lemma map_bytes_compose (f g : ascii -> string) (s : string) :
  map_bytes g (map_bytes f s) = map_bytes (fun c => map_bytes g (f c)) s.
Proof.
  induction s as [|c s IH]; [done |].
  cbn [map_bytes]. by rewrite map_bytes_app, IH.
Qed.

Lemma map_bytes_ext (f g : ascii -> string) (s : string) :
  (forall c, f c = g c) -> map_bytes f s = map_bytes g s.
Proof.
  intros Hfg. induction s as [|c s IH]; [done |].
  cbn [map_bytes]. by rewrite Hfg, IH.
Qed.

Lemma map_bytes_id (s : string) : map_bytes (fun c => String c "") s = s.
Proof. induction s as [|c s IH]; [done |]. cbn [map_bytes]. by rewrite IH. Qed.

(** Replacing a one-byte string works byte by byte. *)
Lemma ReplaceAll_one_byte (c : ascii) (new s : string) :
  strings.ReplaceAll s (String c "") new
  = map_bytes (fun x => if Ascii.eqb x c then new else String x "") s.
Proof.
  unfold strings.ReplaceAll.
  induction s as [|x s IH]; [done |].
  cbn [strings.replace_from strings.HasPrefix map_bytes String.length Nat.sub].
  destruct (Ascii.eqb x c); by rewrite IH.
Qed.

Lemma ReplaceAll_absent_byte (c : ascii) (new s : string) :
  has_byte c s = false -> strings.ReplaceAll s (String c "") new = s.
Proof.
  intros Hc. rewrite ReplaceAll_one_byte.
  induction s as [|x s IH]; [done |].
  cbn [has_byte] in Hc. apply orb_false_elim in Hc as [Hx Hs].
  cbn [map_bytes]. rewrite Hx, IH by done. done.
Qed.

Lemma has_byte_app (c : ascii) (a b : string) :
  has_byte c (a +:+ b) = has_byte c a || has_byte c b.
Proof.
  induction a as [|x a IH]; [done |].
  cbn [String.append has_byte]. by rewrite IH, orb_assoc.
Qed.

Lemma has_byte_map_bytes (c : ascii) (f : ascii -> string) (s : string) :
  (forall x, has_byte c (f x) = false) -> has_byte c (map_bytes f s) = false.
Proof.
  intros Hf. induction s as [|x s IH]; [done |].
  cbn [map_bytes]. by rewrite has_byte_app, Hf, IH.
Qed.

Lemma map_bytes_fixed (f : ascii -> string) (s : string) :
  (forall x, has_byte x s = true -> f x = String x "") -> map_bytes f s = s.
Proof.
  induction s as [|x s IH]; intros Hf; [done |].
  cbn [map_bytes]. rewrite Hf, IH; [done | |].
  - intros y Hy. apply Hf. cbn [has_byte]. by rewrite Hy, orb_true_r.
  - cbn [has_byte]. by rewrite Ascii.eqb_refl.
Qed.

Lemma one_byte_inv (k : string) :
  one_byte k = true -> exists c, k = String c "".
Proof. destruct k as [|c [|]]; try done. by exists c. Qed.

Lemma range_Forall `{MapRange} {V} (P : string * V -> Prop) (m : gmap string V) :
  Forall P (map_to_list m) -> Forall P (range m).
Proof. by rewrite (range_perm V m). Qed.

(* ===================================================================== *)
(** * Further properties: EscapeHTML *)
(* ===================================================================== *)

Section Escape.
Import email_utils.

Lemma replacements_one_byte `{MapRange} :
  Forall (fun kv : string * string => one_byte kv.1 = true) (range replacements).
Proof. apply range_Forall. vm_compute. repeat constructor. Qed.

Lemma escape_loop_app (order : list (string * string)) (a b : string) :
  Forall (fun kv : string * string => one_byte kv.1 = true) order ->
  escape_loop order (a +:+ b) = escape_loop order a +:+ escape_loop order b.
Proof.
  intros Hk. revert a b.
  induction Hk as [|[k v] order Hkv _ IH]; intros a b; [done |].
  cbn [fst] in Hkv. apply one_byte_inv in Hkv as [c ->].
  unfold escape_loop in *. cbn [foldl fst snd].
  by rewrite !ReplaceAll_one_byte, map_bytes_app, IH.
Qed.

(** X1.  Whatever the order of visit, [EscapeHTML] works on each part of a
    text by itself. *)
Theorem EscapeHTML_app `{MapRange} (a b : string) :
  EscapeHTML (a +:+ b) = EscapeHTML a +:+ EscapeHTML b.
Proof. apply escape_loop_app, replacements_one_byte. Qed.

Lemma escape_loop_keeps_out (c : ascii) (order : list (string * string)) (s : string) :
  Forall (fun kv : string * string =>
            one_byte kv.1 = true /\ has_byte c kv.2 = false) order ->
  has_byte c s = false ->
  has_byte c (escape_loop order s) = false.
Proof.
  intros Hk. revert s.
  induction Hk as [|[k v] order [Hkv Hv] _ IH]; intros s Hs; [done |].
  cbn [fst snd] in Hkv, Hv. apply one_byte_inv in Hkv as [x ->].
  unfold escape_loop in *. cbn [foldl fst snd].
  apply IH. rewrite ReplaceAll_one_byte.
  assert (Hs' : forall y, has_byte y s = true -> y <> c).
  { intros y Hy ->. congruence. }
  clear Hs. induction s as [|y s IHs]; [done |].
  cbn [map_bytes]. rewrite has_byte_app, IHs.
  - rewrite orb_false_r. destruct (Ascii.eqb y x); [done |].
    cbn [has_byte]. rewrite orb_false_r.
    apply Ascii.eqb_neq, Hs'. cbn [has_byte]. by rewrite Ascii.eqb_refl.
  - intros z Hz. apply Hs'. cbn [has_byte]. by rewrite Hz, orb_true_r.
Qed.

Lemma escape_loop_removes (c : ascii) (order : list (string * string)) (s : string) :
  Forall (fun kv : string * string =>
            one_byte kv.1 = true /\ has_byte c kv.2 = false) order ->
  String c "" ∈ order.*1 ->
  has_byte c (escape_loop order s) = false.
Proof.
  intros Hk. revert s.
  induction Hk as [|[k v] order [Hkv Hv] Hk IH]; intros s Hin.
  { by apply elem_of_nil in Hin. }
  cbn [fmap list_fmap fst] in Hin. cbn [fst snd] in *.
  unfold escape_loop. cbn [foldl fst snd].
  apply elem_of_cons in Hin as [<- | Hin].
  - apply (escape_loop_keeps_out c order); [done |].
    rewrite ReplaceAll_one_byte. apply has_byte_map_bytes.
    intros x. destruct (Ascii.eqb x c) eqn:Hx; [done |].
    cbn [has_byte]. by rewrite Hx.
  - by apply IH.
Qed.

(** X2.  Whatever the order of visit, the escaped text holds none of the
    bytes [<], [>], the double quote and the apostrophe. *)
Theorem EscapeHTML_no_markup `{MapRange} (text : string) :
  Forall (fun c => has_byte c (EscapeHTML text) = false) markup_bytes.
Proof.
  assert (Hall : forall c, c ∈ markup_bytes ->
            Forall (fun kv : string * string =>
                      one_byte kv.1 = true /\ has_byte c kv.2 = false)
                   (range replacements)
            /\ String c "" ∈ (range replacements).*1).
  { intros c Hc. rewrite (range_perm _ replacements).
    unfold markup_bytes in Hc.
    repeat (apply elem_of_cons in Hc as [-> | Hc]);
      try (by apply elem_of_nil in Hc);
      (split; [vm_compute; repeat constructor | vm_compute; set_solver]). }
  apply Forall_forall. intros c Hc.
  destruct (Hall c Hc) as [Hk Hin].
  by apply escape_loop_removes.
Qed.

Lemma escape_loop_table (order : list (string * string)) (s : string) :
  table_ok order = true ->
  escape_loop order s
  = map_bytes (fun x => default (String x "")
                          ((list_to_map order : gmap string string) !! String x "")) s.
Proof.
  revert s. induction order as [|[k v] rest IH]; intros s Hok.
  { cbn. by rewrite map_bytes_id. }
  cbn [table_ok fst snd] in Hok.
  apply andb_true_iff in Hok as [Hok Hrest].
  apply andb_true_iff in Hok as [Hk Hlater].
  apply one_byte_inv in Hk as [c ->].
  unfold escape_loop in *. cbn [foldl fst snd].
  rewrite IH, ReplaceAll_one_byte, map_bytes_compose by done.
  apply map_bytes_ext. intros x.
  assert (Hfresh : forall y, y = c \/ has_byte y v = true ->
            (list_to_map rest : gmap string string) !! String y "" = None).
  { intros y Hy. apply not_elem_of_list_to_map_1. intros Hin.
    apply list_elem_of_fmap in Hin as ([k' v'] & Hk' & Hin). cbn [fst] in Hk'.
    apply list_elem_of_In in Hin.
    eapply forallb_forall in Hlater; [| exact Hin]. cbn [fst] in Hlater.
    apply andb_true_iff in Hlater as [Hne Hv]. subst k'.
    destruct Hy as [-> | Hy].
    - by rewrite String.eqb_refl in Hne.
    - by rewrite Hy in Hv. }
  cbn [list_to_map foldr fst snd].
  destruct (Ascii.eqb_spec x c) as [-> | Hx].
  - rewrite lookup_insert_eq. cbn [default].
    apply map_bytes_fixed. intros y Hy. by rewrite Hfresh by auto.
  - rewrite lookup_insert_ne by congruence.
    cbn [map_bytes]. by rewrite append_empty_r.
Qed.

Lemma range_orders `{MapRange} {V} (m : gmap string V) :
  range m ∈ permutations (map_to_list m).
Proof. apply permutations_Permutation. symmetry. apply range_perm. Qed.

(** X3.  [EscapeHTML] is the escaping of each byte by the table exactly when
    the ampersand is the first key visited. *)
Theorem EscapeHTML_one_pass_iff `{MapRange} :
  (forall text, EscapeHTML text = map_bytes escape_byte text)
  <-> (range replacements).*1 !! 0%nat = Some "&".
Proof.
  pose proof (range_orders replacements) as Hin.
  apply list_elem_of_In in Hin.
  split.
  - intros Hall.
    assert (Hcheck : forallb (fun order : list (string * string) =>
              implb (String.eqb (escape_loop order (String quote "<>'"))
                                (map_bytes escape_byte (String quote "<>'")))
                    (bool_decide (order.*1 !! 0%nat = Some "&")))
              (permutations (map_to_list replacements)) = true)
      by (vm_compute; reflexivity).
    eapply forallb_forall in Hcheck; [| exact Hin].
    specialize (Hall (String quote "<>'")). unfold EscapeHTML in Hall.
    apply String.eqb_eq in Hall. rewrite Hall in Hcheck.
    by apply bool_decide_eq_true in Hcheck.
  - intros Hfirst text.
    assert (Hcheck : forallb (fun order : list (string * string) =>
              implb (bool_decide (order.*1 !! 0%nat = Some "&"))
                    (table_ok order))
              (permutations (map_to_list replacements)) = true)
      by (vm_compute; reflexivity).
    eapply forallb_forall in Hcheck; [| exact Hin].
    rewrite bool_decide_eq_true_2 in Hcheck by done. cbn [implb] in Hcheck.
    unfold EscapeHTML. rewrite escape_loop_table by done.
    apply map_bytes_ext. intros c. unfold escape_byte. f_equal. f_equal.
    rewrite <- (list_to_map_to_list replacements) at 2.
    apply list_to_map_proper; [| apply range_perm].
    rewrite (range_perm _ replacements). apply NoDup_fst_map_to_list.
Qed.

(** The text [a<b & c] on a runtime that visits the ampersand first, and
    on two runtimes that visit it after another key. *)
Example EscapeHTML_examples :
  @EscapeHTML (range_from 2) "a<b & c" = "a&lt;b &amp; c"
  /\ @EscapeHTML range_bwd "a<b & c" = "a&amp;lt;b &amp; c"
  /\ @EscapeHTML range_fwd "a>b & c" = "a&amp;gt;b &amp; c".
Proof. repeat split; vm_compute; reflexivity. Qed.

End Escape.

(* ===================================================================== *)
(** * Further properties: telephone numbers and locales *)
(* ===================================================================== *)

Section PhoneMore.
Import whatsapp_models whatsapp_utils whatsapp_phone.

Lemma remove_bytes_fixed (f : ascii -> bool) (s : string) :
  (forall c, has_byte c s = true -> f c = false) -> remove_bytes f s = s.
Proof.
  induction s as [|x s IH]; intros Hf; [done |].
  cbn [remove_bytes]. rewrite Hf, IH; [done | |].
  - intros c Hc. apply Hf. cbn [has_byte]. by rewrite Hc, orb_true_r.
  - cbn [has_byte]. by rewrite Ascii.eqb_refl.
Qed.

Lemma has_byte_remove_bytes (f : ascii -> bool) (c : ascii) (s : string) :
  has_byte c (remove_bytes f s) = negb (f c) && has_byte c s.
Proof.
  induction s as [|x s IH]; [by rewrite andb_false_r |].
  cbn [remove_bytes has_byte].
  destruct (Ascii.eqb_spec x c) as [-> | Hx]; cbn [orb].
  - destruct (f c); cbn [negb andb has_byte]; [by rewrite IH |].
    by rewrite Ascii.eqb_refl.
  - destruct (f x); cbn [has_byte]; rewrite IH; [done |].
    apply Ascii.eqb_neq in Hx. by rewrite Hx.
Qed.

Lemma with_plus_prefix (s : string) : strings.HasPrefix (with_plus s) "+" = true.
Proof. unfold with_plus. by destruct (strings.HasPrefix s "+") eqn:Hp. Qed.

Lemma has_byte_with_plus (c : ascii) (s : string) :
  c <> "+"%char -> has_byte c (with_plus s) = has_byte c s.
Proof.
  intros Hc. unfold with_plus. destruct (strings.HasPrefix s "+"); [done |].
  cbn [String.append has_byte]. apply not_eq_sym, Ascii.eqb_neq in Hc.
  by rewrite Hc.
Qed.

(** Cleaning by removal of bytes other than the plus sign, then putting
    the plus sign in front, changes nothing when done a second time. *)
Lemma clean_twice (f : ascii -> bool) (s : string) :
  f "+"%char = false ->
  with_plus (remove_bytes f (with_plus (remove_bytes f s)))
  = with_plus (remove_bytes f s).
Proof.
  intros Hplus.
  rewrite (remove_bytes_fixed f (with_plus _)).
  - unfold with_plus at 1. by rewrite with_plus_prefix.
  - intros c Hc. destruct (Ascii.eqb_spec c "+") as [-> | Hne]; [done |].
    rewrite has_byte_with_plus, has_byte_remove_bytes in Hc by done.
    apply andb_prop in Hc as [Hc _]. by apply negb_true_iff.
Qed.

Lemma all_digits_has_byte (c : ascii) (s : string) :
  all_digits s = true -> has_byte c s = true -> is_digit c = true.
Proof.
  induction s as [|x s IH]; [done |].
  cbn [all_digits has_byte]. intros [Hx Hs]%andb_prop [Hc | Hc]%orb_prop.
  - by apply Ascii.eqb_eq in Hc as <-.
  - by apply IH.
Qed.

Lemma digit_not_separator (c : ascii) :
  is_digit c = true -> one_of chat_separators c = false.
Proof.
  unfold is_digit. intros [H1 H2]%andb_prop.
  apply Nat.leb_le in H1, H2.
  unfold one_of, chat_separators. cbn [existsb].
  repeat match goal with
         | |- context [Ascii.eqb c ?x] =>
             destruct (Ascii.eqb_spec c x) as [-> | _]; [vm_compute in H1, H2; lia |]
         end.
  done.
Qed.

(** A number in the international format has nothing to clean. *)
Lemma cleaned_fixed (c : string) :
  phoneNumberRegex_MatchString c = true -> cleaned c = c.
Proof.
  intros (d & ds & -> & Hd & Hds & _)%MatchString_shape.
  rewrite chat_cleaned_spec.
  change [" "; "-"; "("; ")"; "."]%char with chat_separators.
  rewrite remove_bytes_fixed; [done |].
  intros x Hx. cbn [has_byte] in Hx.
  apply orb_prop in Hx as [Hx | Hx]; [by apply Ascii.eqb_eq in Hx as <- |].
  apply digit_not_separator.
  apply (all_digits_has_byte x (String d ds)); [| done].
  cbn [all_digits]. by rewrite (is_digit_1_9_digit d Hd), Hds.
Qed.

(** X4.  What [CleanPhoneNumber] accepts it returns as a plus sign and two to
    fifteen digits, and cleaning the returned number gives it back. *)
Theorem CleanPhoneNumber_idempotent (phone c : string) :
  CleanPhoneNumber phone = Ok c ->
  CleanPhoneNumber c = Ok c
  /\ exists ds, c = "+" +:+ ds /\ all_digits ds = true
                /\ 2 <= String.length ds <= 15.
Proof.
  rewrite CleanPhoneNumber_spec.
  destruct (phoneNumberRegex_MatchString (cleaned phone)) eqn:Hm; [| done].
  intros [= <-]. split.
  - by rewrite CleanPhoneNumber_spec, (cleaned_fixed _ Hm), Hm.
  - apply MatchString_shape in Hm as (d & ds & -> & Hd & Hds & Hl).
    exists (String d ds). split; [done |]. split.
    + cbn [all_digits]. by rewrite (is_digit_1_9_digit d Hd), Hds.
    + cbn [String.length]. lia.
Qed.

Lemma CleanPhoneNumber_idempotent_witness :
  CleanPhoneNumber "(123) 456-7890" = Ok "+1234567890"
  /\ CleanPhoneNumber "+1234567890" = Ok "+1234567890".
Proof.
  split; [vm_compute; reflexivity |].
  apply (CleanPhoneNumber_idempotent "(123) 456-7890" "+1234567890").
  vm_compute; reflexivity.
Defined.

(** X5.  [IsValidPhoneNumber] holds exactly when [CleanPhoneNumber] succeeds,
    that is when the number without its separators and with a plus sign
    in front is in the international format. *)
Theorem IsValidPhoneNumber_iff (phone : string) :
  (IsValidPhoneNumber phone = true <-> exists c, CleanPhoneNumber phone = Ok c)
  /\ (IsValidPhoneNumber phone = true <->
      exists d ds,
        with_plus (remove_bytes (one_of chat_separators) phone)
        = String "+" (String d ds)
        /\ is_digit_1_9 d = true /\ all_digits ds = true
        /\ 1 <= String.length ds <= 14).
Proof.
  assert (Hv : IsValidPhoneNumber phone = phoneNumberRegex_MatchString (cleaned phone)).
  { unfold IsValidPhoneNumber. rewrite CleanPhoneNumber_spec.
    by destruct (phoneNumberRegex_MatchString (cleaned phone)) eqn:Hm. }
  split.
  - rewrite Hv, CleanPhoneNumber_spec.
    destruct (phoneNumberRegex_MatchString (cleaned phone)).
    + split; [by eexists | done].
    + split; [done | by intros [c [=]]].
  - rewrite Hv, MatchString_shape, chat_cleaned_spec. done.
Qed.

(** X6.  The SMS cleanup always gives a number that starts with a plus sign
    and holds no space, dash or parenthesis, and it changes nothing when
    applied to its own result. *)
Theorem sms_cleanPhoneNumber_idempotent (phone : string) :
  sms_service.cleanPhoneNumber (sms_service.cleanPhoneNumber phone)
  = sms_service.cleanPhoneNumber phone
  /\ strings.HasPrefix (sms_service.cleanPhoneNumber phone) "+" = true
  /\ Forall (fun c => has_byte c (sms_service.cleanPhoneNumber phone) = false)
            sms_separators.
Proof.
  rewrite !sms_cleanPhoneNumber_spec.
  split; [by apply clean_twice |].
  split; [apply with_plus_prefix |].
  unfold sms_separators.
  repeat constructor;
    (rewrite has_byte_with_plus, has_byte_remove_bytes by done; done).
Qed.

(** X7.  [GetLanguageCode] never returns an underscore; it returns the start
    of the locale (of "en" for the empty locale), and it returns the
    empty code exactly when the locale starts with an underscore. *)
Theorem GetLanguageCode_prefix (locale : string) :
  has_byte "_" (GetLanguageCode locale) = false
  /\ (exists rest,
        (if decide (locale = "") then "en" else locale)
        = GetLanguageCode locale +:+ rest)
  /\ (GetLanguageCode locale = "" <-> strings.HasPrefix locale "_" = true).
Proof.
  assert (Hsplit : forall s,
            has_byte "_" (strings.Split_first s "_") = false
            /\ (exists rest, s = strings.Split_first s "_" +:+ rest)
            /\ (strings.Contains s "_" = false -> strings.Split_first s "_" = s)
            /\ (strings.Contains s "_" = has_byte "_" s)).
  { induction s as [|x s (IH1 & [rest IH2] & IH3 & IH4)].
    - repeat split; by exists "".
    - cbn [strings.Split_first strings.Contains strings.HasPrefix has_byte].
      destruct (Ascii.eqb x "_") eqn:Hx; cbn [orb].
      + repeat split; [by exists (String x s) | done].
      + cbn [has_byte]. rewrite Hx. cbn [orb].
        split; [done |]. split; [exists rest; cbn [String.append]; congruence |].
        split; [intros Hc; by rewrite IH3 | done]. }
  unfold GetLanguageCode. case_decide as He.
  - subst. split; [done |]. split; [by exists "" | done].
  - destruct (Hsplit locale) as (H1 & H2 & H3 & H4).
    destruct (strings.Contains locale "_") eqn:Hc.
    + split; [done |]. split; [done |].
      destruct locale as [|x s]; [done |].
      cbn [strings.Split_first strings.HasPrefix].
      destruct (Ascii.eqb x "_"); [done |]. by split.
    + split; [congruence |]. split; [by exists ""; rewrite append_empty_r |].
      destruct locale as [|x s]; [done |].
      cbn [strings.HasPrefix]. symmetry in H4. cbn [has_byte] in H4.
      apply orb_false_elim in H4 as [-> _]. by split.
Qed.

End PhoneMore.

(* ===================================================================== *)
(** * Further properties: ValidateTemplate *)
(* ===================================================================== *)

Lemma slice_from_length (n : nat) (s : string) :
  String.length (slice_from n s) = String.length s - n.
Proof. revert s. induction n as [|n IH]; intros [|c s]; cbn; done. Qed.

Lemma slice_from_add (n m : nat) (s : string) :
  slice_from (n + m) s = slice_from n (slice_from m s).
Proof.
  revert s. induction m as [|m IH]; intros s.
  - by rewrite Nat.add_0_r.
  - rewrite Nat.add_succ_r. destruct s as [|c s]; cbn [slice_from].
    + by destruct n.
    + apply IH.
Qed.

Lemma slice_from_append (a b : string) :
  slice_from (String.length a) (a +:+ b) = b.
Proof. induction a as [|c a IH]; [by destruct b | exact IH]. Qed.

Lemma slice_to_append (a b : string) :
  slice_to (String.length a) (a +:+ b) = a.
Proof.
  induction a as [|c a IH]; [by destruct b |].
  cbn [String.length String.append slice_to]. by rewrite IH.
Qed.

Lemma strings_Index_lt (s substr : string) (i : nat) :
  substr <> "" -> strings_Index s substr = Some i -> i < String.length s.
Proof.
  intros Hne. revert i. induction s as [|c s IH]; intros i; cbn [strings_Index].
  - by destruct substr.
  - destruct (strings.HasPrefix (String c s) substr).
    + intros [= <-]. cbn [String.length]. lia.
    + destruct (strings_Index s substr) as [j|]; [| done].
      intros [= <-]. cbn [String.length]. specialize (IH j eq_refl). lia.
Qed.

(** The index of a byte that comes after a text without it. *)
Lemma strings_Index_append (c : ascii) (a b : string) :
  has_byte c a = false ->
  strings_Index (a +:+ String c b) (String c "") = Some (String.length a).
Proof.
  induction a as [|x a IH]; cbn [has_byte String.append strings_Index strings.HasPrefix].
  - intros _. by rewrite Ascii.eqb_refl.
  - intros [Hx Ha]%orb_false_elim. rewrite Hx, IH by done. done.
Qed.

Lemma strings_Index_absent (c : ascii) (s : string) :
  has_byte c s = false -> strings_Index s (String c "") = None.
Proof.
  induction s as [|x s IH]; cbn [has_byte strings_Index strings.HasPrefix]; [done |].
  intros [Hx Hs]%orb_false_elim. by rewrite Hx, IH.
Qed.

(** One iteration of the loop. *)
Lemma ValidateTemplate_loop_step (template : string) (params : gmap string string)
    (start : nat) (missingParams : list string) :
  ValidateTemplate_loop template params start missingParams
  = match strings_Index (slice_from start template) "{" with
    | None => missingParams
    | Some startIdx =>
        match strings_Index (slice_from (startIdx + start) template) "}" with
        | None => missingParams
        | Some endIdx =>
            ValidateTemplate_loop template params (endIdx + (startIdx + start) + 1)
              (note_missing params missingParams
                 (slice template (startIdx + start + 1) (endIdx + (startIdx + start))))
        end
    end.
Proof.
  destruct (strings_Index (slice_from start template) "{") as [i|] eqn:Ei.
  - destruct (strings_Index (slice_from (i + start) template) "}") as [j|] eqn:Ej;
      rewrite ValidateTemplate_loop_equation_1;
      (destruct (inspect (strings_Index (slice_from start template) "{"))
         as [[i'|] Hi']; [| congruence]);
      assert (i' = i) as -> by congruence;
      cbn [ValidateTemplate_loop_unfold_clause_1];
      destruct (inspect (strings_Index (slice_from (i + start) template) "}"))
        as [[j'|] Hj']; try congruence;
      cbn [ValidateTemplate_loop_unfold_clause_1_clause_2]; [| done].
    assert (j' = j) as -> by congruence. done.
  - rewrite ValidateTemplate_loop_equation_1.
    destruct (inspect (strings_Index (slice_from start template) "{"))
      as [[i'|] Hi']; [congruence | done].
Qed.

(** What holds of [missingParams] at the start and is kept by every
    addition holds of the result of the loop. *)
Lemma ValidateTemplate_loop_invariant (P : list string -> Prop)
    (template : string) (params : gmap string string) :
  (forall m p, P m -> P (note_missing params m p)) ->
  forall start m, P m -> P (ValidateTemplate_loop template params start m).
Proof.
  intros Hstep start.
  remember (String.length template - start) as n eqn:Hn.
  revert start Hn. induction n as [n IH] using lt_wf_ind.
  intros start Hn m Hm. rewrite ValidateTemplate_loop_step.
  destruct (strings_Index (slice_from start template) "{") as [i|]; [| done].
  destruct (strings_Index (slice_from (i + start) template) "}") as [j|] eqn:Ej;
    [| done].
  apply strings_Index_lt in Ej; [| done]. rewrite slice_from_length in Ej.
  eapply IH; [| reflexivity | by apply Hstep]. lia.
Qed.

(** The loop from [start] is the loop on the rest of the template. *)
Lemma ValidateTemplate_loop_shift (template : string) (params : gmap string string)
    (start : nat) (m : list string) :
  ValidateTemplate_loop template params start m
  = ValidateTemplate_loop (slice_from start template) params 0 m.
Proof.
  remember (String.length template - start) as n eqn:Hn.
  revert template start m Hn. induction n as [n IH] using lt_wf_ind.
  intros template start m Hn.
  rewrite (ValidateTemplate_loop_step template),
    (ValidateTemplate_loop_step (slice_from start template)).
  change (slice_from 0 (slice_from start template)) with (slice_from start template).
  destruct (strings_Index (slice_from start template) "{") as [i|]; [| done].
  rewrite Nat.add_0_r, (slice_from_add i start).
  destruct (strings_Index (slice_from i (slice_from start template)) "}")
    as [j|] eqn:Ej; [| done].
  apply strings_Index_lt in Ej; [| done].
  rewrite !slice_from_length in Ej.
  assert (Hs : slice template (i + start + 1) (j + (i + start))
               = slice (slice_from start template) (i + 1) (j + i)).
  { unfold slice. rewrite <- slice_from_add. f_equal; [lia | f_equal; lia]. }
  rewrite Hs.
  rewrite (IH (String.length template - (j + (i + start) + 1))) by (done || lia).
  rewrite (IH (String.length (slice_from start template) - (j + i + 1))
              ltac:(rewrite slice_from_length; lia)
              (slice_from start template)) by done.
  rewrite <- slice_from_add. do 2 f_equal. lia.
Qed.

Lemma ValidateTemplate_loop_nil (params : gmap string string) (m : list string) :
  ValidateTemplate_loop "" params 0 m = m.
Proof. by rewrite ValidateTemplate_loop_step. Qed.

(** A byte of text is passed over. *)
Lemma ValidateTemplate_loop_text_byte (params : gmap string string)
    (c : ascii) (s : string) (m : list string) :
  Ascii.eqb c "{" = false ->
  ValidateTemplate_loop (String c s) params 0 m = ValidateTemplate_loop s params 0 m.
Proof.
  intros Hc.
  transitivity (ValidateTemplate_loop (String c s) params 1 m);
    [| by rewrite ValidateTemplate_loop_shift].
  rewrite (ValidateTemplate_loop_step _ _ 0), (ValidateTemplate_loop_step _ _ 1).
  cbn [slice_from strings_Index strings.HasPrefix]. rewrite Hc.
  destruct (strings_Index s "{") as [i|]; [| done]. cbn [fmap option_fmap option_map].
  replace (S i + 0) with (i + 1) by lia. done.
Qed.

Lemma ValidateTemplate_loop_text (params : gmap string string)
    (s rest : string) (m : list string) :
  no_lbrace s = true ->
  ValidateTemplate_loop (s +:+ rest) params 0 m
  = ValidateTemplate_loop rest params 0 m.
Proof.
  induction s as [|c s IH]; [done |].
  cbn [no_lbrace String.append]. intros [Hc Hs]%andb_prop.
  apply negb_true_iff in Hc.
  rewrite ValidateTemplate_loop_text_byte by done. by apply IH.
Qed.

Lemma brace_free_has_byte (k : string) :
  brace_free k = true -> has_byte "{" k = false /\ has_byte "}" k = false.
Proof.
  induction k as [|c k IH]; [done |].
  cbn [brace_free has_byte].
  intros [[H1 H2]%andb_prop Hk]%andb_prop.
  apply negb_true_iff in H1, H2. rewrite H1, H2.
  by apply IH.
Qed.

(** A placeholder is looked up and passed over. *)
Lemma ValidateTemplate_loop_hole (params : gmap string string)
    (k rest : string) (m : list string) :
  brace_free k = true ->
  ValidateTemplate_loop (placeholder k +:+ rest) params 0 m
  = ValidateTemplate_loop rest params 0 (note_missing params m k).
Proof.
  intros [_ Hk]%brace_free_has_byte.
  assert (HT : placeholder k +:+ rest = String "{" k +:+ String "}" rest).
  { unfold placeholder. cbn [String.append]. by rewrite append_assoc. }
  rewrite ValidateTemplate_loop_step.
  rewrite HT at 1. cbn [slice_from strings_Index strings.HasPrefix String.append].
  rewrite Ascii.eqb_refl. cbn [Nat.add slice_from].
  rewrite HT at 1.
  rewrite (strings_Index_append "}" (String "{" k) rest)
    by (cbn [has_byte]; by rewrite Hk).
  cbn [String.length].
  assert (Hp : slice (placeholder k +:+ rest) 1 (S (String.length k) + 0) = k).
  { rewrite HT. unfold slice. cbn [String.append slice_from].
    replace (S (String.length k) + 0 - 1) with (String.length k) by lia.
    apply slice_to_append. }
  rewrite Hp, ValidateTemplate_loop_shift.
  replace (S (String.length k) + 0 + 1) with (String.length (placeholder k)).
  - by rewrite slice_from_append.
  - unfold placeholder. cbn [String.append String.length].
    clear. induction k as [|c k IH]; cbn [String.append String.length]; lia.
Qed.

Lemma ValidateTemplate_loop_tokens (params : gmap string string)
    (ts : list Token) (m : list string) :
  Forall (fun t => wf_token t = true) ts ->
  ValidateTemplate_loop (flatten ts) params 0 m
  = foldl (note_missing params) m (hole_keys ts).
Proof.
  intros Hts. revert m. induction Hts as [|t ts Ht _ IH]; intros m.
  - apply ValidateTemplate_loop_nil.
  - change (flatten (t :: ts)) with (token_string t +:+ flatten ts).
    destruct t as [s|k]; cbn [token_string wf_token] in *.
    + rewrite ValidateTemplate_loop_text by done. apply IH.
    + rewrite ValidateTemplate_loop_hole by done. apply IH.
Qed.

Lemma note_missing_spec (params : gmap string string) (m : list string) (p : string) :
  note_missing params m p
  = if decide (params !! p = None /\ p ∉ m) then m ++ [p] else m.
Proof.
  unfold note_missing. destruct (params !! p) as [v|] eqn:Hp.
  - rewrite decide_False; [done |]. by intros [? _].
  - destruct (existsb _ m) eqn:Hex; cbn [negb].
    + rewrite decide_False; [done |]. intros [_ Hnot]. apply Hnot.
      apply existsb_exists in Hex as (x & Hx & Heq).
      apply bool_decide_eq_true in Heq as ->. by apply list_elem_of_In.
    + rewrite decide_True; [done |]. split; [done |]. intros Hin.
      apply list_elem_of_In in Hin.
      assert (existsb (fun missing => bool_decide (missing = p)) m = true) as Ht.
      { apply existsb_exists. exists p. split; [done |]. by apply bool_decide_eq_true. }
      congruence.
Qed.

(** X8.  [ValidateTemplate] reports no name twice, and no name that is a key
    of the parameters. *)
Theorem ValidateTemplate_sound (template : string) (params : gmap string string) :
  NoDup (ValidateTemplate template params)
  /\ Forall (fun k => params !! k = None) (ValidateTemplate template params).
Proof.
  unfold ValidateTemplate.
  apply (ValidateTemplate_loop_invariant
           (fun m => NoDup m /\ Forall (fun k => params !! k = None) m)).
  - intros m p [Hnd Hall]. rewrite note_missing_spec.
    case_decide as Hp; [| done]. destruct Hp as [Hp Hnot]. split.
    + apply NoDup_app. split; [done |]. split; [| apply NoDup_singleton].
      intros x Hx Hx'. apply list_elem_of_singleton in Hx' as ->. done.
    + apply Forall_app. split; [done |]. by apply Forall_singleton.
  - split; [apply NoDup_nil_2 | apply Forall_nil_2].
Qed.

Lemma foldl_note_missing (params : gmap string string) (m l : list string) :
  foldl (note_missing params) m l
  = m ++ filter (fun y => y ∉ m)
           (first_occurrences (filter (fun k => params !! k = None) l)).
Proof.
  revert m. induction l as [|x l IH]; intros m.
  - cbn. by rewrite app_nil_r.
  - cbn [foldl]. rewrite IH, note_missing_spec.
    set (L := first_occurrences (filter (fun k => params !! k = None) l)).
    destruct (decide (params !! x = None)) as [Hx|Hx].
    + rewrite (filter_cons_True _ x l) by done. cbn [first_occurrences]. fold L.
      destruct (decide (x ∈ m)) as [Hin|Hin].
      * rewrite decide_False by (by intros [_ ?]).
        rewrite filter_cons_False by (by intros ?).
        rewrite list_filter_filter. f_equal. apply list_filter_iff.
        intros y. split; [| by intros [? _]]. intros Hy. split; [done |].
        by intros ->.
      * rewrite decide_True by done. rewrite filter_cons_True by done.
        rewrite <- app_assoc. cbn [app]. do 2 f_equal.
        rewrite list_filter_filter. apply list_filter_iff.
        intros y. rewrite not_elem_of_app, list_elem_of_singleton. done.
    + rewrite decide_False by (by intros [? _]).
      by rewrite (filter_cons_False _ x l) by done.
Qed.

Lemma filter_not_in_nil (l : list string) : filter (fun y => y ∉ []) l = l.
Proof.
  induction l as [|x l IH]; [done |].
  rewrite filter_cons_True by apply not_elem_of_nil. by f_equal.
Qed.

(** X9.  On a template made of text without an opening brace and of
    placeholders with brace-free names, [ValidateTemplate] returns the
    names of the placeholders that have no parameter, each once, in the
    order in which they first occur. *)
Theorem ValidateTemplate_tokens (ts : list Token) (params : gmap string string) :
  forallb wf_token ts = true ->
  ValidateTemplate (flatten ts) params
  = first_occurrences (filter (fun k => params !! k = None) (hole_keys ts)).
Proof.
  intros Hts%wf_tokens_Forall. unfold ValidateTemplate.
  rewrite ValidateTemplate_loop_tokens, foldl_note_missing by done.
  cbn [app]. apply filter_not_in_nil.
Qed.

Lemma ValidateTemplate_tokens_witness :
  ValidateTemplate "Dear {name}, {code} and {code} for {who}" {[ "name" := "Ann" ]}
  = ["code"; "who"].
Proof.
  pose (ts := [Text "Dear "; Hole "name"; Text ", "; Hole "code"; Text " and ";
               Hole "code"; Text " for "; Hole "who"]).
  transitivity (first_occurrences
                  (filter (fun k => ({[ "name" := "Ann" ]} : gmap string string) !! k = None)
                          (hole_keys ts))).
  - apply (ValidateTemplate_tokens ts {[ "name" := "Ann" ]}). reflexivity.
  - vm_compute. reflexivity.
Defined.

Lemma no_lbrace_has_byte (s : string) : no_lbrace s = negb (has_byte "{" s).
Proof.
  induction s as [|c s IH]; [done |].
  cbn [no_lbrace has_byte]. rewrite IH. by destruct (Ascii.eqb c "{").
Qed.

(** Both renderers on a well-formed template, with plain parameters. *)
Lemma RenderTemplate_tokens `{MapRange} (ts : list Token) (params : gmap string string) :
  forallb wf_token ts = true -> plain_params params = true ->
  RenderTemplate (flatten ts) params = render_spec params ts.
Proof.
  intros Hts Hp. rewrite RenderTemplate_renderTemplate.
  unfold renderTemplate, render_spec.
  rewrite render_loop_flatten
    by (by apply plain_params_range || by apply wf_tokens_Forall).
  f_equal. apply list_fmap_ext. intros _ t _. apply subst_loop_subst.
Qed.

Lemma plain_params_value (params : gmap string string) (k v : string) :
  plain_params params = true -> params !! k = Some v -> no_lbrace v = true.
Proof.
  unfold plain_params. rewrite forallb_forall. intros Hall Hk.
  apply elem_of_map_to_list, list_elem_of_In in Hk.
  apply Hall in Hk. cbn [fst snd] in Hk. by apply andb_prop in Hk as [_ ?].
Qed.

Lemma render_spec_complete (params : gmap string string) (ts : list Token) :
  forallb wf_token ts = true -> plain_params params = true ->
  no_lbrace (render_spec params ts) = true
  <-> filter (fun k => params !! k = None) (hole_keys ts) = [].
Proof.
  intros Hts%wf_tokens_Forall Hp. unfold render_spec.
  induction Hts as [|t ts Ht _ IH]; [done |].
  rewrite fmap_cons.
  change (flatten (subst params t :: (subst params <$> ts)))
    with (token_string (subst params t) +:+ flatten (subst params <$> ts)).
  rewrite no_lbrace_has_byte, has_byte_app, negb_orb, andb_true_iff,
    <- !no_lbrace_has_byte, IH.
  destruct t as [s|k]; cbn [subst token_string wf_token] in *.
  - change (hole_keys (Text s :: ts)) with (hole_keys ts).
    rewrite Ht. by split; [intros [_ ?] |].
  - change (hole_keys (Hole k :: ts)) with (k :: hole_keys ts).
    destruct (params !! k) as [v|] eqn:Hk; cbn [token_string].
    + rewrite (plain_params_value params k v) by done.
      rewrite filter_cons_False by (by rewrite Hk).
      by split; [intros [_ ?] |].
    + rewrite filter_cons_True by done.
      split; [by intros [? _] | done].
Qed.

(** X10.  On a well-formed template with plain parameters, [ValidateTemplate]
    reports nothing exactly when [RenderTemplate] leaves no opening
    brace in the text. *)
Theorem ValidateTemplate_RenderTemplate `{MapRange} (ts : list Token)
    (params : gmap string string) :
  forallb wf_token ts = true -> plain_params params = true ->
  ValidateTemplate (flatten ts) params = []
  <-> no_lbrace (RenderTemplate (flatten ts) params) = true.
Proof.
  intros Hts Hp.
  unfold ValidateTemplate.
  rewrite ValidateTemplate_loop_tokens, foldl_note_missing
    by (by apply wf_tokens_Forall).
  cbn [app]. rewrite filter_not_in_nil.
  rewrite RenderTemplate_tokens, render_spec_complete by done.
  by destruct (filter _ (hole_keys ts)).
Qed.

Lemma ValidateTemplate_RenderTemplate_witness :
  ValidateTemplate "Dear {name}, code {code}" {[ "name" := "Ann"; "code" := "42" ]} = []
  /\ no_lbrace (@RenderTemplate range_bwd "Dear {name}, code {code}"
                  {[ "name" := "Ann"; "code" := "42" ]}) = true.
Proof.
  pose (ts := [Text "Dear "; Hole "name"; Text ", code "; Hole "code"]).
  assert (Hv : ValidateTemplate (flatten ts) {[ "name" := "Ann"; "code" := "42" ]} = [])
    by (vm_compute; reflexivity).
  split; [exact Hv |].
  apply (ValidateTemplate_RenderTemplate (H := range_bwd) ts
           {[ "name" := "Ann"; "code" := "42" ]});
    [reflexivity | vm_compute; reflexivity | exact Hv].
Defined.

(* ===================================================================== *)
(** * Further properties: the subject line *)
(* ===================================================================== *)

Lemma length_append (a b : string) :
  String.length (a +:+ b) = String.length a + String.length b.
Proof. induction a as [|c a IH]; [done |]. cbn [String.append String.length]. by rewrite IH. Qed.

Lemma slice_to_length (n : nat) (s : string) : String.length (slice_to n s) <= n.
Proof.
  revert s. induction n as [|n IH]; intros [|c s]; cbn [slice_to String.length]; try lia.
  specialize (IH s). lia.
Qed.

Lemma has_byte_slice_to (c : ascii) (n : nat) (s : string) :
  has_byte c s = false -> has_byte c (slice_to n s) = false.
Proof.
  revert s. induction n as [|n IH]; intros [|x s]; cbn [slice_to has_byte]; try done.
  intros [Hx Hs]%orb_false_elim. by rewrite Hx, IH.
Qed.

Section Subject.
Import email_validation.
Variable strings_TrimSpace : string -> string.
(** [strings.TrimSpace] returns a part of its argument. *)
Hypothesis TrimSpace_part :
  forall s, exists pre post, s = pre +:+ strings_TrimSpace s +:+ post.

(** X11.  The sanitized subject is at most 200 bytes long and holds no line
    feed, carriage return or tab. *)
Theorem SanitizeSubject_safe (subject : string) :
  String.length (SanitizeSubject strings_TrimSpace subject) <= 200
  /\ Forall (fun c => has_byte c (SanitizeSubject strings_TrimSpace subject) = false)
            line_bytes.
Proof.
  unfold SanitizeSubject.
  set (s3 := strings.ReplaceAll (strings.ReplaceAll (strings.ReplaceAll subject _ _) _ _) _ _).
  assert (Hs3 : forall c, c ∈ line_bytes -> has_byte c s3 = false).
  { intros c Hc.
    apply (escape_loop_removes c
             [(String "010" "", " "); (String "013" "", " "); (String "009" "", " ")]
             subject).
    - unfold line_bytes in Hc.
      repeat (apply elem_of_cons in Hc as [-> | Hc]);
        try (by apply elem_of_nil in Hc); repeat constructor.
    - unfold line_bytes in Hc. cbn [fmap list_fmap fst].
      repeat (apply elem_of_cons in Hc as [-> | Hc]);
        try (by apply elem_of_nil in Hc); set_solver. }
  assert (Ht : forall c, c ∈ line_bytes -> has_byte c (strings_TrimSpace s3) = false).
  { intros c Hc. specialize (Hs3 c Hc).
    destruct (TrimSpace_part s3) as (pre & post & Heq).
    rewrite Heq, !has_byte_app in Hs3.
    apply orb_false_elim in Hs3 as [_ Hs3]. by apply orb_false_elim in Hs3 as [? _]. }
  case_decide as Hlen.
  - split.
    + rewrite length_append. pose proof (slice_to_length 197 (strings_TrimSpace s3)).
      cbn [String.length]. lia.
    + apply Forall_forall. intros c Hc.
      rewrite has_byte_app, has_byte_slice_to by auto.
      unfold line_bytes in Hc.
      repeat (apply elem_of_cons in Hc as [-> | Hc]);
        try (by apply elem_of_nil in Hc); done.
  - split; [lia |]. apply Forall_forall. auto.
Qed.

End Subject.

Lemma trim_left_part (s : string) :
  exists pre, s = pre +:+ email_validation.trim_left s.
Proof.
  induction s as [|c s [pre IH]]; [by exists "" |].
  cbn [email_validation.trim_left].
  destruct (email_validation.is_ascii_space c); [| by exists ""].
  exists (String c pre). cbn [String.append]. by rewrite <- IH.
Qed.

Lemma trim_right_part (s : string) :
  exists post, s = email_validation.trim_right s +:+ post.
Proof.
  induction s as [|c s [post IH]]; [by exists "" |].
  cbn [email_validation.trim_right].
  destruct (email_validation.trim_right s) as [|x r] eqn:Hr.
  - destruct (email_validation.is_ascii_space c).
    + by exists (String c s).
    + exists post. cbn [String.append] in *. by rewrite <- IH.
  - exists post. cbn [String.append] in *. by rewrite <- IH.
Qed.

Lemma ascii_TrimSpace_part (s : string) :
  exists pre post, s = pre +:+ email_validation.ascii_TrimSpace s +:+ post.
Proof.
  unfold email_validation.ascii_TrimSpace.
  destruct (trim_left_part s) as [pre Hpre].
  destruct (trim_right_part (email_validation.trim_left s)) as [post Hpost].
  exists pre, post. by rewrite <- Hpost.
Qed.

Lemma SanitizeSubject_safe_witness :
  email_validation.SanitizeSubject email_validation.ascii_TrimSpace
    (String "009" "Offer" +:+ String "013" (String "010" "Bcc: all "))
  = "Offer  Bcc: all"
  /\ Forall (fun c =>
       has_byte c
         (email_validation.SanitizeSubject email_validation.ascii_TrimSpace
            (String "009" "Offer" +:+ String "013" (String "010" "Bcc: all ")))
       = false) email_validation.line_bytes.
Proof.
  split; [vm_compute; reflexivity |].
  apply (SanitizeSubject_safe email_validation.ascii_TrimSpace ascii_TrimSpace_part).
Defined.

(* ===================================================================== *)
(** * Further properties: the chat message builders *)
(* ===================================================================== *)

Section ComposeMore.
Import whatsapp_models whatsapp_services.
Context `{MapRange}.

Lemma buildMediaMessage_shape (to : string) (payload : NotificationPayload)
    (m : WhatsAppMessage) :
  buildMediaMessage to payload = Ok m ->
  msg_To m = to
  /\ MessagingProduct m = "whatsapp" /\ RecipientType m = "individual"
  /\ populated m = [msg_Type m]
  /\ msg_Type m = (if decide (MediaType payload ∈ ["image"; "document"; "audio"; "video"])
                   then MediaType payload else "image").
Proof.
  unfold buildMediaMessage. case_decide; [done |]. intros [= <-].
  unfold MediaTypeImage, MediaTypeDocument, MediaTypeAudio, MediaTypeVideo.
  destruct (decide (MediaType payload ∈ ["image"; "document"; "audio"; "video"]))
    as [Hin|Hin];
    destruct (decide (MediaType payload = "image")) as [Hi|Hi];
    destruct (decide (MediaType payload = "document")) as [Hd|Hd];
    destruct (decide (MediaType payload = "audio")) as [Ha|Ha];
    destruct (decide (MediaType payload = "video")) as [Hv|Hv];
    try congruence;
    try (exfalso;
         repeat (apply elem_of_cons in Hin as [Hin|Hin]; [congruence |]);
         by apply elem_of_nil in Hin);
    try (exfalso; apply Hin;
         first [rewrite Hi | rewrite Hd | rewrite Ha | rewrite Hv];
         by repeat constructor);
    cbn [msg_To msg_Type MessagingProduct RecipientType populated new_message
         set_Image set_Document set_Audio set_Video set_Type
         Text Image Document Audio Video Template app];
    repeat split; congruence.
Qed.

(** X12.  A message that [BuildMessage] returns is addressed to [to], has
    exactly one content field populated, and its type names that field;
    a media type other than image, document, audio and video gives an
    image. *)
Theorem BuildMessage_shape (payload : NotificationPayload) (to : string)
    (m : WhatsAppMessage) :
  BuildMessage payload to = Ok m ->
  msg_To m = to
  /\ MessagingProduct m = "whatsapp" /\ RecipientType m = "individual"
  /\ populated m = [msg_Type m]
  /\ msg_Type m
     = (if decide (MediaURL payload <> "")
        then (if decide (MediaType payload ∈ ["image"; "document"; "audio"; "video"])
              then MediaType payload else "image")
        else if decide (TemplateName payload <> "") then "template" else "text").
Proof.
  unfold BuildMessage. case_decide as Hurl.
  - apply buildMediaMessage_shape.
  - case_decide as Hname.
    + unfold buildTemplateMessage. rewrite decide_False by done. by intros [= <-].
    + unfold buildTextMessage. case_decide; [done |]. by intros [= <-].
Qed.


(** X14.  The template built for a request carries the parameter values as a
    rearrangement of the values of the map, and a language code without
    an underscore. *)
Theorem buildTemplateMessage_parameters (payload : NotificationPayload)
    (to : string) (m : WhatsAppMessage) :
  buildTemplateMessage to payload = Ok m ->
  exists t, Template m = Some t
    /\ Name t = TemplateName payload
    /\ has_byte "_" (Code (Language t)) = false
    /\ template_texts t ≡ₚ (map_to_list (Params payload)).*2
    /\ length (Components t) = (if decide (Params payload = ∅) then 0 else 1).
Proof.
  unfold buildTemplateMessage. case_decide; [done |]. intros [= <-].
  eexists. split; [reflexivity |]. cbn [Name Language Code Components].
  split; [done |]. split.
  { unfold whatsapp_utils.GetLanguageCode. case_decide; [done |].
    destruct (strings.Contains (Locale payload) "_") eqn:Hc.
    - clear. induction (Locale payload) as [|c s IH]; [done |].
      cbn [strings.Split_first]. destruct (Ascii.eqb c "_") eqn:Hx; [done |].
      cbn [has_byte]. by rewrite Hx.
    - revert Hc. clear. induction (Locale payload) as [|c s IH]; [done |].
      cbn [strings.Contains strings.HasPrefix has_byte].
      destruct (Ascii.eqb c "_"); [done |]. exact IH. }
  unfold template_texts. case_decide as Hsize.
  - rewrite decide_False; [| intros He; rewrite He, map_size_empty in Hsize; lia].
    split; [| done]. simpl.
    rewrite app_nil_r, <- list_fmap_compose.
    rewrite (range_perm _ (Params payload)). done.
  - assert (Params payload = ∅) as He by (apply map_size_empty_iff; lia).
    rewrite decide_True by done. split; [| done].
    rewrite He, map_to_list_empty. done.
Qed.

End ComposeMore.

Lemma BuildMessage_shape_witness :
  exists m,
    @whatsapp_services.BuildMessage range_fwd samples.chat_media_and_template "+1234567890" = Ok m
    /\ whatsapp_models.msg_To m = "+1234567890" /\ populated m = [whatsapp_models.msg_Type m].
Proof.
  eexists. split; [reflexivity |].
  pose proof (BuildMessage_shape (H := range_fwd) samples.chat_media_and_template
                "+1234567890" _ eq_refl) as (Hto & _ & _ & Hp & _).
  split; [exact Hto | exact Hp].
Defined.


Lemma buildTemplateMessage_parameters_witness :
  exists m t,
    @whatsapp_services.buildTemplateMessage range_bwd "+15550100"
      more_samples.chat_template = Ok m
    /\ whatsapp_models.Template m = Some t
    /\ whatsapp_models.Name t = "welcome"
    /\ has_byte "_" (whatsapp_models.Code (whatsapp_models.Language t)) = false
    /\ template_texts t
       ≡ₚ (map_to_list (whatsapp_models.Params more_samples.chat_template)).*2.
Proof.
  destruct (@whatsapp_services.buildTemplateMessage range_bwd "+15550100"
              more_samples.chat_template) as [m|err] eqn:Hb;
    [| by vm_compute in Hb].
  destruct (buildTemplateMessage_parameters (H := range_bwd) _ _ _ Hb)
    as (t & Ht & Hn & Hc & Hperm & _).
  exists m, t. split; [reflexivity |]. split; [exact Ht |].
  split; [exact Hn |]. split; [exact Hc | exact Hperm].
Defined.

(** X15.  With two parameters of different values, the template parameters
    come in one order on one runtime and in the other order on the
    other: their positions are not fixed by the request. *)
Theorem template_parameter_order (payload : whatsapp_models.NotificationPayload)
    (to a b va vb : string) :
  a <> b -> va <> vb ->
  whatsapp_models.Params payload = {[ a := va; b := vb ]} ->
  whatsapp_models.TemplateName payload <> "" ->
  @whatsapp_services.buildTemplateMessage range_fwd to payload
  <> @whatsapp_services.buildTemplateMessage range_bwd to payload.
Proof.
  intros Hab Hv Hp Hname.
  assert (Hsize : 0 < size ({[ a := va; b := vb ]} : gmap string string)).
  { rewrite map_size_insert_None by by rewrite lookup_singleton_ne.
    lia. }
  unfold whatsapp_services.buildTemplateMessage. rewrite Hp.
  destruct (decide (whatsapp_models.TemplateName payload = "")); [done |].
  destruct (decide (0 < size ({[ a := va; b := vb ]} : gmap string string)));
    [| done].
  cbn [range range_fwd range_bwd].
  destruct (range_pair (H := range_fwd) a b va vb Hab) as [Hr | Hr];
    cbn [range range_fwd] in Hr; rewrite Hr; cbn; intros [=]; congruence.
Qed.

Lemma template_parameter_order_witness :
  @whatsapp_services.buildTemplateMessage range_fwd "+15550100"
    more_samples.chat_template
  <> @whatsapp_services.buildTemplateMessage range_bwd "+15550100"
       more_samples.chat_template.
Proof.
  apply (template_parameter_order more_samples.chat_template "+15550100"
           "1" "2" "Ann" "42"); done.
Defined.

(* ===================================================================== *)
(** * Further properties: the email message *)
(* ===================================================================== *)

Section EmailMore.
Import email_models email_services.

Lemma BuildEmailMessage_lookup `{MapRange} (payload : NotificationPayload)
    (m : EmailMessage) (key : string) :
  BuildEmailMessage payload = Ok m ->
  msg_To m = To payload
  /\ Headers m !! key
     = match custom_header payload key with
       | Some (VString s) => Some s
       | _ => standard_header payload key
       end.
Proof.
  unfold BuildEmailMessage.
  destruct (IsValid payload) as [err|] eqn:Hv; [done |].
  cbn zeta. unfold RenderEmailTemplate. intros [= <-]. cbn [msg_To Headers].
  split; [done |].
  assert (Hid : NotificationID payload <> "").
  { unfold IsValid in Hv. by case_decide. }
  rewrite (decide_True (P := NotificationID payload <> "")) by done.
  assert (Hbase :
    (<["X-Notification-ID" := NotificationID payload]>
       (if decide (Priority payload <> "")
        then <["X-Priority" := mapPriorityToHeader (Priority payload)]>
               (∅ : gmap string string)
        else ∅)) !! key
    = standard_header payload key).
  { unfold standard_header.
    destruct (decide (key = "X-Notification-ID")) as [-> | Hk1];
      [by rewrite lookup_insert_eq |].
    rewrite lookup_insert_ne by done.
    destruct (decide (key = "X-Priority")) as [-> | Hk2].
    - repeat case_decide; try done; by rewrite lookup_insert_eq.
    - case_decide; [by rewrite lookup_insert_ne | done]. }
  unfold custom_header.
  destruct (ChannelConfig payload !! "headers") as [[| | | | |custom]|];
    try exact Hbase.
  rewrite custom_headers_lookup.
  destruct (custom !! key) as [[]|]; done.
Qed.

(** X16.  The headers of the composed message do not depend on the order in
    which the custom headers are visited: a custom header with a string
    value wins over the tracking and priority headers of the same name,
    every other name carries the standard header if there is one. *)
Theorem BuildEmailMessage_headers (H1 H2 : MapRange) (payload : NotificationPayload)
    (m1 m2 : EmailMessage) :
  @BuildEmailMessage H1 payload = Ok m1 ->
  @BuildEmailMessage H2 payload = Ok m2 ->
  Headers m1 = Headers m2
  /\ msg_To m1 = To payload
  /\ forall key,
       Headers m1 !! key
       = match custom_header payload key with
         | Some (VString s) => Some s
         | _ => standard_header payload key
         end.
Proof.
  intros Hb1 Hb2. split; [| split].
  - apply map_eq. intros key.
    destruct (BuildEmailMessage_lookup (H := H1) payload m1 key Hb1) as [_ ->].
    by destruct (BuildEmailMessage_lookup (H := H2) payload m2 key Hb2) as [_ ->].
  - by destruct (BuildEmailMessage_lookup (H := H1) payload m1 "" Hb1).
  - intros key.
    by destruct (BuildEmailMessage_lookup (H := H1) payload m1 key Hb1).
Qed.

Context `{MapRange}.
Variable emailRegex_MatchString : string -> bool.
Variable strings_TrimSpace : string -> string.

(** X17.  An empty subject in the channel configuration is not replaced by the
    default subject: a request that is valid otherwise is refused for
    its subject, and nothing is sent. *)
Theorem empty_subject_refused (o : Outcomes) (payload : NotificationPayload) :
  ChannelConfig payload !! "subject" = Some (VString "") ->
  IsValid payload = None ->
  emailRegex_MatchString (strings_TrimSpace (To payload)) = true ->
  ProcessNotification emailRegex_MatchString strings_TrimSpace o payload
  = ([Enter Stage_BuildEmailMessage; Enter Stage_ValidateEmailMessage],
     Some (fmt_Errorf "invalid email message: " ErrInvalidSubject "")).
Proof.
  intros Hs Hv Hre.
  unfold ProcessNotification, BuildEmailMessage. rewrite Hv. cbn zeta.
  unfold RenderEmailTemplate, GetSubject. rewrite Hs.
  unfold RenderTemplate at 1. rewrite decide_True by done.
  unfold ValidateEmailMessage, ValidateEmail. cbn [msg_To Subject].
  assert (Hto : To payload <> "").
  { unfold IsValid in Hv. by repeat case_decide. }
  rewrite (decide_False (P := To payload = "")) by done.
  rewrite Hre. cbn [negb]. rewrite decide_True by done. reflexivity.
Qed.

End EmailMore.

Lemma BuildEmailMessage_headers_witness :
  exists m1 m2,
    @email_services.BuildEmailMessage range_fwd more_samples.email_custom_headers = Ok m1
    /\ @email_services.BuildEmailMessage range_bwd more_samples.email_custom_headers
       = Ok m2
    /\ email_models.Headers m1 = email_models.Headers m2
    /\ email_models.Headers m1 !! "X-Notification-ID" = Some "n-0"
    /\ email_models.Headers m1 !! "X-Priority" = Some "2 (High)"
    /\ email_models.Headers m1 !! "X-Retries" = None.
Proof.
  destruct (@email_services.BuildEmailMessage range_fwd
              more_samples.email_custom_headers) as [m1|err] eqn:Hb1;
    [| by vm_compute in Hb1].
  destruct (@email_services.BuildEmailMessage range_bwd
              more_samples.email_custom_headers) as [m2|err] eqn:Hb2;
    [| by vm_compute in Hb2].
  destruct (BuildEmailMessage_headers range_fwd range_bwd _ m1 m2 Hb1 Hb2)
    as (Heq & _ & Hlookup).
  exists m1, m2. split; [reflexivity |]. split; [reflexivity |].
  split; [exact Heq |]. rewrite !Hlookup. by vm_compute.
Defined.

Lemma empty_subject_refused_witness :
  value_of (@email_services.ProcessNotification range_fwd
              (fun _ => true) (fun s => s)
              samples.outcomes_ok more_samples.email_empty_subject)
  = Some (fmt_Errorf "invalid email message: " email_models.ErrInvalidSubject "").
Proof.
  by rewrite (empty_subject_refused (H := range_fwd) (fun _ => true) (fun s => s)
                samples.outcomes_ok more_samples.email_empty_subject
                eq_refl eq_refl eq_refl).
Defined.

(* ===================================================================== *)
(** * Further properties: whole runs of the consumer loops *)
(* ===================================================================== *)

Lemma commits_app (l1 l2 : list Call) : commits (l1 ++ l2) = commits l1 ++ commits l2.
Proof. apply omap_app. Qed.

Lemma sends_app (l1 l2 : list Call) : sends (l1 ++ l2) = sends l1 ++ sends l2.
Proof. apply omap_app. Qed.

Lemma commits_none (l : list Call) :
  Forall (fun c => is_commit c = false) l -> commits l = [].
Proof.
  induction 1 as [|c l Hc _ IH]; [done |].
  destruct c; try done; exact IH.
Qed.

Section Runs.
Context `{MapRange}.
Variable emailRegex_MatchString : string -> bool.
Variable strings_TrimSpace : string -> string.
Variable email_Unmarshal : string -> email_models.NotificationPayload * option error.
Variable sms_Unmarshal : string -> sms_models.NotificationPayload * option error.
Variable chat_Unmarshal : string -> whatsapp_models.NotificationPayload * option error.

#[local] Abbreviation email_Process :=
  (email_services.ProcessNotification emailRegex_MatchString strings_TrimSpace).
#[local] Abbreviation email_run :=
  (email_services.NotificationService_StartConsumer
     emailRegex_MatchString strings_TrimSpace email_Unmarshal).

Lemma email_Process_log (o : Outcomes) (payload : email_models.NotificationPayload) :
  commits (log_of (email_Process o payload)) = []
  /\ acks (log_of (email_Process o payload)) = []
  /\ length (sends (log_of (email_Process o payload))) <= 1.
Proof.
  destruct (email_ProcessNotification_cases emailRegex_MatchString
              strings_TrimSpace o payload)
    as [(cause & _ & ->) | [(msg & cause & _ & _ & ->) | (msg & _ & _ & ->)]];
    cbn; repeat split; lia.
Qed.

Lemma email_iteration_accounting (p : Poll) :
  let l := log_of (email_services.StartConsumer_iteration email_Unmarshal p
                     email_Process) in
  commits l = fetched [p]
  /\ ack_NotificationID <$> acks l
     = (fun m => email_models.NotificationID (email_Unmarshal (Value m)).1)
         <$> fetched [p]
  /\ length (sends l) <= length (fetched [p]).
Proof.
  destruct p as [e|m o]; [cbn; repeat split; lia |].
  destruct (email_Unmarshal (Value m)) as [payload [e|]] eqn:Hd.
  - unfold email_services.StartConsumer_iteration, email_services.processMessage.
    rewrite Hd. cbn. rewrite Hd. repeat split; lia.
  - cbn zeta.
    rewrite (email_iteration_decoded email_Unmarshal m o payload email_Process Hd).
    destruct (email_Process_log o payload) as (Hc & Ha & Hs).
    change (?x :: ?l ++ ?r) with ([x] ++ l ++ r).
    rewrite !commits_app, !acks_app, !sends_app, Hc, Ha.
    cbn. rewrite Hd. repeat split.
    rewrite app_nil_r. exact Hs.
Qed.

(** X18.  In every run of the email consumer each delivered message is
    committed once, in the order of delivery, and gets one
    acknowledgment, under the identifier that decoding left in the
    request; no more messages are sent than were delivered, and the run
    ends with the cancellation of its context. *)
Theorem email_run_accounting (script : list Poll) :
  commits (log_of (email_run script)) = fetched script
  /\ ack_NotificationID <$> acks (log_of (email_run script))
     = (fun m => email_models.NotificationID (email_Unmarshal (Value m)).1)
         <$> fetched script
  /\ length (sends (log_of (email_run script))) <= length (fetched script)
  /\ value_of (email_run script) = context_Canceled.
Proof.
  unfold email_services.NotificationService_StartConsumer.
  split; [| split; [| split]]; [| | | apply email_StartConsumer_returns].
  - induction script as [|p rest IH]; [done |].
    rewrite email_StartConsumer_cons, commits_app, IH.
    destruct (email_iteration_accounting p) as (-> & _ & _).
    unfold fetched. change (p :: rest) with ([p] ++ rest). by rewrite omap_app.
  - induction script as [|p rest IH]; [done |].
    rewrite email_StartConsumer_cons, acks_app, fmap_app, IH.
    destruct (email_iteration_accounting p) as (_ & -> & _).
    unfold fetched. change (p :: rest) with ([p] ++ rest).
    by rewrite (omap_app _ [p] rest), fmap_app.
  - induction script as [|p rest IH]; [done |].
    rewrite email_StartConsumer_cons, sends_app, length_app.
    destruct (email_iteration_accounting p) as (_ & _ & Hs).
    unfold fetched in *. change (p :: rest) with ([p] ++ rest).
    rewrite (omap_app _ [p] rest), length_app. lia.
Qed.

Lemma sms_iteration_accounting (cfg : sms_service.AppConfig) (p : Poll) :
  let l := log_of (sms_service.consumeSMSTopic_iteration sms_Unmarshal cfg p) in
  Forall (fun a => ack_Status a = "SUCCESS"
                   /\ ack_Details a = "SMS sent successfully") (acks l)
  /\ length (acks l) = length (sends l)
  /\ commits l = (if decide (sms_service.GroupID cfg = "") then [] else fetched [p]).
Proof.
  unfold sms_service.consumeSMSTopic_iteration, kafka.ReadMessage.
  destruct p as [e|m o].
  - cbn. repeat split; [constructor | by case_decide].
  - destruct (decide (sms_service.GroupID cfg = "")) as [Hg|Hg].
    + rewrite (decide_False (P := sms_service.GroupID cfg <> "")) by tauto.
      cbn. destruct (sms_Unmarshal (Value m)) as [payload [e|]];
        cbn; repeat split; repeat constructor.
    + rewrite (decide_True (P := sms_service.GroupID cfg <> "")) by done.
      cbn. destruct (commit_result o) as [e|]; cbn;
        [repeat split; constructor |].
      destruct (sms_Unmarshal (Value m)) as [payload [e|]];
        cbn; repeat split; repeat constructor.
Qed.

(** X19.  In every run of the SMS consumer every acknowledgment reports
    success, there are as many acknowledgments as messages sent, and
    with a consumer group every delivered message is committed. *)
Theorem sms_run_accounting (cfg : sms_service.AppConfig) (script : list Poll) :
  let l := log_of (sms_service.consumeSMSTopic sms_Unmarshal cfg script) in
  Forall (fun a => ack_Status a = "SUCCESS"
                   /\ ack_Details a = "SMS sent successfully") (acks l)
  /\ length (acks l) = length (sends l)
  /\ commits l = (if decide (sms_service.GroupID cfg = "") then [] else fetched script).
Proof.
  cbn zeta. induction script as [|p rest (IH1 & IH2 & IH3)].
  - cbn. repeat split; [constructor | by case_decide].
  - rewrite sms_consumeSMSTopic_cons, acks_app, sends_app, commits_app.
    destruct (sms_iteration_accounting cfg p) as (H1 & H2 & H3).
    cbn zeta in H1, H2, H3.
    split; [by apply Forall_app |]. split; [rewrite !length_app; lia |].
    rewrite H3, IH3. case_decide; [done |].
    unfold fetched. change (p :: rest) with ([p] ++ rest). by rewrite omap_app.
Qed.

Lemma chat_iteration_accounting (GroupID : string) (p : Poll) :
  let l := log_of (whatsapp_legacy.Start_iteration chat_Unmarshal
                     whatsapp_legacy.HandleMessage GroupID p) in
  length (acks l) = length (sends l)
  /\ Forall (fun c => match c with
                      | Send (Chat m) => populated m = [whatsapp_models.msg_Type m]
                      | Send _ => False
                      | _ => True
                      end) l
  /\ commits l = (if decide (GroupID = "") then [] else fetched [p]).
Proof.
  unfold whatsapp_legacy.Start_iteration.
  assert (Hshape : forall payload,
            populated (whatsapp_legacy.BuildFromPayload payload)
            = [whatsapp_models.msg_Type (whatsapp_legacy.BuildFromPayload payload)]).
  { intros payload. unfold whatsapp_legacy.BuildFromPayload,
      whatsapp_legacy.BuildMediaMessage, whatsapp_legacy.BuildTemplateMessage,
      whatsapp_legacy.BuildTextMessage, whatsapp_models.MediaTypeImage,
      whatsapp_models.MediaTypeDocument, whatsapp_models.MediaTypeAudio,
      whatsapp_models.MediaTypeVideo.
    repeat case_decide; unfold populated;
      cbn [whatsapp_models.msg_Type whatsapp_services.new_message
           whatsapp_services.set_Text whatsapp_services.set_Image
           whatsapp_services.set_Document whatsapp_services.set_Audio
           whatsapp_services.set_Video whatsapp_services.set_Template
           whatsapp_services.set_Type
           whatsapp_models.Text whatsapp_models.Image whatsapp_models.Document
           whatsapp_models.Audio whatsapp_models.Video whatsapp_models.Template app];
      congruence. }
  assert (Hhandle : forall o payload,
    let l := log_of (whatsapp_legacy.HandleMessage o payload) in
    length (acks l) = length (sends l)
    /\ Forall (fun c => match c with
                        | Send (Chat m) => populated m = [whatsapp_models.msg_Type m]
                        | Send _ => False
                        | _ => True
                        end) l
    /\ commits l = []).
  { intros o payload. unfold whatsapp_legacy.HandleMessage, whatsapp_legacy.SendAck.
    cbn. destruct (send_result o), (write_result o); cbn;
      repeat split; repeat constructor; apply Hshape. }
  destruct p as [e|m o].
  - cbn. repeat split; [repeat constructor | by case_decide].
  - cbn zeta. rewrite log_of_bind.
    set (rd := kafka.ReadMessage GroupID (PollMessage m o)).
    assert (Hrd : acks (log_of rd) = [] /\ sends (log_of rd) = []
                  /\ commits (log_of rd)
                     = (if decide (GroupID = "") then [] else [m])
                  /\ Forall (fun c => match c with
                                      | Send _ => False
                                      | _ => True
                                      end) (log_of rd)
                  /\ (value_of rd = Ok m \/ exists e, value_of rd = Err e)).
    { subst rd. unfold kafka.ReadMessage.
      destruct (decide (GroupID = "")) as [Hg|Hg].
      - rewrite (decide_False (P := GroupID <> "")) by tauto.
        cbn. repeat split; [repeat constructor | by left].
      - rewrite (decide_True (P := GroupID <> "")) by done.
        destruct (commit_result o) as [e|]; cbn;
          (repeat split; [repeat constructor |]); [right; by eexists | by left]. }
    destruct Hrd as (Ha & Hs & Hc & Hf & Hv).
    assert (Hf' : Forall (fun c => match c with
                                   | Send (Chat m) =>
                                       populated m = [whatsapp_models.msg_Type m]
                                   | Send _ => False
                                   | _ => True
                                   end) (log_of rd)).
    { eapply Forall_impl; [exact Hf |]. by intros []. }
    clearbody rd.
    rewrite acks_app, sends_app, commits_app, Ha, Hs, Hc. cbn [app fetched omap].
    destruct Hv as [Hv | [e Hv]]; rewrite Hv.
    + destruct (chat_Unmarshal (Value m)) as [payload [e|]].
      * cbn [log_of ret fst acks sends commits omap length]. rewrite !app_nil_r.
        split; [done |]. split; [exact Hf' | by case_decide].
      * rewrite log_of_bind. cbn [kafka.outcomes_of ret log_of fst].
        destruct (Hhandle o payload) as (H1 & H2 & H3). cbn zeta in H1, H2, H3.
        unfold log_of in *. rewrite !app_nil_r, H3.
        split; [done |]. split; [by apply Forall_app |].
        case_decide; by rewrite ?app_nil_r.
    + cbn [log_of ret fst acks sends commits omap length]. rewrite !app_nil_r.
      split; [done |]. split; [exact Hf' | by case_decide].
Qed.

(** X20.  In every run of the chat consumer there are as many acknowledgments
    as messages sent, every message sent has exactly the content field
    populated that its type names, with a consumer group every delivered
    message is committed, and the run ends with the cancellation of its
    context. *)
Theorem chat_run_accounting (GroupID : string) (script : list Poll) :
  let run := whatsapp_legacy.Start chat_Unmarshal whatsapp_legacy.HandleMessage
               GroupID script in
  length (acks (log_of run)) = length (sends (log_of run))
  /\ Forall (fun c => match c with
                      | Send (Chat m) => populated m = [whatsapp_models.msg_Type m]
                      | Send _ => False
                      | _ => True
                      end) (log_of run)
  /\ commits (log_of run) = (if decide (GroupID = "") then [] else fetched script)
  /\ value_of run = context_Canceled.
Proof.
  cbn zeta. induction script as [|p rest (IH1 & IH2 & IH3 & IH4)].
  - cbn. repeat split; [constructor | by case_decide].
  - rewrite (chat_Start_cons chat_Unmarshal GroupID p rest),
      acks_app, sends_app, commits_app.
    destruct (chat_iteration_accounting GroupID p) as (H1 & H2 & H3).
    cbn zeta in H1, H2, H3.
    split; [rewrite !length_app; lia |]. split; [by apply Forall_app |].
    split.
    + rewrite H3, IH3. case_decide; [done |].
      unfold fetched. change (p :: rest) with ([p] ++ rest). by rewrite omap_app.
    + cbn [whatsapp_legacy.Start]. by rewrite value_of_bind.
Qed.

End Runs.

(* ===================================================================== *)
(** * Further properties: configuration *)
(* ===================================================================== *)

Lemma getEnv_default (os_Getenv : string -> string) (key defaultValue : string) :
  defaultValue <> "" -> getEnv os_Getenv key defaultValue <> "".
Proof. intros Hd. unfold getEnv. by case_decide. Qed.

Lemma getEnv_empty (os_Getenv : string -> string) (key : string) :
  getEnv os_Getenv key "" = os_Getenv key.
Proof.
  unfold getEnv. case_decide as Hv; [done |].
  done.
Qed.

(** X21.  The chat service's configuration loads exactly when the access token
    and the phone number identifier are set; it then carries them, and a
    broker, a consumer group, topics and a port that are not empty.  When
    it does not load, the error names the first of the two that is
    missing: the check of the broker never fails. *)
Theorem whatsapp_Load_spec (os_Getenv : string -> string) :
  match whatsapp_config.Load os_Getenv with
  | Ok cfg =>
      os_Getenv "WHATSAPP_ACCESS_TOKEN" <> ""
      /\ os_Getenv "WHATSAPP_PHONE_NUMBER_ID" <> ""
      /\ whatsapp_config.AccessToken (whatsapp_config.WhatsApp cfg)
         = os_Getenv "WHATSAPP_ACCESS_TOKEN"
      /\ whatsapp_config.PhoneNumberID (whatsapp_config.WhatsApp cfg)
         = os_Getenv "WHATSAPP_PHONE_NUMBER_ID"
      /\ whatsapp_config.WebhookVerifyToken (whatsapp_config.WhatsApp cfg)
         = os_Getenv "WHATSAPP_WEBHOOK_VERIFY_TOKEN"
      /\ Broker (whatsapp_config.Kafka cfg) <> ""
      /\ ConsumerGroup (whatsapp_config.Kafka cfg) <> ""
      /\ Topic (whatsapp_config.Kafka cfg) <> ""
      /\ AckTopic (whatsapp_config.Kafka cfg) <> ""
      /\ Port (whatsapp_config.Server cfg) <> ""
  | Err e =>
      (os_Getenv "WHATSAPP_ACCESS_TOKEN" = ""
       /\ Error e = "invalid configuration: WHATSAPP_ACCESS_TOKEN is required")
      \/ (os_Getenv "WHATSAPP_ACCESS_TOKEN" <> ""
          /\ os_Getenv "WHATSAPP_PHONE_NUMBER_ID" = ""
          /\ Error e = "invalid configuration: WHATSAPP_PHONE_NUMBER_ID is required")
  end.
Proof.
  unfold whatsapp_config.Load, whatsapp_config.validate.
  cbn [whatsapp_config.WhatsApp whatsapp_config.Kafka whatsapp_config.Server
       whatsapp_config.AccessToken whatsapp_config.PhoneNumberID
       whatsapp_config.WebhookVerifyToken Broker ConsumerGroup Topic AckTopic Port].
  rewrite ?getEnv_empty.
  destruct (decide (os_Getenv "WHATSAPP_ACCESS_TOKEN" = "")) as [Ht|Ht];
    [by left |].
  destruct (decide (os_Getenv "WHATSAPP_PHONE_NUMBER_ID" = "")) as [Hp|Hp];
    [by right |].
  rewrite decide_False by (by apply getEnv_default).
  cbn [whatsapp_config.WhatsApp whatsapp_config.Kafka whatsapp_config.Server
       whatsapp_config.AccessToken whatsapp_config.PhoneNumberID
       whatsapp_config.WebhookVerifyToken Broker ConsumerGroup Topic AckTopic Port].
  rewrite ?getEnv_empty.
  repeat split; try done; by apply getEnv_default.
Qed.

(** X22.  The email service's configuration loads exactly when the sender, the
    SMTP user and the SMTP password are set; when it does not load, the
    error names the first of the three that is missing, in this order. *)
Theorem email_Load_spec (os_Getenv : string -> string) :
  match email_config.Load os_Getenv with
  | Ok cfg =>
      os_Getenv "EMAIL_SENDER" <> ""
      /\ os_Getenv "EMAIL_SMTP_USER" <> ""
      /\ os_Getenv "EMAIL_SMTP_PASSWORD" <> ""
      /\ email_config.FromEmail (email_config.Email cfg) = os_Getenv "EMAIL_SENDER"
      /\ email_config.SMTPUser (email_config.Email cfg) = os_Getenv "EMAIL_SMTP_USER"
      /\ email_config.SMTPPassword (email_config.Email cfg)
         = os_Getenv "EMAIL_SMTP_PASSWORD"
      /\ email_config.SMTPHost (email_config.Email cfg) <> ""
      /\ email_config.SMTPPort (email_config.Email cfg) <> ""
      /\ Broker (email_config.Kafka cfg) <> ""
      /\ ConsumerGroup (email_config.Kafka cfg) <> ""
      /\ Topic (email_config.Kafka cfg) <> ""
      /\ AckTopic (email_config.Kafka cfg) <> ""
  | Err e =>
      (os_Getenv "EMAIL_SENDER" = ""
       /\ Error e = "invalid configuration: EMAIL_SENDER is required")
      \/ (os_Getenv "EMAIL_SENDER" <> "" /\ os_Getenv "EMAIL_SMTP_USER" = ""
          /\ Error e = "invalid configuration: EMAIL_SMTP_USER is required")
      \/ (os_Getenv "EMAIL_SENDER" <> "" /\ os_Getenv "EMAIL_SMTP_USER" <> ""
          /\ os_Getenv "EMAIL_SMTP_PASSWORD" = ""
          /\ Error e = "invalid configuration: EMAIL_SMTP_PASSWORD is required")
  end.
Proof.
  unfold email_config.Load, email_config.validate.
  cbn [email_config.Email email_config.Kafka email_config.Server
       email_config.FromEmail email_config.SMTPUser email_config.SMTPPassword].
  rewrite ?getEnv_empty.
  destruct (decide (os_Getenv "EMAIL_SENDER" = "")) as [Hs|Hs]; [by left |].
  destruct (decide (os_Getenv "EMAIL_SMTP_USER" = "")) as [Hu|Hu];
    [by right; left |].
  destruct (decide (os_Getenv "EMAIL_SMTP_PASSWORD" = "")) as [Hp|Hp];
    [by right; right |].
  cbn [email_config.Email email_config.Kafka email_config.Server
       email_config.FromEmail email_config.SMTPUser email_config.SMTPPassword
       email_config.SMTPHost email_config.SMTPPort
       Broker ConsumerGroup Topic AckTopic].
  rewrite ?getEnv_empty.
  repeat split; try done; by apply getEnv_default.
Qed.

(* ===================================================================== *)
(** * Further properties: the HTTP handlers *)
(* ===================================================================== *)

(** X23.  A verification request to the webhook is answered with 200 exactly
    when it carries a token and a challenge that are not empty and the
    token is the configured one; the answer is then the challenge.  With
    no token configured, no verification request is answered with 200. *)
Theorem webhook_verification (cfg : whatsapp_config.WhatsAppConfig) (r : http.Request) :
  http.Method r = "GET" ->
  let resp := whatsapp_handlers.WebhookHandler cfg r in
  let token := http.Get (http.URL_Query r) "hub.verify_token" in
  let challenge := http.Get (http.URL_Query r) "hub.challenge" in
  (http.StatusCode resp = 200
   <-> token <> "" /\ challenge <> ""
       /\ token = whatsapp_config.WebhookVerifyToken cfg)
  /\ (http.StatusCode resp = 200 -> http.resp_Body resp = http.Plain challenge)
  /\ (whatsapp_config.WebhookVerifyToken cfg = "" -> http.StatusCode resp <> 200).
Proof.
  intros Hm. cbn zeta.
  unfold whatsapp_handlers.WebhookHandler, http.MethodGet.
  rewrite decide_True by done.
  unfold whatsapp_handlers.handleWebhookVerification, whatsapp_handlers.VerifyWebhook.
  set (token := http.Get (http.URL_Query r) "hub.verify_token").
  set (challenge := http.Get (http.URL_Query r) "hub.challenge").
  destruct (decide (token = "" \/ challenge = "")) as [He|He].
  - cbn. split; [| split]; [| done | done].
    split; [done |]. intros (Ht & Hc & _). destruct He; done.
  - destruct (decide (token <> whatsapp_config.WebhookVerifyToken cfg)) as [Hne|Heq].
    + cbn. split; [| split]; [| done | done].
      split; [done |]. by intros (_ & _ & ?).
    + apply dec_stable in Heq. cbn. split; [| split]; [| done |].
      * split; [intros _ | done]. split; [tauto |]. split; [tauto | done].
      * intros Hcfg. exfalso. apply He. left. congruence.
Qed.

Lemma webhook_verification_witness :
  let cfg :=
    {| whatsapp_config.AccessToken := "t"; whatsapp_config.PhoneNumberID := "1";
       whatsapp_config.BusinessAccountID := ""; whatsapp_config.APIVersion := "v18.0";
       whatsapp_config.WebhookVerifyToken := "secret";
       whatsapp_config.BaseURL := "https://graph.facebook.com" |} in
  let r :=
    {| http.Method := "GET";
       http.URL_Query := {[ "hub.verify_token" := ["secret"];
                            "hub.challenge" := ["1158201444"] ]};
       http.req_Body := Ok "" |} in
  http.StatusCode (whatsapp_handlers.WebhookHandler cfg r) = 200
  /\ http.resp_Body (whatsapp_handlers.WebhookHandler cfg r) = http.Plain "1158201444".
Proof.
  cbn zeta.
  destruct (webhook_verification
              {| whatsapp_config.AccessToken := "t"; whatsapp_config.PhoneNumberID := "1";
                 whatsapp_config.BusinessAccountID := "";
                 whatsapp_config.APIVersion := "v18.0";
                 whatsapp_config.WebhookVerifyToken := "secret";
                 whatsapp_config.BaseURL := "https://graph.facebook.com" |}
              {| http.Method := "GET";
                 http.URL_Query := {[ "hub.verify_token" := ["secret"];
                                      "hub.challenge" := ["1158201444"] ]};
                 http.req_Body := Ok "" |} eq_refl) as (Hiff & Hbody & _).
  assert (Hok : http.StatusCode
                  (whatsapp_handlers.WebhookHandler
                     {| whatsapp_config.AccessToken := "t";
                        whatsapp_config.PhoneNumberID := "1";
                        whatsapp_config.BusinessAccountID := "";
                        whatsapp_config.APIVersion := "v18.0";
                        whatsapp_config.WebhookVerifyToken := "secret";
                        whatsapp_config.BaseURL := "https://graph.facebook.com" |}
                     {| http.Method := "GET";
                        http.URL_Query := {[ "hub.verify_token" := ["secret"];
                                             "hub.challenge" := ["1158201444"] ]};
                        http.req_Body := Ok "" |}) = 200).
  { apply Hiff. by vm_compute. }
  split; [exact Hok |]. rewrite (Hbody Hok). by vm_compute.
Defined.

Section TestHandlers.
Context `{MapRange}.
Variable emailRegex_MatchString : string -> bool.
Variable strings_TrimSpace : string -> string.
Variable chat_Decode : string -> result whatsapp_models.NotificationPayload.
Variable email_Decode : string -> result email_models.NotificationPayload.
Variable sms_Decode : string -> result sms_models.NotificationPayload.

Lemma chat_ProcessNotification_log (o : Outcomes)
    (payload : whatsapp_models.NotificationPayload) :
  let run := whatsapp_services.ProcessNotification o payload in
  acks (log_of run) = [] /\ commits (log_of run) = []
  /\ length (sends (log_of run)) <= 1
  /\ (value_of run = None -> length (sends (log_of run)) = 1).
Proof.
  cbn zeta. unfold whatsapp_services.ProcessNotification.
  destruct (whatsapp_models.IsValid payload); [cbn; repeat split; (lia || done) |].
  destruct (whatsapp_utils.CleanPhoneNumber _) as [cleanTo|e];
    [| cbn; repeat split; (lia || done)].
  destruct (whatsapp_services.BuildMessage payload cleanTo) as [message|e];
    [| cbn; repeat split; (lia || done)].
  destruct (send_result o); cbn; repeat split; (lia || done).
Qed.

Lemma email_ProcessNotification_sent (o : Outcomes)
    (payload : email_models.NotificationPayload) :
  let run := email_services.ProcessNotification
               emailRegex_MatchString strings_TrimSpace o payload in
  acks (log_of run) = [] /\ commits (log_of run) = []
  /\ length (sends (log_of run)) <= 1
  /\ (value_of run = None -> length (sends (log_of run)) = 1).
Proof.
  cbn zeta.
  destruct (email_ProcessNotification_cases emailRegex_MatchString
              strings_TrimSpace o payload)
    as [(cause & _ & ->) | [(msg & cause & _ & _ & ->) | (msg & _ & _ & ->)]];
    cbn; repeat split; (lia || done).
Qed.

(** X24.  The chat test endpoint writes no acknowledgment and commits nothing;
    it answers 200 exactly to a POST whose body decodes to a request that
    [ProcessNotification] accepts, and then one message was sent. *)
Theorem chat_SendTestHandler_spec (o : Outcomes) (r : http.Request) :
  let run := whatsapp_handlers.SendTestHandler chat_Decode o r in
  acks (log_of run) = [] /\ commits (log_of run) = []
  /\ length (sends (log_of run)) <= 1
  /\ (http.StatusCode (value_of run) = 200
      <-> http.Method r = "POST"
          /\ exists data payload,
               http.req_Body r = Ok data /\ chat_Decode data = Ok payload
               /\ value_of (whatsapp_services.ProcessNotification o payload) = None)
  /\ (http.StatusCode (value_of run) = 200 -> length (sends (log_of run)) = 1).
Proof.
  cbn zeta. unfold whatsapp_handlers.SendTestHandler, http.MethodPost.
  destruct (decide (http.Method r <> "POST")) as [Hm|Hm].
  { cbn. repeat split; try (lia || done). by intros [? _]. }
  apply dec_stable in Hm.
  destruct (http.req_Body r) as [data|e].
  2: { cbn. repeat split; try (lia || done). by intros (_ & ? & ? & ? & _). }
  destruct (chat_Decode data) as [payload|e] eqn:Hd.
  2: { cbn. repeat split; try (lia || done).
       intros (_ & data' & payload & [= <-] & Hd' & _). congruence. }
  destruct (chat_ProcessNotification_log o payload) as (Ha & Hc & Hs & Hsent).
  cbn zeta in Ha, Hc, Hs, Hsent.
  rewrite log_of_bind, value_of_bind, acks_app, commits_app, sends_app, Ha, Hc.
  destruct (value_of (whatsapp_services.ProcessNotification o payload))
    as [err|] eqn:Hv; cbn [log_of value_of ret fst snd app acks commits sends omap
                           http.StatusCode http_Error http.StatusOK
                           http.StatusInternalServerError];
    rewrite app_nil_r.
  - repeat split; try (lia || done).
    intros (_ & data' & payload' & [= <-] & Hd' & Hv').
    rewrite Hd in Hd'. injection Hd' as <-. congruence.
  - repeat split; try (lia || done); [| by auto].
    exists data, payload. by rewrite Hv.
Qed.

(** X25.  The email test endpoint writes no acknowledgment and commits
    nothing; it answers 200 exactly to a POST whose body decodes to a
    request that [ProcessNotification] accepts, and then one message was
    sent. *)
Theorem email_SendTestHandler_spec (o : Outcomes) (r : http.Request) :
  let run := email_handlers.SendTestHandler emailRegex_MatchString
               strings_TrimSpace email_Decode o r in
  acks (log_of run) = [] /\ commits (log_of run) = []
  /\ length (sends (log_of run)) <= 1
  /\ (http.StatusCode (value_of run) = 200
      <-> http.Method r = "POST"
          /\ exists data payload,
               http.req_Body r = Ok data /\ email_Decode data = Ok payload
               /\ value_of (email_services.ProcessNotification
                              emailRegex_MatchString strings_TrimSpace o payload)
                  = None)
  /\ (http.StatusCode (value_of run) = 200 -> length (sends (log_of run)) = 1).
Proof.
  cbn zeta. unfold email_handlers.SendTestHandler, http.MethodPost.
  destruct (decide (http.Method r <> "POST")) as [Hm|Hm].
  { cbn. repeat split; try (lia || done). by intros [? _]. }
  apply dec_stable in Hm.
  destruct (http.req_Body r) as [data|e].
  2: { cbn. repeat split; try (lia || done). by intros (_ & ? & ? & ? & _). }
  destruct (email_Decode data) as [payload|e] eqn:Hd.
  2: { cbn. repeat split; try (lia || done).
       intros (_ & data' & payload & [= <-] & Hd' & _). congruence. }
  destruct (email_ProcessNotification_sent o payload) as (Ha & Hc & Hs & Hsent).
  cbn zeta in Ha, Hc, Hs, Hsent.
  rewrite log_of_bind, value_of_bind, acks_app, commits_app, sends_app, Ha, Hc.
  destruct (value_of (email_services.ProcessNotification _ _ o payload))
    as [err|] eqn:Hv; cbn [log_of value_of ret fst snd app acks commits sends omap
                           http.StatusCode http_Error http.StatusOK
                           http.StatusInternalServerError];
    rewrite app_nil_r.
  - repeat split; try (lia || done).
    intros (_ & data' & payload' & [= <-] & Hd' & Hv').
    rewrite Hd in Hd'. injection Hd' as <-. congruence.
  - repeat split; try (lia || done); [| by auto].
    exists data, payload. by rewrite Hv.
Qed.

(** X26.  The SMS test endpoint answers 200 to every POST whose body decodes,
    whatever the request holds, and has then sent one message; it never
    answers 500, writes no acknowledgment and commits nothing. *)
Theorem sms_handleSendTest_spec (config : sms_service.AppConfig) (r : http.Request) :
  let run := sms_handlers.handleSendTest sms_Decode config r in
  acks (log_of run) = [] /\ commits (log_of run) = []
  /\ http.StatusCode (value_of run) <> 500
  /\ (http.StatusCode (value_of run) = 200
      <-> http.Method r = "POST"
          /\ exists data payload,
               http.req_Body r = Ok data /\ sms_Decode data = Ok payload)
  /\ length (sends (log_of run))
     = (if decide (http.StatusCode (value_of run) = 200) then 1 else 0).
Proof.
  cbn zeta. unfold sms_handlers.handleSendTest.
  destruct (decide (http.Method r <> "POST")) as [Hm|Hm].
  { cbn. repeat split; try done. by intros [? _]. }
  apply dec_stable in Hm.
  destruct (http.req_Body r) as [data|e].
  2: { cbn. repeat split; try done. by intros (_ & ? & ? & ? & _). }
  destruct (sms_Decode data) as [payload|e] eqn:Hd.
  2: { cbn. repeat split; try done.
       intros (_ & data' & payload & [= <-] & Hd'). congruence. }
  cbn. repeat split; try done. by exists data, payload.
Qed.

End TestHandlers.

(* ===================================================================== *)
(** * Further properties: the format of an email address *)
(* ===================================================================== *)

Section EmailFormat.
Import email_format.

Lemma all_bytes_has_byte (p : ascii -> bool) (c : ascii) (s : string) :
  all_bytes p s = true -> p c = false -> has_byte c s = false.
Proof.
  intros Hs Hc. induction s as [|x s IH]; [done |].
  cbn [all_bytes has_byte] in *. apply andb_prop in Hs as [Hx Hs].
  rewrite IH by done. rewrite orb_false_r.
  apply Ascii.eqb_neq. intros ->. congruence.
Qed.

Lemma split_first_inv (c : ascii) (s a b : string) :
  split_first c s = Some (a, b) -> s = a +:+ String c b.
Proof.
  revert a. induction s as [|x s IH]; intros a; [done |].
  cbn [split_first]. destruct (Ascii.eqb_spec x c) as [-> | Hx].
  - by intros [= <- <-].
  - destruct (split_first c s) as [[a' b']|]; [| done].
    intros [= <- <-]. cbn [String.append]. by rewrite (IH a' eq_refl).
Qed.

Lemma split_first_append (c : ascii) (a b : string) :
  has_byte c a = false -> split_first c (a +:+ String c b) = Some (a, b).
Proof.
  induction a as [|x a IH]; cbn [has_byte String.append split_first].
  - by rewrite Ascii.eqb_refl.
  - intros [Hx Ha]%orb_false_elim. by rewrite Hx, IH.
Qed.

Lemma split_last_inv (c : ascii) (s a b : string) :
  split_last c s = Some (a, b) -> s = a +:+ String c b.
Proof.
  revert a. induction s as [|x s IH]; intros a; [done |].
  cbn [split_last]. destruct (split_last c s) as [[a' b']|].
  - intros [= <- <-]. cbn [String.append]. by rewrite (IH a' eq_refl).
  - destruct (Ascii.eqb_spec x c) as [-> | Hx]; [| done]. by intros [= <- <-].
Qed.

Lemma split_last_absent (c : ascii) (s : string) :
  has_byte c s = false -> split_last c s = None.
Proof.
  induction s as [|x s IH]; [done |].
  cbn [has_byte split_last]. intros [Hx Hs]%orb_false_elim.
  by rewrite IH, Hx.
Qed.

Lemma split_last_append (c : ascii) (a b : string) :
  has_byte c b = false -> split_last c (a +:+ String c b) = Some (a, b).
Proof.
  intros Hb. induction a as [|x a IH]; cbn [String.append split_last].
  - by rewrite split_last_absent, Ascii.eqb_refl.
  - by rewrite IH.
Qed.

(** X27.  The matcher accepts exactly the texts of the pattern: a local part
    of one or more letters, digits and [._%+-], an at sign, a domain of
    one or more letters, digits, dots and dashes, a dot, and two or more
    letters. *)
Theorem emailRegex_shape (s : string) :
  emailRegex_MatchString s = true <-> email_shape s.
Proof.
  unfold emailRegex_MatchString, email_shape. split.
  - destruct (split_first "@" s) as [[local rest]|] eqn:Hf; [| done].
    destruct (split_last "." rest) as [[domain tld]|] eqn:Hl; [| done].
    intros Hm. repeat (apply andb_prop in Hm as [Hm ?]).
    apply split_first_inv in Hf. apply split_last_inv in Hl. subst.
    exists local, domain, tld.
    repeat split; try done; by apply Nat.leb_le.
  - intros (local & domain & tld & -> & Hl1 & Hl & Hd1 & Hd & Ht1 & Ht).
    change (local +:+ "@" +:+ domain +:+ "." +:+ tld)
      with (local +:+ String "@" (domain +:+ String "." tld)).
    rewrite split_first_append
      by (by apply (all_bytes_has_byte is_local)).
    rewrite split_last_append
      by (by apply (all_bytes_has_byte is_alpha)).
    rewrite Hl, Hd, Ht.
    apply Nat.leb_le in Hl1, Hd1, Ht1. by rewrite Hl1, Hd1, Ht1.
Qed.

Variable strings_TrimSpace : string -> string.

(** X28.  [ValidateEmail] with this matcher accepts an address exactly when it
    is not empty and matches once trimmed; the trimmed form of an accepted
    address holds no space and exactly one at sign. *)
Theorem ValidateEmail_accepts (email : string) :
  (email_services.ValidateEmail emailRegex_MatchString strings_TrimSpace email = None
   <-> email <> "" /\ emailRegex_MatchString (strings_TrimSpace email) = true)
  /\ (email_services.ValidateEmail emailRegex_MatchString strings_TrimSpace email = None ->
      has_byte " " (strings_TrimSpace email) = false
      /\ exists a b, strings_TrimSpace email = a +:+ "@" +:+ b
                     /\ has_byte "@" a = false /\ has_byte "@" b = false).
Proof.
  assert (Hiff : email_services.ValidateEmail emailRegex_MatchString
                   strings_TrimSpace email = None
                 <-> email <> ""
                     /\ emailRegex_MatchString (strings_TrimSpace email) = true).
  { unfold email_services.ValidateEmail.
    case_decide as He; [by split; [| intros [? _]] |].
    destruct (emailRegex_MatchString (strings_TrimSpace email)); cbn [negb].
    - by split.
    - split; [done | by intros [_ ?]]. }
  split; [exact Hiff |].
  intros [_ Hm]%Hiff. revert Hm. unfold emailRegex_MatchString.
  destruct (split_first "@" (strings_TrimSpace email)) as [[local rest]|] eqn:Hf;
    [| done].
  destruct (split_last "." rest) as [[domain tld]|] eqn:Hl; [| done].
  intros Hm. repeat (apply andb_prop in Hm as [Hm ?]).
  apply split_first_inv in Hf. apply split_last_inv in Hl. subst rest.
  rewrite Hf. split.
  - rewrite has_byte_app. cbn [has_byte]. rewrite has_byte_app. cbn [has_byte].
    rewrite (all_bytes_has_byte is_local " " local),
      (all_bytes_has_byte is_domain " " domain),
      (all_bytes_has_byte is_alpha " " tld) by done. done.
  - exists local, (domain +:+ String "." tld). split; [done |].
    split; [by apply (all_bytes_has_byte is_local) |].
    rewrite has_byte_app. cbn [has_byte].
    rewrite (all_bytes_has_byte is_domain "@" domain),
      (all_bytes_has_byte is_alpha "@" tld) by done. done.
Qed.

End EmailFormat.

Lemma ValidateEmail_accepts_witness :
  email_services.ValidateEmail email_format.emailRegex_MatchString
    email_validation.ascii_TrimSpace " ann@example.com " = None
  /\ has_byte " " (email_validation.ascii_TrimSpace " ann@example.com ") = false.
Proof.
  assert (Hv : email_services.ValidateEmail email_format.emailRegex_MatchString
                 email_validation.ascii_TrimSpace " ann@example.com " = None)
    by (vm_compute; reflexivity).
  split; [exact Hv |].
  destruct (ValidateEmail_accepts email_validation.ascii_TrimSpace " ann@example.com ")
    as [_ Hparts].
  by destruct (Hparts Hv) as [Hsp _].
Defined.

Example emailRegex_examples :
  email_format.emailRegex_MatchString "ann@example.com" = true
  /\ email_format.emailRegex_MatchString "ann.lee+news@mail.example.org" = true
  /\ email_format.emailRegex_MatchString "ann@example.c" = false
  /\ email_format.emailRegex_MatchString "ann@@example.com" = false
  /\ email_format.emailRegex_MatchString "ann lee@example.com" = false
  /\ email_format.emailRegex_MatchString "@example.com" = false
  /\ email_format.emailRegex_MatchString ".@-.aa" = true.
Proof. repeat split; vm_compute; reflexivity. Qed.

(* ===================================================================== *)
(** * Further properties: what the pipelines send *)
(* ===================================================================== *)

Section Sent.
Context `{MapRange}.
Variable emailRegex_MatchString : string -> bool.
Variable strings_TrimSpace : string -> string.

(** X29.  A chat message that [ProcessNotification] hands to the sender comes
    from a valid request, is addressed to the cleaned recipient, which is
    in the international format, and is the message of [BuildMessage],
    with the one content field populated that its type names. *)
Theorem chat_sent_message_valid (o : Outcomes)
    (payload : whatsapp_models.NotificationPayload)
    (m : whatsapp_models.WhatsAppMessage) :
  Send (Chat m) ∈ log_of (whatsapp_services.ProcessNotification o payload) ->
  whatsapp_models.IsValid payload = None
  /\ whatsapp_utils.CleanPhoneNumber (whatsapp_models.To payload)
     = Ok (whatsapp_models.msg_To m)
  /\ whatsapp_utils.phoneNumberRegex_MatchString (whatsapp_models.msg_To m) = true
  /\ whatsapp_services.BuildMessage payload (whatsapp_models.msg_To m) = Ok m
  /\ populated m = [whatsapp_models.msg_Type m].
Proof.
  unfold whatsapp_services.ProcessNotification.
  destruct (whatsapp_models.IsValid payload) as [err|] eqn:Hv.
  { cbn. intros Hin. repeat (apply elem_of_cons in Hin as [Hin|Hin]; [done |]).
    by apply elem_of_nil in Hin. }
  destruct (whatsapp_utils.CleanPhoneNumber (whatsapp_models.To payload))
    as [cleanTo|err] eqn:Hc.
  2: { cbn. intros Hin. repeat (apply elem_of_cons in Hin as [Hin|Hin]; [done |]).
       by apply elem_of_nil in Hin. }
  destruct (whatsapp_services.BuildMessage payload cleanTo) as [message|err] eqn:Hb.
  2: { cbn. intros Hin. repeat (apply elem_of_cons in Hin as [Hin|Hin]; [done |]).
       by apply elem_of_nil in Hin. }
  assert (Hin : Send (Chat m) ∈ [Enter Stage_IsValid; Enter Stage_CleanPhoneNumber;
                                 Enter Stage_BuildMessage; Send (Chat message)]
                -> m = message).
  { intros Hin. repeat (apply elem_of_cons in Hin as [Hin|Hin]; [congruence |]).
    by apply elem_of_nil in Hin. }
  intros Hlog.
  assert (m = message) as ->.
  { apply Hin. revert Hlog. by destruct (send_result o). }
  assert (Hshape : whatsapp_models.msg_To message = cleanTo
                   /\ populated message = [whatsapp_models.msg_Type message]).
  { revert Hb. unfold whatsapp_services.BuildMessage. case_decide.
    - intros Hb.
      by destruct (buildMediaMessage_shape cleanTo payload message Hb)
        as (? & _ & _ & ? & _).
    - case_decide.
      + unfold whatsapp_services.buildTemplateMessage. case_decide; [done |].
        by intros [= <-].
      + unfold whatsapp_services.buildTextMessage. case_decide; [done |].
        by intros [= <-]. }
  destruct Hshape as [Hto Hp].
  subst cleanTo. split; [done |]. split; [done |]. split; [| by split].
  rewrite CleanPhoneNumber_spec in Hc.
  destruct (whatsapp_utils.phoneNumberRegex_MatchString
              (whatsapp_utils.cleaned (whatsapp_models.To payload))) eqn:Hm;
    [| done].
  congruence.
Qed.

(** X30.  An email that [ProcessNotification] hands to the sender is the
    message of [BuildEmailMessage] for a valid request; its recipient is
    the recipient of the request, as it came, and passes the address
    check once trimmed; its subject and its body are not empty. *)
Theorem email_sent_message_valid (o : Outcomes)
    (payload : email_models.NotificationPayload) (m : email_models.EmailMessage) :
  Send (Email m) ∈ log_of (email_services.ProcessNotification
                             emailRegex_MatchString strings_TrimSpace o payload) ->
  email_models.IsValid payload = None
  /\ email_services.BuildEmailMessage payload = Ok m
  /\ email_models.msg_To m = email_models.To payload
  /\ emailRegex_MatchString (strings_TrimSpace (email_models.msg_To m)) = true
  /\ email_models.Subject m <> "" /\ email_models.Body m <> "".
Proof.
  destruct (email_ProcessNotification_cases emailRegex_MatchString
              strings_TrimSpace o payload)
    as [(cause & _ & ->) | [(msg & cause & _ & _ & ->) | (msg & Hb & Hv & ->)]];
    cbn [log_of fst]; intros Hin;
    repeat (apply elem_of_cons in Hin as [Hin|Hin]; [try done |]);
    try (by apply elem_of_nil in Hin).
  injection Hin as ->.
  assert (Hvalid : email_models.IsValid payload = None).
  { revert Hb. unfold email_services.BuildEmailMessage.
    by destruct (email_models.IsValid payload). }
  split; [done |]. split; [done |].
  split; [by destruct (BuildEmailMessage_lookup payload msg "" Hb) |].
  revert Hv. unfold email_services.ValidateEmailMessage, email_services.ValidateEmail.
  case_decide; [done |].
  destruct (emailRegex_MatchString (strings_TrimSpace (email_models.msg_To msg)));
    cbn [negb]; [| done].
  by repeat case_decide.
Qed.

End Sent.

Lemma chat_sent_message_valid_witness :
  exists m,
    Send (Chat m) ∈ log_of (@whatsapp_services.ProcessNotification range_fwd
                              samples.outcomes_ok samples.chat_media_and_template)
    /\ whatsapp_models.msg_To m = "+1234567890"
    /\ populated m = [whatsapp_models.msg_Type m].
Proof.
  assert (exists m,
            Send (Chat m)
            ∈ log_of (@whatsapp_services.ProcessNotification range_fwd
                        samples.outcomes_ok samples.chat_media_and_template))
    as [m Hin].
  { eexists. vm_compute. do 3 apply list_elem_of_further. apply list_elem_of_here. }
  destruct (chat_sent_message_valid (H := range_fwd) _ _ m Hin)
    as (_ & Hc & _ & _ & Hp).
  exists m. split; [exact Hin |]. split; [| exact Hp].
  assert (Hk : whatsapp_utils.CleanPhoneNumber
                 (whatsapp_models.To samples.chat_media_and_template)
               = Ok "+1234567890") by (vm_compute; reflexivity).
  congruence.
Defined.

Lemma email_sent_message_valid_witness :
  exists m,
    Send (Email m) ∈ log_of (@email_services.ProcessNotification range_fwd
                               email_format.emailRegex_MatchString
                               email_validation.ascii_TrimSpace
                               samples.outcomes_ok (samples.email_request "high"))
    /\ email_models.msg_To m = "ann@example.com"
    /\ email_models.Subject m <> "".
Proof.
  assert (exists m,
            Send (Email m)
            ∈ log_of (@email_services.ProcessNotification range_fwd
                        email_format.emailRegex_MatchString
                        email_validation.ascii_TrimSpace
                        samples.outcomes_ok (samples.email_request "high")))
    as [m Hin].
  { eexists. vm_compute. do 2 apply list_elem_of_further. apply list_elem_of_here. }
  destruct (email_sent_message_valid (H := range_fwd) _ _ _ _ m Hin)
    as (_ & _ & Hto & _ & Hs & _).
  exists m. split; [exact Hin |]. split; [exact Hto | exact Hs].
Defined.
